(** * koffee: the resource table generator, its registry and its printers

    A shallow embedding of package [definition] of cola-io/koffee (the
    table generator, the handler registry and the row printers for Pods,
    Jobs, CertificateSigningRequests, EndpointSlices and FlowSchemas),
    with the properties of the specification proved over it.

    Conventions of the embedding:
    - a Go [string] is a [string]; byte-wise comparison is [String.ltb];
    - Go integers ([int], [int32], [int64]) are [Z]; additions of
      [int32] restart counters into an [int] are written with
      [int_add], the 64-bit wrap-around; counters that are only ever
      incremented once per slice element stay below the slice length and
      are written with plain [+ 1];
    - a pointer that may be [nil] is an [option];
    - [metav1.Time] is the offset (in nanoseconds) from Go's zero time
      instant, so [IsZero] is [=? 0] and [Before] is [<?];
    - a Go [map] is a [gmap];
    - a function returning [(rows, error)] returns a pair whose second
      component is an [option]. *)

From Stdlib Require Import ZArith Lia List Permutation Sorted.
From Stdlib Require Import Strings.String Strings.Ascii Numbers.DecimalString.
From Stdlib Require Structures.OrderedTypeEx.
From stdpp Require Import base option strings gmap.

Import ListNotations.
Local Open Scope string_scope.
Local Open Scope list_scope.
Local Open Scope Z_scope.

(** ** Go runtime and library helpers *)

(** [strconv.Itoa] and the [%d] verb of [fmt.Sprintf]. *)
Definition Itoa (z : Z) : string := NilZero.string_of_int (Z.to_int z).

(** [strings.Join]. *)
Fixpoint Join (elems : list string) (sep : string) : string :=
  match elems with
  | [] => ""
  | [x] => x
  | x :: rest => x +:+ sep +:+ Join rest sep
  end.

(** Two's complement wrap-around of a 64-bit [int]. *)
Definition wrap64 (z : Z) : Z := (z + 2 ^ 63) mod 2 ^ 64 - 2 ^ 63.

Definition int_add (a b : Z) : Z := wrap64 (a + b).

(** [metav1.Time]: nanoseconds since the zero instant. *)
Definition Time := Z.

Definition Time_IsZero (t : Time) : bool := t =? 0.

(** [IsZero] on a pointer to a [metav1.Time]: a nil pointer is zero too. *)
Definition TimePtr_IsZero (t : option Time) : bool :=
  match t with
  | None => true
  | Some t' => Time_IsZero t'
  end.

Definition Time_Before (t u : Time) : bool := t <? u.

(** [time.Time.Sub]: the difference saturates at the bounds of
    [time.Duration] (an [int64] of nanoseconds). *)
Definition Time_Sub (t u : Time) : Z :=
  Z.max (- 2 ^ 63) (Z.min (2 ^ 63 - 1) (t - u)).

(** Constants of the Kubernetes API packages the printers compare with. *)
Definition ConditionTrue : string := "True".
Definition PodSucceeded : string := "Succeeded".
Definition PodFailed : string := "Failed".
Definition PodScheduled : string := "PodScheduled".
Definition PodReady : string := "Ready".
Definition PodInitialized : string := "Initialized".
Definition PodReasonSchedulingGated : string := "SchedulingGated".
Definition ContainerRestartPolicyAlways : string := "Always".
Definition JobComplete : string := "Complete".
Definition JobFailed : string := "Failed".
Definition JobSuspended : string := "Suspended".
Definition JobFailureTarget : string := "FailureTarget".
Definition CertificateApproved : string := "Approved".
Definition CertificateDenied : string := "Denied".
Definition CertificateFailed : string := "Failed".
Definition RowCompleted : string := "Completed".
Definition FlowSchemaConditionDangling : string := "Dangling".

(** [NodeUnreachablePodReason] of the package itself. *)
Definition NodeUnreachablePodReason : string := "NodeLost".

(** ** Tables *)

(** A cell is an [interface{}] holding a string, an integer or a bool. *)
Inductive Cell : Type :=
  | CellString (s : string)
  | CellInt (z : Z)
  | CellBool (b : bool).

Record TableRowCondition : Type := mkTableRowCondition {
  trc_Type : string;
  trc_Status : string;
  trc_Reason : string;
  trc_Message : string
}.

Record TableRow : Type := mkTableRow {
  Cells : list Cell;
  RowConditions : list TableRowCondition
}.

Record TableColumnDefinition : Type := mkTableColumnDefinition {
  col_Name : string;
  col_Type : string;
  col_Format : string;
  col_Description : string;
  col_Priority : Z
}.

Record Table : Type := mkTable {
  ResourceVersion : string;
  Continue : string;
  RemainingItemCount : option Z;
  ColumnDefinitions : list TableColumnDefinition;
  Rows : list TableRow
}.

(** ** CertificateSigningRequest *)

Record CertificateSigningRequestCondition : Type := mkCSRCondition {
  csrc_Type : string;
  csrc_Status : string;
  csrc_Reason : string
}.

Record CertificateSigningRequest : Type := mkCSR {
  csr_Name : string;
  csr_Conditions : list CertificateSigningRequestCondition;
  csr_Certificate : list Z
}.

(** The three flags of [extractCSRStatus]. *)
Record csrFlags : Type := mkCsrFlags {
  approved : bool;
  denied : bool;
  failed : bool
}.

(** The body of the loop over [csr.Status.Conditions]: a [switch] on the
    condition's type (the first case that is equal wins). *)
Definition csrStep (f : csrFlags) (c : CertificateSigningRequestCondition) : csrFlags :=
  if String.eqb (csrc_Type c) CertificateApproved then
    mkCsrFlags true (denied f) (failed f)
  else if String.eqb (csrc_Type c) CertificateDenied then
    mkCsrFlags (approved f) true (failed f)
  else if String.eqb (csrc_Type c) CertificateFailed then
    mkCsrFlags (approved f) (denied f) true
  else f.

Definition extractCSRStatus (csr : CertificateSigningRequest) : string :=
  let f := fold_left csrStep (csr_Conditions csr) (mkCsrFlags false false false) in
  let status := "" in
  let status :=
    if denied f then status +:+ "Denied"
    else if approved f then status +:+ "Approved"
    else status +:+ "Pending" in
  let status := if failed f then status +:+ ",Failed" else status in
  let status :=
    if (0 <? Z.of_nat (List.length (csr_Certificate csr))) then status +:+ ",Issued"
    else status in
  status.

(** ** Shared API types *)

Record Container : Type := mkContainer {
  ctr_Name : string;
  ctr_Image : string;
  ctr_RestartPolicy : option string
}.

Record LabelSelectorRequirement : Type := mkLabelSelectorRequirement {
  lsr_Key : string;
  lsr_Operator : string;
  lsr_Values : list string
}.

Record LabelSelector : Type := mkLabelSelector {
  MatchLabels : gmap string string;
  MatchExpressions : list LabelSelectorRequirement
}.

(** ** Truncated lists: EndpointSlice addresses *)

Record Endpoint : Type := mkEndpoint {
  Addresses : list string
}.

Definition listWithMoreString (list : list string) (more : bool) (count max : Z) : string :=
  let ret := Join list "," in
  if more then ret +:+ " + " +:+ Itoa (count - max) +:+ " more..."
  else if String.eqb ret "" then "<unset>"
  else ret.

(** The variables [list], [more] and [count] of [formatDiscoveryEndpoints]. *)
Record listState : Type := mkListState {
  ls_list : list string;
  ls_more : bool;
  ls_count : Z
}.

(** The body of the inner loop over [endpoint.Addresses]. *)
Definition addressStep (maximum : Z) (st : listState) (address : string) : listState :=
  let len := Z.of_nat (List.length (ls_list st)) in
  let st' :=
    if len <? maximum then mkListState (ls_list st ++ [address]) (ls_more st) (ls_count st)
    else if len =? maximum then mkListState (ls_list st) true (ls_count st)
    else st in
  mkListState (ls_list st') (ls_more st') (ls_count st' + 1).

Definition formatDiscoveryEndpoints (endpoints : list Endpoint) : string :=
  let maximum := 3 in
  let st :=
    fold_left
      (fun st endpoint => fold_left (addressStep maximum) (Addresses endpoint) st)
      endpoints (mkListState [] false 0) in
  listWithMoreString (ls_list st) (ls_more st) (ls_count st) maximum.

(** ** The handler registry and the table generator *)

(** A [reflect.Type] is named by its descriptor (what [%v] prints). *)
Definition reflectType : Type := string.

Definition tableRowSliceType : reflectType := "[]v1.TableRow".
Definition errorType : reflectType := "error".

Inductive Error : Type :=
  | ErrNotAFunction
      (* "invalid print handler. %#v is not a function" *)
  | ErrWrongArity
      (* "invalid print handler.Must accept 1 parameters and return 2 value" *)
  | ErrWrongSignature (in0 : reflectType)
      (* "invalid print handler. The expected signature is: func handler(obj %v) ([]metav1.TableRow, error)" *)
  | ErrDuplicatePrinter (objType : reflectType)
      (* "registered duplicate printer for %v" *)
  | ErrNoTableHandler (t : reflectType)
      (* "no table handler registered for this type %v" *)
  | ErrUnableToRegister (cause : Error)
      (* "unable to register print function: %v" *)
  | ErrPrint (msg : string)
      (* an error returned by a print function *)
  | ErrPanic
      (* not an error value: a run-time panic of package reflect *).

(** The errors of [ValidateRowPrintHandlerFunc]: their messages all start
    with "invalid print handler". *)
Definition isInvalidPrintHandler (e : Error) : bool :=
  match e with
  | ErrNotAFunction | ErrWrongArity | ErrWrongSignature _ => true
  | _ => false
  end.

(** What [meta.ListAccessor] gives access to. *)
Record ListMeta : Type := mkListMeta {
  lm_ResourceVersion : string;
  lm_Continue : string;
  lm_RemainingItemCount : option Z
}.

Section Generator.

(** [runtime.Object] and the reflection and accessor functions that
    [GenerateTable] applies to it are external; they are parameters. *)
Variable Object : Type.
Variable TypeOf : Object -> reflectType.
Variable ListAccessor : Object -> option ListMeta.
Variable CommonAccessor : Object -> option string.

(** A [reflect.Value]. Of a function the generator reads the parameter
    and result types and, once it is registered, calls it; [fn_Call] is
    what [Call] returns for a function of the registered shape. *)
Inductive Value : Type :=
  | FuncValue
      (fn_In fn_Out : list reflectType)
      (fn_Call : Object -> list TableRow * option Error)
  | OtherValue.

Record handlerEntry : Type := mkHandlerEntry {
  columnDefinitions : list TableColumnDefinition;
  printFunc : Value
}.

Record HumanReadableGenerator : Type := mkHumanReadableGenerator {
  handlerMap : gmap reflectType handlerEntry
}.

Definition NewTableGenerator : HumanReadableGenerator :=
  mkHumanReadableGenerator ∅.

Definition ValidateRowPrintHandlerFunc (printFunc : Value) : option Error :=
  match printFunc with
  | OtherValue => Some ErrNotAFunction
  | FuncValue ins outs _ =>
      if negb (Z.of_nat (List.length ins) =? 1) || negb (Z.of_nat (List.length outs) =? 2)
      then Some ErrWrongArity
      else
        match ins, outs with
        | [in0], [out0; out1] =>
            if negb (String.eqb out0 tableRowSliceType) || negb (String.eqb out1 errorType)
            then Some (ErrWrongSignature in0)
            else None
        | _, _ => Some ErrWrongArity
        end
  end.

(** The outcome of [TableHandler]: the generator afterwards, the errors
    passed to [utilruntime.HandleError], and the returned error. *)
Record Registration : Type := mkRegistration {
  reg_generator : HumanReadableGenerator;
  reg_handled : list Error;
  reg_err : option Error
}.

Definition TableHandler (h : HumanReadableGenerator)
    (columnDefinitions : list TableColumnDefinition) (printFunc : Value) : Registration :=
  match ValidateRowPrintHandlerFunc printFunc with
  | Some err => mkRegistration h [ErrUnableToRegister err] (Some err)
  | None =>
      let entry := mkHandlerEntry columnDefinitions printFunc in
      match printFunc with
      | FuncValue (objType :: _) _ _ =>
          match handlerMap h !! objType with
          | Some _ =>
              let err := ErrDuplicatePrinter objType in
              mkRegistration h [err] (Some err)
          | None =>
              mkRegistration
                (mkHumanReadableGenerator (<[objType := entry]> (handlerMap h)))
                [] None
          end
      | _ =>
          (* not reached: a validated value is a function of one parameter;
             [Type().In(0)] would panic *)
          mkRegistration h [] (Some ErrPanic)
      end
  end.

(** The loop of [GenerateTable] that keeps the columns of priority 0. *)
Definition columnStep (columns : list TableColumnDefinition) (c : TableColumnDefinition)
    : list TableColumnDefinition :=
  if negb (col_Priority c =? 0) then columns else columns ++ [c].

Definition GenerateTable (h : HumanReadableGenerator) (obj : Object) : Table + Error :=
  let t := TypeOf obj in
  match handlerMap h !! t with
  | None => inr (ErrNoTableHandler t)
  | Some handler =>
      match printFunc handler with
      | OtherValue =>
          (* not reached through [TableHandler]: [Call] would panic *)
          inr ErrPanic
      | FuncValue _ _ call =>
          match call obj with
          | (_, Some err) => inr err
          | (rows, None) =>
              let columns := fold_left columnStep (columnDefinitions handler) [] in
              let table := mkTable "" "" None columns rows in
              inl
                match ListAccessor obj with
                | Some m =>
                    mkTable (lm_ResourceVersion m) (lm_Continue m) (lm_RemainingItemCount m)
                      (ColumnDefinitions table) (Rows table)
                | None =>
                    match CommonAccessor obj with
                    | Some rv =>
                        mkTable rv (Continue table) (RemainingItemCount table)
                          (ColumnDefinitions table) (Rows table)
                    | None => table
                    end
                end
          end
      end
  end.

End Generator.

(** ** Jobs *)

Record JobCondition : Type := mkJobCondition {
  jc_Type : string;
  jc_Status : string
}.

Record Job : Type := mkJob {
  job_Name : string;
  job_DeletionTimestamp : option Time;
  job_CreationTimestamp : Time;
  job_Completions : option Z;
  job_Parallelism : option Z;
  job_Selector : option LabelSelector;
  job_Containers : list Container;
  job_Conditions : list JobCondition;
  job_Succeeded : Z;
  job_StartTime : option Time;
  job_CompletionTime : option Time
}.

Fixpoint hasJobCondition (conditions : list JobCondition) (conditionType : string) : bool :=
  match conditions with
  | [] => false
  | condition :: rest =>
      if String.eqb (jc_Type condition) conditionType
      then String.eqb (jc_Status condition) ConditionTrue
      else hasJobCondition rest conditionType
  end.

(** The loop of [layoutContainerCells]; [i] is the index of the head of
    [containers] and [n] the length of the whole slice. *)
Fixpoint layoutContainerCells_from (containers : list Container) (i n : Z)
    (names images : string) : string * string :=
  match containers with
  | [] => (names, images)
  | container :: rest =>
      let names := names +:+ ctr_Name container in
      let images := images +:+ ctr_Image container in
      if negb (i =? n - 1)
      then layoutContainerCells_from rest (i + 1) n (names +:+ ",") (images +:+ ",")
      else layoutContainerCells_from rest (i + 1) n names images
  end.

Definition layoutContainerCells (containers : list Container) : string * string :=
  layoutContainerCells_from containers 0 (Z.of_nat (List.length containers)) "" "".

(** The status cell of [printJob]: the chain of [if]/[else if] over the
    Job's conditions and deletion timestamp. *)
Definition jobStatus (obj : Job) : string :=
  if hasJobCondition (job_Conditions obj) JobComplete then "Complete"
  else if hasJobCondition (job_Conditions obj) JobFailed then "Failed"
  else if negb (TimePtr_IsZero (job_DeletionTimestamp obj)) then "Terminating"
  else if hasJobCondition (job_Conditions obj) JobSuspended then "Suspended"
  else if hasJobCondition (job_Conditions obj) JobFailureTarget then "FailureTarget"
  else "Running".

(** ** Pods *)

Record ContainerStateWaiting : Type := mkContainerStateWaiting {
  csw_Reason : string
}.

Record ContainerStateRunning : Type := mkContainerStateRunning {
  csr_StartedAt : Time
}.

Record ContainerStateTerminated : Type := mkContainerStateTerminated {
  cst_ExitCode : Z;
  cst_Signal : Z;
  cst_Reason : string;
  cst_FinishedAt : Time
}.

Record ContainerState : Type := mkContainerState {
  Waiting : option ContainerStateWaiting;
  Running : option ContainerStateRunning;
  Terminated : option ContainerStateTerminated
}.

Record ContainerStatus : Type := mkContainerStatus {
  cs_Name : string;
  cs_State : ContainerState;
  cs_LastTerminationState : ContainerState;
  cs_Ready : bool;
  cs_RestartCount : Z;
  cs_Started : option bool
}.

Record PodCondition : Type := mkPodCondition {
  pc_Type : string;
  pc_Status : string;
  pc_Reason : string
}.

Record PodSpec : Type := mkPodSpec {
  InitContainers : list Container;
  Containers : list Container;
  NodeName : string;
  ReadinessGates : list string
}.

Record PodStatus : Type := mkPodStatus {
  Phase : string;
  Conditions : list PodCondition;
  Reason : string;
  NominatedNodeName : string;
  PodIPs : list string;
  InitContainerStatuses : list ContainerStatus;
  ContainerStatuses : list ContainerStatus
}.

Record Pod : Type := mkPod {
  pod_Name : string;
  pod_DeletionTimestamp : option Time;
  pod_CreationTimestamp : Time;
  Spec : PodSpec;
  Status : PodStatus
}.

Definition IsRestartableInitContainer (initContainer : option Container) : bool :=
  match initContainer with
  | None => false
  | Some c =>
      match ctr_RestartPolicy c with
      | None => false
      | Some p => String.eqb p ContainerRestartPolicyAlways
      end
  end.

Definition IsPodPhaseTerminal (phase : string) : bool :=
  String.eqb phase PodFailed || String.eqb phase PodSucceeded.

Definition hasPodReadyCondition (conditions : list PodCondition) : bool :=
  existsb
    (fun condition =>
       String.eqb (pc_Type condition) PodReady
       && String.eqb (pc_Status condition) ConditionTrue)
    conditions.

Fixpoint isPodInitializedConditionTrue_in (conditions : list PodCondition) : bool :=
  match conditions with
  | [] => false
  | condition :: rest =>
      if negb (String.eqb (pc_Type condition) PodInitialized)
      then isPodInitializedConditionTrue_in rest
      else String.eqb (pc_Status condition) ConditionTrue
  end.

Definition isPodInitializedConditionTrue (status : PodStatus) : bool :=
  isPodInitializedConditionTrue_in (Conditions status).

Definition podSuccessConditions : list TableRowCondition :=
  [mkTableRowCondition RowCompleted ConditionTrue PodSucceeded
     "The pod has completed successfully."].

Definition podFailedConditions : list TableRowCondition :=
  [mkTableRowCondition RowCompleted ConditionTrue PodFailed "The pod failed."].

(** The local variables of [printPod] that its loops update. *)
Record podVars : Type := mkPodVars {
  restarts : Z;
  restartableInitContainerRestarts : Z;
  readyContainers : Z;
  lastRestartDate : Time;
  lastRestartableInitContainerRestartDate : Time;
  reason : string;
  initializing : bool;
  hasRunning : bool
}.

Definition set_restarts (v : podVars) (x : Z) : podVars :=
  mkPodVars x (restartableInitContainerRestarts v) (readyContainers v)
    (lastRestartDate v) (lastRestartableInitContainerRestartDate v)
    (reason v) (initializing v) (hasRunning v).

Definition set_restartableInitContainerRestarts (v : podVars) (x : Z) : podVars :=
  mkPodVars (restarts v) x (readyContainers v)
    (lastRestartDate v) (lastRestartableInitContainerRestartDate v)
    (reason v) (initializing v) (hasRunning v).

Definition set_readyContainers (v : podVars) (x : Z) : podVars :=
  mkPodVars (restarts v) (restartableInitContainerRestarts v) x
    (lastRestartDate v) (lastRestartableInitContainerRestartDate v)
    (reason v) (initializing v) (hasRunning v).

Definition set_lastRestartDate (v : podVars) (x : Time) : podVars :=
  mkPodVars (restarts v) (restartableInitContainerRestarts v) (readyContainers v)
    x (lastRestartableInitContainerRestartDate v)
    (reason v) (initializing v) (hasRunning v).

Definition set_lastRestartableInitContainerRestartDate (v : podVars) (x : Time) : podVars :=
  mkPodVars (restarts v) (restartableInitContainerRestarts v) (readyContainers v)
    (lastRestartDate v) x
    (reason v) (initializing v) (hasRunning v).

Definition set_reason (v : podVars) (x : string) : podVars :=
  mkPodVars (restarts v) (restartableInitContainerRestarts v) (readyContainers v)
    (lastRestartDate v) (lastRestartableInitContainerRestartDate v)
    x (initializing v) (hasRunning v).

Definition set_initializing (v : podVars) (x : bool) : podVars :=
  mkPodVars (restarts v) (restartableInitContainerRestarts v) (readyContainers v)
    (lastRestartDate v) (lastRestartableInitContainerRestartDate v)
    (reason v) x (hasRunning v).

Definition set_hasRunning (v : podVars) (x : bool) : podVars :=
  mkPodVars (restarts v) (restartableInitContainerRestarts v) (readyContainers v)
    (lastRestartDate v) (lastRestartableInitContainerRestartDate v)
    (reason v) (initializing v) x.

(** The loop over [pod.Status.Conditions] that forces the reason of a
    scheduling-gated Pod. *)
Definition schedulingGatedStep (reason : string) (condition : PodCondition) : string :=
  if String.eqb (pc_Type condition) PodScheduled
     && String.eqb (pc_Reason condition) PodReasonSchedulingGated
  then PodReasonSchedulingGated
  else reason.

(** The loop over [pod.Spec.InitContainers]: the map from names to init
    containers and the count of restartable ones added to
    [totalContainers]. *)
Definition initContainerStep (acc : gmap string Container * Z) (c : Container)
    : gmap string Container * Z :=
  let '(initContainers, totalContainers) := acc in
  (<[ctr_Name c := c]> initContainers,
   if IsRestartableInitContainer (Some c) then totalContainers + 1 else totalContainers).

(** The statements of both loops over container statuses that add the
    restart count and keep the latest termination date. *)
Definition addRestarts (v : podVars) (container : ContainerStatus) : podVars :=
  let v := set_restarts v (int_add (restarts v) (cs_RestartCount container)) in
  match Terminated (cs_LastTerminationState container) with
  | Some t =>
      let terminatedDate := cst_FinishedAt t in
      if Time_Before (lastRestartDate v) terminatedDate
      then set_lastRestartDate v terminatedDate
      else v
  | None => v
  end.

Definition addRestartableInitContainerRestarts (v : podVars) (container : ContainerStatus)
    : podVars :=
  let v :=
    set_restartableInitContainerRestarts v
      (int_add (restartableInitContainerRestarts v) (cs_RestartCount container)) in
  match Terminated (cs_LastTerminationState container) with
  | Some t =>
      let terminatedDate := cst_FinishedAt t in
      if Time_Before (lastRestartableInitContainerRestartDate v) terminatedDate
      then set_lastRestartableInitContainerRestartDate v terminatedDate
      else v
  | None => v
  end.

(** The loop over [pod.Status.InitContainerStatuses]; [i] is the index of
    the head of [statuses] and [nInit] is [len(pod.Spec.InitContainers)].
    A [continue] is the recursive call; the [break] that follows the
    [switch] returns. *)
Fixpoint initLoop (initContainers : gmap string Container) (nInit : Z)
    (statuses : list ContainerStatus) (i : Z) (v : podVars) : podVars :=
  match statuses with
  | [] => v
  | container :: rest =>
      let restartable := IsRestartableInitContainer (initContainers !! cs_Name container) in
      let v := addRestarts v container in
      let v := if restartable then addRestartableInitContainerRestarts v container else v in
      let exitedZero :=
        match Terminated (cs_State container) with
        | Some t => cst_ExitCode t =? 0
        | None => false
        end in
      let started :=
        match cs_Started container with
        | Some b => b
        | None => false
        end in
      if exitedZero then initLoop initContainers nInit rest (i + 1) v
      else if restartable && started then
        let v :=
          if cs_Ready container then set_readyContainers v (readyContainers v + 1) else v in
        initLoop initContainers nInit rest (i + 1) v
      else
        match Terminated (cs_State container), Waiting (cs_State container) with
        | Some t, _ =>
            (* initialization is failed *)
            let r :=
              if Z.of_nat (String.length (cst_Reason t)) =? 0 then
                if negb (cst_Signal t =? 0)
                then "Init:Signal:" +:+ Itoa (cst_Signal t)
                else "Init:ExitCode:" +:+ Itoa (cst_ExitCode t)
              else "Init:" +:+ cst_Reason t in
            set_initializing (set_reason v r) true
        | None, Some w =>
            if (0 <? Z.of_nat (String.length (csw_Reason w)))
               && negb (String.eqb (csw_Reason w) "PodInitializing")
            then set_initializing (set_reason v ("Init:" +:+ csw_Reason w)) true
            else set_initializing (set_reason v ("Init:" +:+ Itoa i +:+ "/" +:+ Itoa nInit)) true
        | None, None =>
            set_initializing (set_reason v ("Init:" +:+ Itoa i +:+ "/" +:+ Itoa nInit)) true
        end
  end.

(** The body of the loop over [pod.Status.ContainerStatuses]. *)
Definition containerStep (v : podVars) (container : ContainerStatus) : podVars :=
  let v := addRestarts v container in
  let waitingReason :=
    match Waiting (cs_State container) with
    | Some w => if negb (String.eqb (csw_Reason w) "") then Some (csw_Reason w) else None
    | None => None
    end in
  match waitingReason, Terminated (cs_State container) with
  | Some r, _ => set_reason v r
  | None, Some t =>
      if negb (String.eqb (cst_Reason t) "") then set_reason v (cst_Reason t)
      else if negb (cst_Signal t =? 0) then set_reason v ("Signal:" +:+ Itoa (cst_Signal t))
      else set_reason v ("ExitCode:" +:+ Itoa (cst_ExitCode t))
  | None, None =>
      match cs_Ready container, Running (cs_State container) with
      | true, Some _ => set_readyContainers (set_hasRunning v true) (readyContainers v + 1)
      | _, _ => v
      end
  end.

(** The block guarded by [!initializing || isPodInitializedConditionTrue]:
    the main containers are scanned from the last to the first. *)
Definition mainPhase (pod : Pod) (v : podVars) : podVars :=
  let v := set_restarts v (restartableInitContainerRestarts v) in
  let v := set_lastRestartDate v (lastRestartableInitContainerRestartDate v) in
  let v := set_hasRunning v false in
  let v := fold_left containerStep (rev (ContainerStatuses (Status pod))) v in
  (* change pod status back to "Running" if there is at least one
     container still reporting as "Running" status *)
  if String.eqb (reason v) "Completed" && hasRunning v then
    if hasPodReadyCondition (Conditions (Status pod))
    then set_reason v "Running"
    else set_reason v "NotReady"
  else v.

(** Whether [printPod] enters the block of the main containers. *)
Definition mainPhaseRuns (pod : Pod) (v : podVars) : bool :=
  negb (initializing v) || isPodInitializedConditionTrue (Status pod).

(** The readiness-gates cell: for each gate, the first condition of its
    type counts when its status is true. *)
Fixpoint gateIsTrue (conditions : list PodCondition) (conditionType : string) : bool :=
  match conditions with
  | [] => false
  | condition :: rest =>
      if String.eqb (pc_Type condition) conditionType
      then String.eqb (pc_Status condition) ConditionTrue
      else gateIsTrue rest conditionType
  end.

(** The reason [printPod] starts from: the phase, replaced by the
    status reason when there is one, then forced by the scheduling gate. *)
Definition initialReason (pod : Pod) : string :=
  let podPhase := Phase (Status pod) in
  let reason := podPhase in
  let reason :=
    if negb (String.eqb (Reason (Status pod)) "") then Reason (Status pod) else reason in
  fold_left schedulingGatedStep (Conditions (Status pod)) reason.

(** The map [initContainers] and [totalContainers] after the loop over
    [pod.Spec.InitContainers]. *)
Definition initContainersOf (pod : Pod) : gmap string Container * Z :=
  fold_left initContainerStep (InitContainers (Spec pod))
    (∅, Z.of_nat (List.length (Containers (Spec pod)))).

(** The variables of [printPod] after the loop over the init container
    statuses. *)
Definition podAfterInit (pod : Pod) : podVars :=
  initLoop (fst (initContainersOf pod))
    (Z.of_nat (List.length (InitContainers (Spec pod))))
    (InitContainerStatuses (Status pod)) 0
    (mkPodVars 0 0 0 0 0 (initialReason pod) false false).

(** The two overrides of a Pod that carries a deletion timestamp. *)
Definition deletionOverrides (pod : Pod) (v : podVars) : podVars :=
  if negb (TimePtr_IsZero (pod_DeletionTimestamp pod))
     && String.eqb (Reason (Status pod)) NodeUnreachablePodReason
  then set_reason v "Unknown"
  else if negb (TimePtr_IsZero (pod_DeletionTimestamp pod))
          && negb (IsPodPhaseTerminal (Phase (Status pod)))
  then set_reason v "Terminating"
  else v.

(** The variables of [printPod] when it lays out the row. *)
Definition podState (pod : Pod) : podVars :=
  let v := podAfterInit pod in
  let v := if mainPhaseRuns pod v then mainPhase pod v else v in
  deletionOverrides pod v.

Section Printers.

(** [duration.HumanDuration] and [metav1.FormatLabelSelector] belong to
    k8s.io/apimachinery; [now] is the wall clock that [time.Since] reads
    (the reads made while one row is printed are taken at one instant). *)
Variable HumanDuration : Z -> string.
Variable FormatLabelSelector : option LabelSelector -> string.
Variable now : Time.

Definition translateTimestampSince (timestamp : Time) : string :=
  if Time_IsZero timestamp then "<unknown>"
  else HumanDuration (Time_Sub now timestamp).

Definition printJob (obj : Job) : list TableRow * option Error :=
  let completions :=
    match job_Completions obj with
    | Some c => Itoa (job_Succeeded obj) +:+ "/" +:+ Itoa c
    | None =>
        let parallelism :=
          match job_Parallelism obj with
          | Some p => p
          | None => 0
          end in
        if 1 <? parallelism
        then Itoa (job_Succeeded obj) +:+ "/1 of " +:+ Itoa parallelism
        else Itoa (job_Succeeded obj) +:+ "/1"
    end in
  let jobDuration :=
    match job_StartTime obj, job_CompletionTime obj with
    | None, _ => ""
    | Some st, None => HumanDuration (Time_Sub now st)
    | Some st, Some ct => HumanDuration (Time_Sub ct st)
    end in
  let status := jobStatus obj in
  let cells :=
    [CellString (job_Name obj); CellString status; CellString completions;
     CellString jobDuration;
     CellString (translateTimestampSince (job_CreationTimestamp obj))] in
  let '(names, images) := layoutContainerCells (job_Containers obj) in
  let cells :=
    cells ++ [CellString names; CellString images;
              CellString (FormatLabelSelector (job_Selector obj))] in
  ([mkTableRow cells []], None).

(** The loop shared by the list printers: print each item, stop at the
    first error, append the rows otherwise. *)
Fixpoint printItems {A : Type} (print : A -> list TableRow * option Error)
    (items : list A) (rows : list TableRow) : list TableRow * option Error :=
  match items with
  | [] => (rows, None)
  | item :: rest =>
      match print item with
      | (_, Some err) => ([], Some err)
      | (r, None) => printItems print rest (rows ++ r)
      end
  end.

Definition printJobList (items : list Job) : list TableRow * option Error :=
  printItems printJob items [].

Definition printPod (pod : Pod) : list TableRow * option Error :=
  let v := podState pod in
  let totalContainers := snd (initContainersOf pod) in
  let conditions :=
    if String.eqb (Phase (Status pod)) PodSucceeded then podSuccessConditions
    else if String.eqb (Phase (Status pod)) PodFailed then podFailedConditions
    else [] in
  let restartsStr := Itoa (restarts v) in
  let restartsStr :=
    if negb (restarts v =? 0) && negb (Time_IsZero (lastRestartDate v))
    then Itoa (restarts v) +:+ " (" +:+ translateTimestampSince (lastRestartDate v) +:+ " ago)"
    else restartsStr in
  let cells :=
    [CellString (pod_Name pod);
     CellString (Itoa (readyContainers v) +:+ "/" +:+ Itoa totalContainers);
     CellString (reason v);
     CellString restartsStr;
     CellString (translateTimestampSince (pod_CreationTimestamp pod))] in
  let nodeName := NodeName (Spec pod) in
  let nominatedNodeName := NominatedNodeName (Status pod) in
  let podIP :=
    match PodIPs (Status pod) with
    | ip :: _ => ip
    | [] => ""
    end in
  let podIP := if String.eqb podIP "" then "<none>" else podIP in
  let nodeName := if String.eqb nodeName "" then "<none>" else nodeName in
  let nominatedNodeName :=
    if String.eqb nominatedNodeName "" then "<none>" else nominatedNodeName in
  let readinessGates :=
    if 0 <? Z.of_nat (List.length (ReadinessGates (Spec pod))) then
      let trueConditions :=
        fold_left
          (fun n conditionType =>
             if gateIsTrue (Conditions (Status pod)) conditionType then n + 1 else n)
          (ReadinessGates (Spec pod)) 0 in
      Itoa trueConditions +:+ "/" +:+ Itoa (Z.of_nat (List.length (ReadinessGates (Spec pod))))
    else "<none>" in
  let cells :=
    cells ++ [CellString podIP; CellString nodeName; CellString nominatedNodeName;
              CellString readinessGates] in
  ([mkTableRow cells conditions], None).

Definition printPodList (items : list Pod) : list TableRow * option Error :=
  printItems printPod items [].

End Printers.

(** ** FlowSchemas *)

Record FlowSchemaCondition : Type := mkFlowSchemaCondition {
  fsc_Type : string;
  fsc_Status : string
}.

Record FlowSchema : Type := mkFlowSchema {
  fs_Name : string;
  fs_CreationTimestamp : Time;
  fs_PriorityLevelConfigurationName : string;
  fs_MatchingPrecedence : Z;
  fs_DistinguisherMethod : option string;
  fs_Conditions : list FlowSchemaCondition
}.

(** [FlowSchemaSequence.Less]: [Less(i, j)] compares the schemas at the
    two indices; this is the comparison of those two elements. *)
Definition FlowSchemaSequence_Less (si sj : FlowSchema) : bool :=
  let ip := fs_MatchingPrecedence si in
  let jp := fs_MatchingPrecedence sj in
  (* the flow-schema w/ lower matching-precedence is prior *)
  if negb (ip =? jp) then ip <? jp
  else (* sort alphabetically *) String.ltb (fs_Name si) (fs_Name sj).

(** The loop of [printFlowSchema] that looks for the dangling condition. *)
Fixpoint badPLRef_of (conditions : list FlowSchemaCondition) : string :=
  match conditions with
  | [] => "?"
  | cond :: rest =>
      if String.eqb (fsc_Type cond) FlowSchemaConditionDangling
      then fsc_Status cond
      else badPLRef_of rest
  end.

Section FlowSchemaPrinters.

Variable HumanDuration : Z -> string.
Variable now : Time.

(** [sort.Sort] of the Go standard library, on the elements of a slice
    ordered by a [Less] method. *)
Variable sort_Sort : forall A : Type, (A -> A -> bool) -> list A -> list A.

Definition printFlowSchema (obj : FlowSchema) : list TableRow * option Error :=
  let name := fs_Name obj in
  let plName := fs_PriorityLevelConfigurationName obj in
  let distinguisherMethod :=
    match fs_DistinguisherMethod obj with
    | Some m => m
    | None => "<none>"
    end in
  let badPLRef := badPLRef_of (fs_Conditions obj) in
  ([mkTableRow
      [CellString name; CellString plName; CellInt (fs_MatchingPrecedence obj);
       CellString distinguisherMethod;
       CellString (translateTimestampSince HumanDuration now (fs_CreationTimestamp obj));
       CellString badPLRef]
      []],
   None).

Definition printFlowSchemaList (items : list FlowSchema) : list TableRow * option Error :=
  let fsSeq := items in
  let fsSeq := sort_Sort FlowSchema FlowSchemaSequence_Less fsSeq in
  printItems printFlowSchema fsSeq [].

End FlowSchemaPrinters.

(** * Statements of the specification

    The definitions below follow the words of the specification; the
    theorems compare them with the embedding of the code above. *)

(** A condition of type [t] is present, whatever its status. *)
Definition hasCSRCondition (conditions : list CertificateSigningRequestCondition)
    (t : string) : bool :=
  existsb (fun c => String.eqb (csrc_Type c) t) conditions.

(** The CertificateSigningRequest status of the specification: the
    approval state, then the two optional suffixes. *)
Definition csrStatus_spec (csr : CertificateSigningRequest) : string :=
  (if hasCSRCondition (csr_Conditions csr) CertificateDenied then "Denied"
   else if hasCSRCondition (csr_Conditions csr) CertificateApproved then "Approved"
   else "Pending")
  +:+ (if hasCSRCondition (csr_Conditions csr) CertificateFailed then ",Failed" else "")
  +:+ (match csr_Certificate csr with [] => "" | _ :: _ => ",Issued" end).

(** Two requests whose conditions have the same types, position by
    position, and whose certificates are both empty or both present. *)
Definition sameConditionTypes (a b : CertificateSigningRequest) : Prop :=
  List.map csrc_Type (csr_Conditions a) = List.map csrc_Type (csr_Conditions b)
  /\ (csr_Certificate a = [] <-> csr_Certificate b = []).

(** An ordered list of tests with their results: the first test that
    holds gives the result. *)
Fixpoint firstMatch (rules : list (bool * string)) (default : string) : string :=
  match rules with
  | [] => default
  | (test, result) :: rest => if test then result else firstMatch rest default
  end.

(** The first condition of a type in the conditions of a Job. *)
Definition firstJobCondition (conditions : list JobCondition) (conditionType : string)
    : option JobCondition :=
  List.find (fun c => String.eqb (jc_Type c) conditionType) conditions.

(** A condition type counts as true when the first condition of the
    type has the status True. *)
Definition jobConditionTrue (conditions : list JobCondition) (conditionType : string) : bool :=
  match firstJobCondition conditions conditionType with
  | Some c => String.eqb (jc_Status c) ConditionTrue
  | None => false
  end.

(** Some condition of the type has the status True. *)
Definition hasTrueJobCondition (conditions : list JobCondition) (conditionType : string)
    : bool :=
  existsb
    (fun c => String.eqb (jc_Type c) conditionType && String.eqb (jc_Status c) ConditionTrue)
    conditions.

(** The deletion timestamp is there and is not the zero instant. *)
Definition deletionTimestampSet (timestamp : option Time) : bool :=
  match timestamp with
  | Some t => negb (t =? 0)
  | None => false
  end.

(** The Job status precedence of the specification, each condition read
    at its first occurrence. *)
Definition jobStatusRules (obj : Job) : list (bool * string) :=
  [(jobConditionTrue (job_Conditions obj) JobComplete, "Complete");
   (jobConditionTrue (job_Conditions obj) JobFailed, "Failed");
   (deletionTimestampSet (job_DeletionTimestamp obj), "Terminating");
   (jobConditionTrue (job_Conditions obj) JobSuspended, "Suspended");
   (jobConditionTrue (job_Conditions obj) JobFailureTarget, "FailureTarget")].

(** The same precedence with each condition read anywhere in the list. *)
Definition jobStatusRules_anywhere (obj : Job) : list (bool * string) :=
  [(hasTrueJobCondition (job_Conditions obj) JobComplete, "Complete");
   (hasTrueJobCondition (job_Conditions obj) JobFailed, "Failed");
   (deletionTimestampSet (job_DeletionTimestamp obj), "Terminating");
   (hasTrueJobCondition (job_Conditions obj) JobSuspended, "Suspended");
   (hasTrueJobCondition (job_Conditions obj) JobFailureTarget, "FailureTarget")].

(** The addresses of all endpoints, in order. *)
Definition allAddresses (endpoints : list Endpoint) : list string :=
  concat (List.map Addresses endpoints).

(** The truncated list of the specification for a cap of [max] elements. *)
Definition truncatedList_spec (max : nat) (elems : list string) : string :=
  if (max <? List.length elems)%nat
  then Join (firstn max elems) ","
       +:+ " + " +:+ Itoa (Z.of_nat (List.length elems - max)) +:+ " more..."
  else if String.eqb (Join elems ",") "" then "<unset>"
  else Join elems ",".

(** What the loop of [formatDiscoveryEndpoints] has computed once the
    addresses [seen] have been visited. *)
Definition listInv (seen : list string) (st : listState) : Prop :=
  ls_list st = firstn 3 seen
  /\ ls_more st = (3 <? List.length seen)%nat
  /\ ls_count st = Z.of_nat (List.length seen).

Arguments FuncValue {Object} fn_In fn_Out fn_Call.
Arguments OtherValue {Object}.
Arguments mkHandlerEntry {Object} columnDefinitions printFunc.
Arguments columnDefinitions {Object} h.
Arguments printFunc {Object} h.
Arguments mkHumanReadableGenerator {Object} handlerMap.
Arguments handlerMap {Object} h.
Arguments NewTableGenerator {Object}.
Arguments ValidateRowPrintHandlerFunc {Object} printFunc.
Arguments mkRegistration {Object} reg_generator reg_handled reg_err.
Arguments reg_generator {Object} r.
Arguments reg_handled {Object} r.
Arguments reg_err {Object} r.
Arguments TableHandler {Object} h columnDefinitions printFunc.
Arguments GenerateTable {Object} TypeOf ListAccessor CommonAccessor h obj.

(** The signature the registry asks of a print function: one parameter,
    and the two results [[]metav1.TableRow] and [error]. *)
Definition hasRowPrintSignature {Object : Type} (v : Value Object) : bool :=
  match v with
  | FuncValue [_] [out0; out1] _ =>
      String.eqb out0 tableRowSliceType && String.eqb out1 errorType
  | _ => false
  end.

(** The generators a program can hold: [handlerMap] is private to the
    package, so a generator is a new one or the outcome of a call of
    [TableHandler] on one. *)
Inductive Registered {Object : Type} : HumanReadableGenerator Object -> Prop :=
  | Registered_new : Registered NewTableGenerator
  | Registered_handler h columns printFunc :
      Registered h ->
      Registered (reg_generator (TableHandler h columns printFunc)).

(** The columns a table shows. *)
Definition defaultColumns (columns : list TableColumnDefinition) : list TableColumnDefinition :=
  List.filter (fun c => col_Priority c =? 0) columns.

(** The reason a main container status gives to the Pod, if any: the
    reason it is waiting for, else the reason, signal or exit code it
    terminated with. *)
Definition containerReason (c : ContainerStatus) : option string :=
  match Waiting (cs_State c), Terminated (cs_State c) with
  | Some w, Some t =>
      if String.eqb (csw_Reason w) "" then
        Some (if String.eqb (cst_Reason t) "" then
                if cst_Signal t =? 0 then "ExitCode:" +:+ Itoa (cst_ExitCode t)
                else "Signal:" +:+ Itoa (cst_Signal t)
              else cst_Reason t)
      else Some (csw_Reason w)
  | Some w, None => if String.eqb (csw_Reason w) "" then None else Some (csw_Reason w)
  | None, Some t =>
      Some (if String.eqb (cst_Reason t) "" then
              if cst_Signal t =? 0 then "ExitCode:" +:+ Itoa (cst_ExitCode t)
              else "Signal:" +:+ Itoa (cst_Signal t)
            else cst_Reason t)
  | None, None => None
  end.

(** A main container that counts as still running: it gives no reason,
    is ready and reports a Running state. *)
Definition stillRunning (c : ContainerStatus) : bool :=
  match containerReason c, Running (cs_State c) with
  | None, Some _ => cs_Ready c
  | _, _ => false
  end.

(** A container status that is ready, has a Running state, has no
    Terminated state and is not waiting with a reason. *)
Definition readyAndOnlyRunning (c : ContainerStatus) : bool :=
  cs_Ready c
  && match Running (cs_State c) with Some _ => true | None => false end
  && match Terminated (cs_State c) with Some _ => false | None => true end
  && match Waiting (cs_State c) with
     | Some w => String.eqb (csw_Reason w) ""
     | None => true
     end.

(** The reason given by the first container status, in declaration
    order, that gives one. *)
Fixpoint firstContainerReason (statuses : list ContainerStatus) : option string :=
  match statuses with
  | [] => None
  | c :: rest =>
      match containerReason c with
      | Some r => Some r
      | None => firstContainerReason rest
      end
  end.

(** The reason computed by the scan of the main containers. *)
Definition scannedReason (pod : Pod) : string :=
  match firstContainerReason (ContainerStatuses (Status pod)) with
  | Some r => r
  | None => reason (podAfterInit pod)
  end.

(** The Pod with other main container statuses. *)
Definition with_ContainerStatuses (pod : Pod) (statuses : list ContainerStatus) : Pod :=
  mkPod (pod_Name pod) (pod_DeletionTimestamp pod) (pod_CreationTimestamp pod) (Spec pod)
    (mkPodStatus (Phase (Status pod)) (Conditions (Status pod)) (Reason (Status pod))
       (NominatedNodeName (Status pod)) (PodIPs (Status pod))
       (InitContainerStatuses (Status pod)) statuses).

(** An init container status that the init loop steps over as a started
    sidecar: its container is restartable and it has started. *)
Definition startedSidecar (pod : Pod) (st : ContainerStatus) : bool :=
  IsRestartableInitContainer (fst (initContainersOf pod) !! cs_Name st)
  && match cs_Started st with Some b => b | None => false end.

(** Whether one of the two deletion overrides replaces the reason. *)
Definition deletionOverrideApplies (pod : Pod) : bool :=
  negb (TimePtr_IsZero (pod_DeletionTimestamp pod))
  && (String.eqb (Reason (Status pod)) NodeUnreachablePodReason
      || negb (IsPodPhaseTerminal (Phase (Status pod)))).

(** The ordering [sort.Sort] asks of a [Less] method: a strict weak
    ordering, that is irreflexive, transitive, and such that
    "not less" is transitive too. *)
Record StrictWeakOrdering {A : Type} (less : A -> A -> bool) : Prop := {
  swo_irreflexive : forall x, less x x = false;
  swo_transitive : forall x y z, less x y = true -> less y z = true -> less x z = true;
  swo_negatively_transitive :
    forall x y z, less x y = false -> less y z = false -> less x z = false
}.

(** A slice in ascending order as determined by [less]: no element is
    less than one that stands before it. *)
Definition Ascending {A : Type} (less : A -> A -> bool) (l : list A) : Prop :=
  StronglySorted (fun x y => less y x = false) l.

(** The listing order of the specification: ascending matching
    precedence, ties broken by ascending name. *)
Definition flowSchemaLe (x y : FlowSchema) : Prop :=
  fs_MatchingPrecedence x < fs_MatchingPrecedence y
  \/ (fs_MatchingPrecedence x = fs_MatchingPrecedence y
      /\ String.leb (fs_Name x) (fs_Name y) = true).

(** The insertion sort that [sort.Sort] runs on a slice of at most twelve
    elements: each element in turn moves left while it is less than its
    predecessor. [sortedRev] is the sorted prefix, last element first. *)
Fixpoint insertLeftward {A : Type} (less : A -> A -> bool) (x : A) (sortedRev : list A)
    : list A :=
  match sortedRev with
  | [] => [x]
  | y :: rest =>
      if less x y then y :: insertLeftward less x rest
      else x :: y :: rest
  end.

Definition insertionSort (A : Type) (less : A -> A -> bool) (data : list A) : list A :=
  rev (fold_left (fun sortedRev x => insertLeftward less x sortedRev) data []).

(** The sorted prefix of the insertion sort, last element first: nothing
    is less than an element that stands after it. *)
Definition DescendingRev {A : Type} (less : A -> A -> bool) (sortedRev : list A) : Prop :=
  StronglySorted (fun x y => less x y = false) sortedRev.

(** * Concrete inputs *)

(** A stand-in for [duration.HumanDuration] where an example needs one:
    whole seconds. *)
Definition secondsDuration (d : Z) : string := Itoa (d / 1000000000) +:+ "s".

Definition exampleNow : Time := 1000000000000.

Definition noState : ContainerState := mkContainerState None None None.

Definition runningState : ContainerState :=
  mkContainerState None (Some (mkContainerStateRunning 500000000000)) None.

Definition completedState : ContainerState :=
  mkContainerState None None
    (Some (mkContainerStateTerminated 0 0 "Completed" 600000000000)).

Definition exitCode2State : ContainerState :=
  mkContainerState None None (Some (mkContainerStateTerminated 2 0 "" 600000000000)).

Definition crashLoopState : ContainerState :=
  mkContainerState (Some (mkContainerStateWaiting "CrashLoopBackOff")) None None.

(** Phase Succeeded, one container ready and Running, Ready condition
    false. *)
Definition podSucceededStillRunning : Pod :=
  mkPod "batch" None 100000000000
    (mkPodSpec [] [mkContainer "main" "busybox" None] "" [])
    (mkPodStatus PodSucceeded [mkPodCondition PodReady "False" ""] "" "" [] []
       [mkContainerStatus "main" runningState noState true 0 (Some true)]).

(** Phase Succeeded, a container terminated with reason "Completed" and
    another ready and Running, Ready condition false. *)
Definition podCompletedStillRunning : Pod :=
  mkPod "batch" None 100000000000
    (mkPodSpec [] [mkContainer "main" "busybox" None; mkContainer "proxy" "envoy" None] "" [])
    (mkPodStatus PodSucceeded [mkPodCondition PodReady "False" ""] "" "" [] []
       [mkContainerStatus "main" completedState noState false 0 (Some false);
        mkContainerStatus "proxy" runningState noState true 0 (Some true)]).

(** A sole init container that terminated with exit code 2; the main
    container waits. *)
Definition podInitFailed : Pod :=
  mkPod "web" None 100000000000
    (mkPodSpec [mkContainer "setup" "busybox" None] [mkContainer "main" "nginx" None] "" [])
    (mkPodStatus "Pending" [mkPodCondition PodInitialized "False" ""] "" "" []
       [mkContainerStatus "setup" exitCode2State noState false 0 None]
       [mkContainerStatus "main"
          (mkContainerState (Some (mkContainerStateWaiting "PodInitializing")) None None)
          noState false 0 None]).

(** The same init container, in a Pod whose Initialized condition is
    true and whose main container is in a crash loop. *)
Definition podInitFailedInitialized : Pod :=
  mkPod "web" None 100000000000
    (mkPodSpec [mkContainer "setup" "busybox" None] [mkContainer "main" "nginx" None] "" [])
    (mkPodStatus "Pending" [mkPodCondition PodInitialized ConditionTrue ""] "" "" []
       [mkContainerStatus "setup" exitCode2State noState false 0 None]
       [mkContainerStatus "main" crashLoopState noState false 0 None]).

(** A running container with restart count 0 whose last termination is
    recorded. *)
Definition podZeroRestarts : Pod :=
  mkPod "web" None 100000000000
    (mkPodSpec [] [mkContainer "main" "nginx" None] "" [])
    (mkPodStatus "Running" [mkPodCondition PodReady ConditionTrue ""] "" "" [] []
       [mkContainerStatus "main" runningState exitCode2State true 0 (Some true)]).

Definition csrDeniedFalse : CertificateSigningRequest :=
  mkCSR "node-csr" [mkCSRCondition CertificateDenied "False" "Revoked"] [].

Definition csrDeniedTrue : CertificateSigningRequest :=
  mkCSR "node-csr" [mkCSRCondition CertificateDenied ConditionTrue "Revoked"] [].

Definition flowSchemaB100 : FlowSchema :=
  mkFlowSchema "b" 100000000000 "workload-low" 100 None [].

Definition flowSchemaA50 : FlowSchema :=
  mkFlowSchema "a" 100000000000 "workload-high" 50 (Some "ByUser") [].

(** The objects of the examples: lists of Pods. *)
Inductive Resource : Type :=
  | PodListResource (meta : ListMeta) (items : list Pod).

Definition podListType : reflectType := "*v1.PodList".

Definition Resource_TypeOf (r : Resource) : reflectType :=
  match r with PodListResource _ _ => podListType end.

Definition Resource_ListAccessor (r : Resource) : option ListMeta :=
  match r with PodListResource meta _ => Some meta end.

Definition Resource_CommonAccessor (r : Resource) : option string := None.

(** The columns of Pods in [AddHandlers] (their descriptions, which come
    from the generated documentation of the API, are left empty). *)
Definition podColumnDefinitions : list TableColumnDefinition :=
  [mkTableColumnDefinition "Name" "string" "name" "" 0;
   mkTableColumnDefinition "Ready" "string" "" "" 0;
   mkTableColumnDefinition "Status" "string" "" "" 0;
   mkTableColumnDefinition "Restarts" "string" "" "" 0;
   mkTableColumnDefinition "Age" "string" "" "" 0;
   mkTableColumnDefinition "IP" "string" "" "" 1;
   mkTableColumnDefinition "Node" "string" "" "" 1;
   mkTableColumnDefinition "Nominated Node" "string" "" "" 1;
   mkTableColumnDefinition "Readiness Gates" "string" "" "" 1].

(** [printPodList] as a registered function value. *)
Definition printPodListValue : Value Resource :=
  FuncValue [podListType] [tableRowSliceType; errorType]
    (fun r =>
       match r with
       | PodListResource _ items => printPodList secondsDuration exampleNow items
       end).

(** A function of three parameters. *)
Definition threeParameterValue : Value Resource :=
  FuncValue [podListType; "definition.GenerateOptions"; "bool"]
    [tableRowSliceType; errorType]
    (fun _ => ([], None)).

Definition podGenerator : HumanReadableGenerator Resource :=
  reg_generator (TableHandler NewTableGenerator podColumnDefinitions printPodListValue).

Definition examplePodList : Resource :=
  PodListResource (mkListMeta "4711" "" None) [podCompletedStillRunning; podZeroRestarts].

(** A Job whose Complete and Suspended conditions are both true. *)
Definition jobCompleteSuspended : Job :=
  mkJob "backup" None 100000000000 (Some 1) None None
    [mkContainer "dump" "postgres" None]
    [mkJobCondition JobSuspended ConditionTrue; mkJobCondition JobComplete ConditionTrue]
    1 (Some 200000000000) (Some 260000000000).

(** A Job with two conditions of type Complete, the first False and the
    second True, and a Suspended condition that is True. *)
Definition jobCompleteShadowed : Job :=
  mkJob "backup" None 100000000000 (Some 1) None None
    [mkContainer "dump" "postgres" None]
    [mkJobCondition JobComplete "False"; mkJobCondition JobComplete ConditionTrue;
     mkJobCondition JobSuspended ConditionTrue]
    1 (Some 200000000000) None.

(** A stand-in for [metav1.FormatLabelSelector] on the sample Jobs,
    which have no selector. *)
Definition noSelector (selector : option LabelSelector) : string := "<none>".

(** A Pod with phase Succeeded whose only ready status has both a
    Running and a Terminated state, the latter with reason "Completed". *)
Definition podCompletedRunningAndTerminated : Pod :=
  mkPod "batch" None 100000000000
    (mkPodSpec [] [mkContainer "main" "busybox" None] "" [])
    (mkPodStatus PodSucceeded [mkPodCondition PodReady "False" ""] "" "" [] []
       [mkContainerStatus "main"
          (mkContainerState None (Some (mkContainerStateRunning 500000000000))
             (Some (mkContainerStateTerminated 0 0 "Completed" 600000000000)))
          noState true 0 (Some true)]).

Definition exampleEndpoints : list Endpoint :=
  [mkEndpoint ["10.0.0.1"; "10.0.0.2"]; mkEndpoint [];
   mkEndpoint ["10.0.0.3"; "10.0.0.4"; "10.0.0.5"]].


(** * More of the package

    The kinds the server lists through the generator, and the handlers
    [AddHandlers] registers. A list type is named by its package path and
    name, so that types of different API groups are told apart. *)

(** The parameter types of the print functions that [AddHandlers]
    registers, in the order of its calls of [TableHandler]. *)
Definition handlerTypes : list reflectType :=
  [(* printPodList *)
   "*k8s.io/api/core/v1.PodList";
   (* printPodDisruptionBudgetList *)
   "*k8s.io/api/policy/v1.PodDisruptionBudgetList";
   (* printReplicaSetList *)
   "*k8s.io/api/apps/v1.ReplicaSetList";
   (* printDaemonSetList *)
   "*k8s.io/api/apps/v1.DaemonSetList";
   (* printJobList *)
   "*k8s.io/api/batch/v1.JobList";
   (* printCronJobList *)
   "*k8s.io/api/batch/v1.CronJobList";
   (* printServiceList *)
   "*k8s.io/api/core/v1.ServiceList";
   (* printIngressList *)
   "*k8s.io/api/networking/v1.IngressList";
   (* printIngressClassList *)
   "*k8s.io/api/networking/v1.IngressClassList";
   (* printStatefulSetList *)
   "*k8s.io/api/apps/v1.StatefulSetList";
   (* printEndpointsList *)
   "*k8s.io/api/core/v1.EndpointsList";
   (* printNodeList *)
   "*k8s.io/api/core/v1.NodeList";
   (* printEventList *)
   "*k8s.io/api/core/v1.EventList";
   (* printNamespaceList *)
   "*k8s.io/api/core/v1.NamespaceList";
   (* printSecretList *)
   "*k8s.io/api/core/v1.SecretList";
   (* printServiceAccountList *)
   "*k8s.io/api/core/v1.ServiceAccountList";
   (* printPersistentVolumeList *)
   "*k8s.io/api/core/v1.PersistentVolumeList";
   (* printPersistentVolumeClaimList *)
   "*k8s.io/api/core/v1.PersistentVolumeClaimList";
   (* printDeploymentList *)
   "*k8s.io/api/apps/v1.DeploymentList";
   (* printHorizontalPodAutoscalerList *)
   "*k8s.io/api/autoscaling/v2.HorizontalPodAutoscalerList";
   (* printConfigMapList *)
   "*k8s.io/api/core/v1.ConfigMapList";
   (* printNetworkPolicyList *)
   "*k8s.io/api/networking/v1.NetworkPolicyList";
   (* printRoleBindingList *)
   "*k8s.io/api/rbac/v1.RoleBindingList";
   (* printClusterRoleBindingList *)
   "*k8s.io/api/rbac/v1.ClusterRoleBindingList";
   (* printCertificateSigningRequestList *)
   "*k8s.io/api/certificates/v1.CertificateSigningRequestList";
   (* printLeaseList *)
   "*k8s.io/api/coordination/v1.LeaseList";
   (* printStorageClassList *)
   "*k8s.io/api/storage/v1.StorageClassList";
   (* printControllerRevisionList *)
   "*k8s.io/api/apps/v1.ControllerRevisionList";
   (* printResourceQuotaList *)
   "*k8s.io/api/core/v1.ResourceQuotaList";
   (* printPriorityClassList *)
   "*k8s.io/api/scheduling/v1.PriorityClassList";
   (* printRuntimeClassList *)
   "*k8s.io/api/node/v1.RuntimeClassList";
   (* printVolumeAttachmentList *)
   "*k8s.io/api/storage/v1.VolumeAttachmentList";
   (* printEndpointSliceList *)
   "*k8s.io/api/discovery/v1.EndpointSliceList";
   (* printCSINodeList *)
   "*k8s.io/api/storage/v1.CSINodeList";
   (* printCSIDriverList *)
   "*k8s.io/api/storage/v1.CSIDriverList";
   (* printCSIStorageCapacityList *)
   "*k8s.io/api/storage/v1.CSIStorageCapacityList";
   (* printMutatingWebhookList *)
   "*k8s.io/api/admissionregistration/v1.MutatingWebhookConfigurationList";
   (* printValidatingWebhookList *)
   "*k8s.io/api/admissionregistration/v1.ValidatingWebhookConfigurationList";
   (* printFlowSchemaList *)
   "*k8s.io/api/flowcontrol/v1.FlowSchemaList";
   (* printPriorityLevelConfigurationList *)
   "*k8s.io/api/flowcontrol/v1.PriorityLevelConfigurationList";
   (* printResourceClaimList *)
   "*k8s.io/api/resource/v1beta1.ResourceClaimList";
   (* printResourceSliceList *)
   "*k8s.io/api/resource/v1beta1.ResourceSliceList"].

(** The entries of the map literal [mapping]: the kinds of
    [IsSupportedKind], each with the type of the (empty) list object it
    maps to. *)
Definition mappingEntries : list (string * reflectType) :=
    [("Pod", "*k8s.io/api/core/v1.PodList");
     ("PodDisruptionBudget", "*k8s.io/api/policy/v1.PodDisruptionBudgetList");
     ("ReplicaSet", "*k8s.io/api/apps/v1.ReplicaSetList");
     ("DaemonSet", "*k8s.io/api/apps/v1.DaemonSetList");
     ("Deployment", "*k8s.io/api/apps/v1.DeploymentList");
     ("StatefulSet", "*k8s.io/api/apps/v1.StatefulSetList");
     ("Job", "*k8s.io/api/batch/v1.JobList");
     ("CronJob", "*k8s.io/api/batch/v1beta1.CronJobList");
     ("Ingress", "*k8s.io/api/networking/v1.IngressList");
     ("Service", "*k8s.io/api/core/v1.ServiceList");
     ("Endpoints", "*k8s.io/api/core/v1.EndpointsList");
     ("Node", "*k8s.io/api/core/v1.NodeList");
     ("Namespace", "*k8s.io/api/core/v1.NamespaceList");
     ("Secret", "*k8s.io/api/core/v1.SecretList");
     ("ConfigMap", "*k8s.io/api/core/v1.ConfigMapList");
     ("PersistentVolume", "*k8s.io/api/core/v1.PersistentVolumeList");
     ("PersistentVolumeClaim", "*k8s.io/api/core/v1.PersistentVolumeClaimList");
     ("StorageClass", "*k8s.io/api/storage/v1.StorageClassList");
     ("PriorityClass", "*k8s.io/api/scheduling/v1.PriorityClassList");
     ("ServiceAccount", "*k8s.io/api/core/v1.ServiceAccountList");
     ("Role", "*k8s.io/api/rbac/v1.RoleList");
     ("ClusterRole", "*k8s.io/api/rbac/v1.ClusterRoleList");
     ("RoleBinding", "*k8s.io/api/rbac/v1.RoleBindingList");
     ("ClusterRoleBinding", "*k8s.io/api/rbac/v1.ClusterRoleBindingList");
     ("HorizontalPodAutoscaler", "*k8s.io/api/autoscaling/v2.HorizontalPodAutoscalerList");
     ("PriorityLevelConfiguration", "*k8s.io/api/flowcontrol/v1.PriorityLevelConfigurationList");
     ("CSR", "*k8s.io/api/certificates/v1.CertificateSigningRequestList");
     ("Lease", "*k8s.io/api/coordination/v1.LeaseList");
     ("EndpointSlice", "*k8s.io/api/discovery/v1.EndpointSliceList");
     ("LimitRange", "*k8s.io/api/core/v1.LimitRangeList");
     ("ResourceQuota", "*k8s.io/api/core/v1.ResourceQuotaList");
     ("Event", "*k8s.io/api/core/v1.EventList");
     ("MutatingWebhookConfiguration", "*k8s.io/api/admissionregistration/v1.MutatingWebhookConfigurationList");
     ("ValidatingWebhookConfiguration", "*k8s.io/api/admissionregistration/v1.ValidatingWebhookConfigurationList");
     ("ResourceClaim", "*k8s.io/api/resource/v1beta1.ResourceClaimList");
     ("ResourceSlice", "*k8s.io/api/resource/v1beta1.ResourceSliceList")].

Definition mapping : gmap string reflectType := list_to_map mappingEntries.

(** [IsSupportedKind]: the type of the object returned for a supported
    kind, [None] for an unsupported one. *)
Definition IsSupportedKind (kind : string) : option reflectType :=
  match mapping !! kind with
  | None => None
  | Some _ => mapping !! kind
  end.

Section AddHandlers.

(** [AddHandlers] calls [TableHandler] once per print function and drops
    the returned error. The column definitions and the print functions
    of the calls are parameters here, given by the parameter type of the
    print function: which types end up with a handler is what is
    modelled. *)
Variable Object : Type.
Variable columnsFor : reflectType -> list TableColumnDefinition.
Variable printerFor : reflectType -> Object -> list TableRow * option Error.

Definition printerValue (t : reflectType) : Value Object :=
  FuncValue [t] [tableRowSliceType; errorType] (printerFor t).

Definition AddHandlers (h : HumanReadableGenerator Object) : HumanReadableGenerator Object :=
  fold_left
    (fun h t => reg_generator (TableHandler h (columnsFor t) (printerValue t)))
    handlerTypes h.

(** The errors of the calls of [TableHandler] in [AddHandlers], which the
    source assigns to the blank identifier. *)
Fixpoint registrationErrors (types : list reflectType) (h : HumanReadableGenerator Object)
    : list (option Error) :=
  match types with
  | [] => []
  | t :: rest =>
      let r := TableHandler h (columnsFor t) (printerValue t) in
      reg_err r :: registrationErrors rest (reg_generator r)
  end.

End AddHandlers.

Arguments printerValue {Object} printerFor t.
Arguments AddHandlers {Object} columnsFor printerFor h.
Arguments registrationErrors {Object} columnsFor printerFor types h.

(** The supported kinds whose list type has no print function in
    [AddHandlers]. *)
Definition kindsWithoutHandler : list string :=
  ["CronJob"; "Role"; "ClusterRole"; "LimitRange"].

(** ** Pods: what the scans count *)

(** An init container of the Pod's spec with restart policy Always. *)
Definition isRestartable (c : Container) : bool := IsRestartableInitContainer (Some c).

(** A main container status in good health: ready, reporting Running,
    neither waiting nor terminated. *)
Definition healthy (c : ContainerStatus) : bool :=
  cs_Ready c
  && match Waiting (cs_State c), Running (cs_State c), Terminated (cs_State c) with
     | None, Some _, None => true
     | _, _, _ => false
     end.

(** A condition that gates the scheduling of the Pod. *)
Definition isSchedulingGated (condition : PodCondition) : bool :=
  String.eqb (pc_Type condition) PodScheduled
  && String.eqb (pc_Reason condition) PodReasonSchedulingGated.

(** An init container status that terminated with exit code 0. *)
Definition exitedZero (c : ContainerStatus) : bool :=
  match Terminated (cs_State c) with
  | Some t => cst_ExitCode t =? 0
  | None => false
  end.

(** An init container status that has not terminated and gives no
    reason of its own: it does not wait, or waits without a reason or
    with the reason "PodInitializing". *)
Definition pendingInit (c : ContainerStatus) : bool :=
  match Terminated (cs_State c), Waiting (cs_State c) with
  | Some _, _ => false
  | None, None => true
  | None, Some w =>
      String.eqb (csw_Reason w) "" || String.eqb (csw_Reason w) "PodInitializing"
  end.

(** ** Access modes of persistent volumes *)

Definition ReadWriteOnce : string := "ReadWriteOnce".
Definition ReadOnlyMany : string := "ReadOnlyMany".
Definition ReadWriteMany : string := "ReadWriteMany".
Definition ReadWriteOncePod : string := "ReadWriteOncePod".

(** [slices.Contains]. *)
Definition ContainsAccessMode (modes : list string) (mode : string) : bool :=
  existsb (fun m => String.eqb m mode) modes.

Definition removeDuplicateAccessModes (modes : list string) : list string :=
  fold_left
    (fun accessModes m =>
       if negb (ContainsAccessMode accessModes m) then accessModes ++ [m]
       else accessModes)
    modes [].

Definition GetAccessModesAsString (modes : list string) : string :=
  let modes := removeDuplicateAccessModes modes in
  let modesStr := [] in
  let modesStr :=
    if ContainsAccessMode modes ReadWriteOnce then modesStr ++ ["RWO"] else modesStr in
  let modesStr :=
    if ContainsAccessMode modes ReadOnlyMany then modesStr ++ ["ROX"] else modesStr in
  let modesStr :=
    if ContainsAccessMode modes ReadWriteMany then modesStr ++ ["RWX"] else modesStr in
  let modesStr :=
    if ContainsAccessMode modes ReadWriteOncePod then modesStr ++ ["RWOP"] else modesStr in
  Join modesStr ",".

(** The abbreviations in their fixed order, each with its mode. *)
Definition accessModeAbbreviations : list (string * string) :=
  [(ReadWriteOnce, "RWO"); (ReadOnlyMany, "ROX"); (ReadWriteMany, "RWX");
   (ReadWriteOncePod, "RWOP")].

(** ** Subjects of role bindings *)

Definition ServiceAccountKind : string := "ServiceAccount".
Definition UserKind : string := "User".
Definition GroupKind : string := "Group".

Record Subject : Type := mkSubject {
  subj_Kind : string;
  subj_Name : string;
  subj_Namespace : string
}.

(** The body of the loop of [SubjectsStrings]: a [switch] on the kind. *)
Definition subjectStep
    (acc : list string * list string * list string * list string) (subject : Subject)
    : list string * list string * list string * list string :=
  let '(users, groups, sas, others) := acc in
  if String.eqb (subj_Kind subject) ServiceAccountKind then
    (users, groups, sas ++ [subj_Namespace subject +:+ "/" +:+ subj_Name subject], others)
  else if String.eqb (subj_Kind subject) UserKind then
    (users ++ [subj_Name subject], groups, sas, others)
  else if String.eqb (subj_Kind subject) GroupKind then
    (users, groups ++ [subj_Name subject], sas, others)
  else
    (users, groups, sas,
     others ++ [subj_Kind subject +:+ "/" +:+ subj_Namespace subject +:+ "/"
                +:+ subj_Name subject]).

(** [SubjectsStrings] returns users, groups, service accounts, others. *)
Definition SubjectsStrings (subjects : list Subject)
    : list string * list string * list string * list string :=
  fold_left subjectStep subjects ([], [], [], []).

Definition isOtherSubject (s : Subject) : bool :=
  negb (String.eqb (subj_Kind s) ServiceAccountKind)
  && negb (String.eqb (subj_Kind s) UserKind)
  && negb (String.eqb (subj_Kind s) GroupKind).

(** ** Hosts of an Ingress *)

Record IngressRule : Type := mkIngressRule {
  ir_Host : string
}.

(** The body of the loop of [formatHosts] over the rules. *)
Definition hostStep (maximum : Z) (st : list string * bool) (rule : IngressRule)
    : list string * bool :=
  let '(list, more) := st in
  let more := if Z.of_nat (List.length list) =? maximum then true else more in
  let list :=
    if negb more && negb (Z.of_nat (String.length (ir_Host rule)) =? 0)
    then list ++ [ir_Host rule]
    else list in
  (list, more).

Definition formatHosts (rules : list IngressRule) : string :=
  let maximum := 3 in
  let '(list, more) := fold_left (hostStep maximum) rules ([], false) in
  if Z.of_nat (List.length list) =? 0 then "*"
  else
    let ret := Join list "," in
    if more
    then ret +:+ " + " +:+ Itoa (Z.of_nat (List.length rules) - maximum) +:+ " more..."
    else ret.

(** The hosts of the rules that have one. *)
Definition hostsOf (rules : list IngressRule) : list string :=
  List.filter (fun h => negb (String.eqb h "")) (List.map ir_Host rules).

(** What [formatHosts] returns, said with the hosts of the rules: the
    overflow is declared when a rule follows the third host, and counts
    rules, not hosts. *)
Definition formatHosts_spec (rules : list IngressRule) : string :=
  match hostsOf rules with
  | [] => "*"
  | _ :: _ =>
      if (3 <=? List.length (hostsOf (removelast rules)))%nat
      then Join (firstn 3 (hostsOf rules)) ","
           +:+ " + " +:+ Itoa (Z.of_nat (List.length rules) - 3) +:+ " more..."
      else Join (hostsOf rules) ","
  end.

(** The state of the loop of [formatHosts] after the rules [seen]. *)
Definition hostInv (seen : list IngressRule) (st : list string * bool) : Prop :=
  fst st = firstn 3 (hostsOf seen)
  /\ snd st = (3 <=? List.length (hostsOf (removelast seen)))%nat.

(** ** Ports of an EndpointSlice *)

Record DiscoveryEndpointPort : Type := mkDiscoveryEndpointPort {
  dep_Name : option string;
  dep_Port : option Z
}.

(** How [formatDiscoveryPorts] shows one port: its number, else its name,
    else "*". *)
Definition discoveryPortString (port : DiscoveryEndpointPort) : string :=
  let portNum := "*" in
  match dep_Port port with
  | Some p => Itoa p
  | None =>
      match dep_Name port with
      | Some name => name
      | None => portNum
      end
  end.

(** The body of the loop of [formatDiscoveryPorts]. *)
Definition portStep (maximum : Z) (st : listState) (port : DiscoveryEndpointPort)
    : listState :=
  let len := Z.of_nat (List.length (ls_list st)) in
  let st' :=
    if len <? maximum
    then mkListState (ls_list st ++ [discoveryPortString port]) (ls_more st) (ls_count st)
    else if len =? maximum then mkListState (ls_list st) true (ls_count st)
    else st in
  mkListState (ls_list st') (ls_more st') (ls_count st' + 1).

Definition formatDiscoveryPorts (ports : list DiscoveryEndpointPort) : string :=
  let maximum := 3 in
  let st := fold_left (portStep maximum) ports (mkListState [] false 0) in
  listWithMoreString (ls_list st) (ls_more st) (ls_count st) maximum.

(** ** Endpoints *)

Record EndpointAddress : Type := mkEndpointAddress {
  ea_IP : string
}.

Record EndpointPort : Type := mkEndpointPort {
  ept_Name : string;
  ept_Port : Z
}.

Record EndpointSubset : Type := mkEndpointSubset {
  es_Addresses : list EndpointAddress;
  es_Ports : list EndpointPort
}.

Record Endpoints : Type := mkEndpoints {
  ep_Name : string;
  ep_CreationTimestamp : Time;
  Subsets : list EndpointSubset
}.

(** The loop of [formatEndpoints] over the addresses of a subset: it
    stops at the first address met when the list is full. *)
Fixpoint appendAddresses (maximum : Z) (show : EndpointAddress -> string)
    (addresses : list EndpointAddress) (shown : list string) (more : bool)
    : list string * bool :=
  match addresses with
  | [] => (shown, more)
  | addr :: rest =>
      if Z.of_nat (List.length shown) =? maximum then (shown, true)
      else appendAddresses maximum show rest (shown ++ [show addr]) more
  end.

Section FormatEndpoints.

(** [net.JoinHostPort] of the Go standard library. *)
Variable JoinHostPort : string -> string -> string.

(** The body of the loop over the ports of a subset; the state holds the
    variables [list], [more] and [count] of [formatEndpoints]. *)
Definition portOfSubsetStep (ports : option (gset string)) (maximum : Z)
    (addresses : list EndpointAddress) (st : list string * bool * Z) (port : EndpointPort)
    : list string * bool * Z :=
  let '(list, more, count) := st in
  if match ports with
     | None => true
     | Some selected => bool_decide (ept_Name port ∈ selected)
     end
  then
    let count := count + Z.of_nat (List.length addresses) in
    let '(list, more) :=
      appendAddresses maximum
        (fun addr => JoinHostPort (ea_IP addr) (Itoa (ept_Port port)))
        addresses list more in
    (list, more, count)
  else st.

Definition subsetStep (ports : option (gset string)) (maximum : Z)
    (st : list string * bool * Z) (ss : EndpointSubset) : list string * bool * Z :=
  let '(list, more, count) := st in
  if Z.of_nat (List.length (es_Ports ss)) =? 0 then
    (* It's possible to have headless services with no ports. *)
    let count := count + Z.of_nat (List.length (es_Addresses ss)) in
    let '(list, more) := appendAddresses maximum ea_IP (es_Addresses ss) list more in
    (list, more, count)
  else
    (* "Normal" services with ports defined. *)
    fold_left (portOfSubsetStep ports maximum (es_Addresses ss)) (es_Ports ss) st.

(** Pass [ports = None] (nil) for all ports. *)
Definition formatEndpoints (endpoints : Endpoints) (ports : option (gset string)) : string :=
  if Z.of_nat (List.length (Subsets endpoints)) =? 0 then "<none>"
  else
    let maximum := 3 in
    let '(list, more, count) :=
      fold_left (subsetStep ports maximum) (Subsets endpoints) ([], false, 0) in
    let ret := Join list "," in
    if more then ret +:+ " + " +:+ Itoa (count - maximum) +:+ " more..."
    else ret.

(** The entries of an Endpoints object in the order [formatEndpoints]
    visits them: per subset the bare addresses when it has no port, else
    per selected port the addresses joined with the port. *)
Definition subsetEntries (ports : option (gset string)) (ss : EndpointSubset) : list string :=
  match es_Ports ss with
  | [] => List.map ea_IP (es_Addresses ss)
  | _ :: _ =>
      flat_map
        (fun port =>
           if match ports with
              | None => true
              | Some selected => bool_decide (ept_Name port ∈ selected)
              end
           then List.map
                  (fun addr => JoinHostPort (ea_IP addr) (Itoa (ept_Port port)))
                  (es_Addresses ss)
           else [])
        (es_Ports ss)
  end.

Definition endpointEntries (endpoints : Endpoints) (ports : option (gset string))
    : list string :=
  flat_map (subsetEntries ports) (Subsets endpoints).

Variable HumanDuration : Z -> string.
Variable now : Time.

Definition printEndpoints (obj : Endpoints) : list TableRow * option Error :=
  ([mkTableRow
      [CellString (ep_Name obj); CellString (formatEndpoints obj None);
       CellString (translateTimestampSince HumanDuration now (ep_CreationTimestamp obj))]
      []],
   None).

End FormatEndpoints.

(** The state of the loops of [formatEndpoints] after the entries [seen]. *)
Definition entriesInv (seen : list string) (st : list string * bool * Z) : Prop :=
  fst (fst st) = firstn 3 seen
  /\ snd (fst st) = (3 <? List.length seen)%nat
  /\ snd st = Z.of_nat (List.length seen).

(** ** Nodes *)

Definition NodeReady : string := "Ready".
Definition NodeExternalIP : string := "ExternalIP".
Definition NodeInternalIP : string := "InternalIP".

(** [labelNodeRolePrefix] and [nodeLabelRole] of the package. *)
Definition labelNodeRolePrefix : string := "node-role.kubernetes.io/".
Definition nodeLabelRole : string := "kubernetes.io/role".

Record NodeCondition : Type := mkNodeCondition {
  nc_Type : string;
  nc_Status : string
}.

Record NodeAddress : Type := mkNodeAddress {
  na_Type : string;
  na_Address : string
}.

Record NodeSystemInfo : Type := mkNodeSystemInfo {
  KubeletVersion : string;
  OSImage : string;
  KernelVersion : string;
  ContainerRuntimeVersion : string
}.

Record Node : Type := mkNode {
  node_Name : string;
  node_Labels : gmap string string;
  node_CreationTimestamp : Time;
  node_Unschedulable : bool;
  node_Conditions : list NodeCondition;
  node_Addresses : list NodeAddress;
  node_NodeInfo : NodeSystemInfo
}.

(** The loop of [getNodeExternalIP] and [getNodeInternalIP]: the first
    address of the type, "<none>" when there is none. *)
Fixpoint firstAddressOfType (addresses : list NodeAddress) (addressType : string) : string :=
  match addresses with
  | [] => "<none>"
  | address :: rest =>
      if String.eqb (na_Type address) addressType then na_Address address
      else firstAddressOfType rest addressType
  end.

Definition getNodeExternalIP (node : Node) : string :=
  firstAddressOfType (node_Addresses node) NodeExternalIP.

Definition getNodeInternalIP (node : Node) : string :=
  firstAddressOfType (node_Addresses node) NodeInternalIP.

(** The set [roles] of [findNodeRoles] after the loop over the labels
    ([strings.HasPrefix] is [String.prefix]; [strings.TrimPrefix] of a
    key that has the prefix is the rest of the key). *)
Definition nodeRoles (node : Node) : gset string :=
  map_fold
    (fun k v (roles : gset string) =>
       if String.prefix labelNodeRolePrefix k then
         let role :=
           String.substring (String.length labelNodeRolePrefix)
             (String.length k - String.length labelNodeRolePrefix) k in
         if 0 <? Z.of_nat (String.length role) then {[role]} ∪ roles else roles
       else if String.eqb k nodeLabelRole && negb (String.eqb v "") then {[v]} ∪ roles
       else roles)
    ∅ (node_Labels node).

(** The loop of [printNode] that fills [conditionMap]: a later condition
    of a type replaces an earlier one. *)
Definition conditionMapOf (conditions : list NodeCondition) : gmap string NodeCondition :=
  fold_left (fun m cond => <[nc_Type cond := cond]> m) conditions ∅.

(** The loop of [printNode] over [NodeAllConditions]. *)
Definition nodeStatusStep (conditionMap : gmap string NodeCondition)
    (status : list string) (validCondition : string) : list string :=
  match conditionMap !! validCondition with
  | Some condition =>
      if String.eqb (nc_Status condition) ConditionTrue
      then status ++ [nc_Type condition]
      else status ++ ["Not" +:+ nc_Type condition]
  | None => status
  end.

Section PrintNode.

(** [UnsortedList] of k8s.io/apimachinery's sets: the elements of the
    set in an order the library does not fix. *)
Variable UnsortedList : gset string -> list string.
Variable HumanDuration : Z -> string.
Variable now : Time.

Definition findNodeRoles (node : Node) : list string := UnsortedList (nodeRoles node).

Definition printNode (obj : Node) : list TableRow * option Error :=
  let conditionMap := conditionMapOf (node_Conditions obj) in
  let NodeAllConditions := [NodeReady] in
  let status := fold_left (nodeStatusStep conditionMap) NodeAllConditions [] in
  let status :=
    if Z.of_nat (List.length status) =? 0 then status ++ ["Unknown"] else status in
  let status :=
    if node_Unschedulable obj then status ++ ["SchedulingDisabled"] else status in
  let roles := Join (findNodeRoles obj) "," in
  let roles := if Z.of_nat (String.length roles) =? 0 then "<none>" else roles in
  let cells :=
    [CellString (node_Name obj); CellString (Join status ","); CellString roles;
     CellString (translateTimestampSince HumanDuration now (node_CreationTimestamp obj));
     CellString (KubeletVersion (node_NodeInfo obj))] in
  let osImage := OSImage (node_NodeInfo obj) in
  let kernelVersion := KernelVersion (node_NodeInfo obj) in
  let crVersion := ContainerRuntimeVersion (node_NodeInfo obj) in
  let osImage := if String.eqb osImage "" then "<unknown>" else osImage in
  let kernelVersion := if String.eqb kernelVersion "" then "<unknown>" else kernelVersion in
  let crVersion := if String.eqb crVersion "" then "<unknown>" else crVersion in
  let cells :=
    cells ++ [CellString (getNodeInternalIP obj); CellString (getNodeExternalIP obj);
              CellString osImage; CellString kernelVersion; CellString crVersion] in
  ([mkTableRow cells []], None).

End PrintNode.

(** The last condition of a type in a list of conditions. *)
Definition lastNodeCondition (conditions : list NodeCondition) (conditionType : string)
    : option NodeCondition :=
  fold_left
    (fun found cond => if String.eqb (nc_Type cond) conditionType then Some cond else found)
    conditions None.

(** ** More sample objects *)

(** The print function of [printPodListValue]. *)
Definition printPodListCall (r : Resource) : list TableRow * option Error :=
  match r with
  | PodListResource _ items => printPodList secondsDuration exampleNow items
  end.

(** A Pod under deletion whose container still runs. *)
Definition podDeleted : Pod :=
  mkPod "web" (Some 900000000000) 100000000000
    (mkPodSpec [] [mkContainer "main" "nginx" None] "" [])
    (mkPodStatus "Running" [mkPodCondition PodReady ConditionTrue ""] "" "" [] []
       [mkContainerStatus "main" runningState noState true 0 (Some true)]).

(** A Pod whose scheduling is gated. *)
Definition podGated : Pod :=
  mkPod "web" None 100000000000
    (mkPodSpec [] [mkContainer "main" "nginx" None] "" [])
    (mkPodStatus "Pending"
       [mkPodCondition PodScheduled "False" PodReasonSchedulingGated] "" "" [] [] []).

Definition initDoneStatus : ContainerStatus :=
  mkContainerStatus "fetch" completedState noState false 0 None.

Definition initPendingStatus : ContainerStatus :=
  mkContainerStatus "migrate"
    (mkContainerState (Some (mkContainerStateWaiting "PodInitializing")) None None)
    noState false 0 None.

(** A Pod with two init containers, the first done and the second not
    yet started. *)
Definition podInitializing : Pod :=
  mkPod "web" None 100000000000
    (mkPodSpec
       [mkContainer "fetch" "busybox" None; mkContainer "migrate" "busybox" None]
       [mkContainer "main" "nginx" None] "" [])
    (mkPodStatus "Pending" [mkPodCondition PodInitialized "False" ""] "" "" []
       [initDoneStatus; initPendingStatus]
       [mkContainerStatus "main"
          (mkContainerState (Some (mkContainerStateWaiting "PodInitializing")) None None)
          noState false 0 None]).

(** The list type that [mapping] gives for the kind CronJob. *)
Definition cronJobListType : reflectType := "*k8s.io/api/batch/v1beta1.CronJobList".
(** * Properties *)

(** Case analysis on the test of a conditional of the goal. *)
Ltac case_if :=
  match goal with
  | |- context [if ?b then _ else _] => destruct b
  end.

(** ** CertificateSigningRequest status *)

(** One step of the loop sets exactly the flag of the condition's type. *)
Lemma csrStep_flags f c :
  approved (csrStep f c) = approved f || String.eqb (csrc_Type c) CertificateApproved
  /\ denied (csrStep f c) = denied f || String.eqb (csrc_Type c) CertificateDenied
  /\ failed (csrStep f c) = failed f || String.eqb (csrc_Type c) CertificateFailed.
Proof.
  unfold csrStep.
  destruct (String.eqb (csrc_Type c) CertificateApproved) eqn:Ea.
  { apply String.eqb_eq in Ea. rewrite Ea. simpl.
    now rewrite orb_true_r, !orb_false_r. }
  destruct (String.eqb (csrc_Type c) CertificateDenied) eqn:Ed.
  { apply String.eqb_eq in Ed. rewrite Ed. simpl.
    now rewrite orb_true_r, !orb_false_r. }
  destruct (String.eqb (csrc_Type c) CertificateFailed) eqn:Ef; simpl.
  - now rewrite orb_true_r, !orb_false_r.
  - now rewrite !orb_false_r.
Qed.

(** The flags after the loop say which condition types are present. *)
Lemma csrFlags_fold conditions f :
  let f' := fold_left csrStep conditions f in
  approved f' = approved f || hasCSRCondition conditions CertificateApproved
  /\ denied f' = denied f || hasCSRCondition conditions CertificateDenied
  /\ failed f' = failed f || hasCSRCondition conditions CertificateFailed.
Proof.
  revert f. induction conditions as [| c rest IH]; intros f; simpl.
  - now rewrite !orb_false_r.
  - destruct (IH (csrStep f c)) as (Ha & Hd & Hf).
    destruct (csrStep_flags f c) as (Sa & Sd & Sf).
    rewrite Ha, Hd, Hf, Sa, Sd, Sf.
    now rewrite !orb_assoc.
Qed.

(** C6: the status derived for a CertificateSigningRequest is "Denied"
    when a Denied condition is present, else "Approved" when an Approved
    condition is present, else "Pending"; ",Failed" is appended exactly
    when a Failed condition is present and ",Issued" exactly when the
    certificate is not empty. *)
Theorem extractCSRStatus_precedence (csr : CertificateSigningRequest) :
  extractCSRStatus csr = csrStatus_spec csr.
Proof.
  unfold extractCSRStatus, csrStatus_spec.
  destruct (csrFlags_fold (csr_Conditions csr) (mkCsrFlags false false false))
    as (Ha & Hd & Hf).
  simpl in Ha, Hd, Hf. rewrite Ha, Hd, Hf.
  destruct (hasCSRCondition (csr_Conditions csr) CertificateDenied),
           (hasCSRCondition (csr_Conditions csr) CertificateApproved),
           (hasCSRCondition (csr_Conditions csr) CertificateFailed),
           (csr_Certificate csr); reflexivity.
Qed.

(** The loop reads the type of a condition and no other field. *)
Lemma csrStep_type f c c' :
  csrc_Type c = csrc_Type c' -> csrStep f c = csrStep f c'.
Proof. intros H. unfold csrStep. now rewrite H. Qed.

Lemma csrLoop_types a b f :
  List.map csrc_Type a = List.map csrc_Type b ->
  fold_left csrStep a f = fold_left csrStep b f.
Proof.
  revert b f. induction a as [| x a IH]; intros [| y b] f H; simpl in *; try discriminate.
  - reflexivity.
  - injection H as Hxy Hab. rewrite (csrStep_type f x y Hxy). now apply IH.
Qed.

(** C10: the status of a CertificateSigningRequest depends on the types
    of its conditions only, never on their Status field: two requests
    whose conditions have the same types (and whose certificates are both
    empty or both present) get the same status; a Denied condition with
    status "False" still gives "Denied". *)
Theorem extractCSRStatus_ignores_condition_status (a b : CertificateSigningRequest) :
  sameConditionTypes a b ->
  extractCSRStatus a = extractCSRStatus b
  /\ forall name status reason,
       extractCSRStatus (mkCSR name [mkCSRCondition CertificateDenied status reason] [])
       = "Denied".
Proof.
  intros [Htypes Hcert]. split.
  - unfold extractCSRStatus. rewrite (csrLoop_types _ _ _ Htypes).
    destruct (csr_Certificate a) as [| x xs], (csr_Certificate b) as [| y ys];
      try reflexivity.
    + destruct Hcert as [Hab _]. now specialize (Hab eq_refl).
    + destruct Hcert as [_ Hba]. now specialize (Hba eq_refl).
  - intros name status reason. reflexivity.
Qed.

(** ** Job status *)

(** X21: [hasJobCondition] reads the first condition of the type and
    nothing after it: it is true exactly when the first condition of the
    type has status True. *)
Lemma hasJobCondition_first conditions t :
  hasJobCondition conditions t = true <->
  exists before c after,
    conditions = before ++ c :: after
    /\ Forall (fun c' => jc_Type c' <> t) before
    /\ jc_Type c = t /\ jc_Status c = ConditionTrue.
Proof.
  induction conditions as [| c rest IH]; simpl.
  - split; [discriminate |].
    intros (before & c & after & H & _). now destruct before.
  - destruct (String.eqb_spec (jc_Type c) t) as [Heq | Hne].
    + rewrite String.eqb_eq. split.
      * intros Hs. exists [], c, rest. repeat split; auto.
      * intros (before & c' & after & H & Hb & Ht & Hs).
        destruct before as [| b before]; simpl in H; injection H as -> ->; auto.
        inversion Hb; subst. contradiction.
    + rewrite IH. split.
      * intros (before & c' & after & -> & Hb & Ht & Hs).
        exists (c :: before), c', after. repeat split; auto.
      * intros (before & c' & after & H & Hb & Ht & Hs).
        destruct before as [| b before]; simpl in H; injection H as -> ->.
        -- contradiction.
        -- inversion Hb; subst. exists before, c', after. repeat split; auto.
Qed.

Lemma printJob_row HumanDuration FormatLabelSelector now obj :
  exists row,
    printJob HumanDuration FormatLabelSelector now obj = ([row], None)
    /\ nth_error (Cells row) 1 = Some (CellString (jobStatus obj)).
Proof.
  unfold printJob.
  destruct (layoutContainerCells (job_Containers obj)) as [names images].
  eexists. split; reflexivity.
Qed.

(** [hasJobCondition] is the status of the first condition of the type. *)
Lemma hasJobCondition_find conditions t :
  hasJobCondition conditions t = jobConditionTrue conditions t.
Proof.
  unfold jobConditionTrue, firstJobCondition.
  induction conditions as [| c rest IH]; cbn [hasJobCondition List.find]; [reflexivity |].
  destruct (String.eqb (jc_Type c) t); [reflexivity | exact IH].
Qed.

Lemma TimePtr_IsZero_set timestamp :
  negb (TimePtr_IsZero timestamp) = deletionTimestampSet timestamp.
Proof. destruct timestamp; reflexivity. Qed.

(** When no two conditions have the same type, the first condition of a
    type is the only one. *)
Lemma jobConditionTrue_anywhere conditions t :
  NoDup (List.map jc_Type conditions) ->
  jobConditionTrue conditions t = hasTrueJobCondition conditions t.
Proof.
  unfold jobConditionTrue, firstJobCondition, hasTrueJobCondition.
  induction conditions as [| c rest IH]; cbn [List.map List.find existsb];
    [reflexivity |].
  intros Hnodup. apply NoDup_cons in Hnodup as [Hnotin Hrest].
  destruct (String.eqb_spec (jc_Type c) t) as [Heq | Hne]; cbn [andb orb].
  - assert (Hnone : existsb
                      (fun c' =>
                         String.eqb (jc_Type c') t
                         && String.eqb (jc_Status c') ConditionTrue)
                      rest = false).
    { destruct (existsb _ rest) eqn:Hex; [| reflexivity].
      apply existsb_exists in Hex as (c' & Hin & Hc').
      apply andb_true_iff in Hc' as [Ht _]. apply String.eqb_eq in Ht.
      exfalso. apply Hnotin. rewrite Heq, <- Ht.
      apply list_elem_of_In. now apply in_map. }
    rewrite Hnone. now rewrite orb_false_r.
  - now apply IH.
Qed.

(** C5 (as amended): the status cell of [printJob] is the result of the
    first test that holds, in the order Complete, Failed, deletion
    timestamp set ("Terminating"), Suspended, FailureTarget, and
    "Running" when none holds, where a condition type holds when the
    first condition of the type in the list of the Job has the status
    True. For a Job whose conditions have pairwise different types a
    condition type holds exactly when some condition of the type has the
    status True, and then a Job with a true Complete condition is
    "Complete", also when a Suspended condition is true. *)
Theorem printJob_status_precedence HumanDuration FormatLabelSelector now (obj : Job) :
  exists row,
    printJob HumanDuration FormatLabelSelector now obj = ([row], None)
    /\ nth_error (Cells row) 1
       = Some (CellString (firstMatch (jobStatusRules obj) "Running"))
    /\ (NoDup (List.map jc_Type (job_Conditions obj)) ->
        nth_error (Cells row) 1
        = Some (CellString (firstMatch (jobStatusRules_anywhere obj) "Running"))
        /\ (hasTrueJobCondition (job_Conditions obj) JobComplete = true ->
            nth_error (Cells row) 1 = Some (CellString "Complete"))).
Proof.
  destruct (printJob_row HumanDuration FormatLabelSelector now obj) as (row & Hrow & Hcell).
  exists row. split; [exact Hrow |].
  assert (Hspec : jobStatus obj = firstMatch (jobStatusRules obj) "Running").
  { unfold jobStatus, jobStatusRules, firstMatch.
    now rewrite !hasJobCondition_find, TimePtr_IsZero_set. }
  rewrite Hcell, Hspec. split; [reflexivity |].
  intros Hnodup.
  assert (Hany : firstMatch (jobStatusRules obj) "Running"
                 = firstMatch (jobStatusRules_anywhere obj) "Running").
  { unfold jobStatusRules, jobStatusRules_anywhere.
    now rewrite !(jobConditionTrue_anywhere _ _ Hnodup). }
  rewrite Hany. split; [reflexivity |].
  intros Hcomplete. unfold jobStatusRules_anywhere, firstMatch. now rewrite Hcomplete.
Qed.

(** ** Truncated lists *)

Lemma addressStep_inv seen st a :
  listInv seen st -> listInv (seen ++ [a]) (addressStep 3 st a).
Proof.
  intros (Hl & Hm & Hc). unfold listInv, addressStep.
  rewrite Hl, Hm, Hc, length_app, firstn_app, length_firstn. simpl List.length.
  destruct (Nat.le_gt_cases 3 (List.length seen)) as [Hge | Hlt].
  - rewrite Nat.min_l by lia.
    replace (3 - List.length seen)%nat with 0%nat by lia.
    simpl firstn. rewrite app_nil_r.
    change (Z.of_nat 3 <? 3) with false. change (Z.of_nat 3 =? 3) with true.
    simpl. repeat split; try lia.
    destruct (Nat.ltb_spec 3 (List.length seen + 1)); [reflexivity | lia].
  - rewrite Nat.min_r by lia.
    destruct (Z.ltb_spec (Z.of_nat (List.length seen)) 3) as [_ | Hbad]; [| lia].
    simpl. repeat split; try lia.
    + f_equal. symmetry. apply firstn_all2. simpl. lia.
    + destruct (Nat.ltb_spec 3 (List.length seen)); [lia |].
      destruct (Nat.ltb_spec 3 (List.length seen + 1)); [lia | reflexivity].
Qed.

Lemma addresses_inv addresses seen st :
  listInv seen st ->
  listInv (seen ++ addresses) (fold_left (addressStep 3) addresses st).
Proof.
  revert seen st. induction addresses as [| a rest IH]; intros seen st H; simpl.
  - now rewrite app_nil_r.
  - replace (seen ++ a :: rest) with ((seen ++ [a]) ++ rest) by now rewrite <- app_assoc.
    apply IH, addressStep_inv, H.
Qed.

Lemma endpoints_inv endpoints seen st :
  listInv seen st ->
  listInv (seen ++ allAddresses endpoints)
    (fold_left
       (fun st endpoint => fold_left (addressStep 3) (Addresses endpoint) st)
       endpoints st).
Proof.
  revert seen st. induction endpoints as [| e rest IH]; intros seen st H; simpl.
  - unfold allAddresses. simpl. now rewrite app_nil_r.
  - unfold allAddresses in *. simpl. rewrite app_assoc.
    apply IH, addresses_inv, H.
Qed.

(** C8: [formatDiscoveryEndpoints] keeps the first three addresses in
    their order and, when there are more, appends " + <n> more..." with
    <n> the number of addresses beyond the three; an empty result is
    "<unset>"; five addresses a, b, c, d, e give "a,b,c + 2 more...". *)
Theorem formatDiscoveryEndpoints_truncates (endpoints : list Endpoint) :
  formatDiscoveryEndpoints endpoints = truncatedList_spec 3 (allAddresses endpoints)
  /\ (allAddresses endpoints = [] -> formatDiscoveryEndpoints endpoints = "<unset>")
  /\ forall a b c d e,
       allAddresses endpoints = [a; b; c; d; e] ->
       formatDiscoveryEndpoints endpoints
       = (a +:+ "," +:+ b +:+ "," +:+ c) +:+ " + 2 more...".
Proof.
  assert (Hmain : formatDiscoveryEndpoints endpoints
                  = truncatedList_spec 3 (allAddresses endpoints)).
  { unfold formatDiscoveryEndpoints, truncatedList_spec, listWithMoreString.
    destruct (endpoints_inv endpoints [] (mkListState [] false 0)) as (Hl & Hm & Hc).
    { repeat split. }
    simpl app in Hl, Hm, Hc. rewrite Hl, Hm, Hc.
    destruct (Nat.ltb_spec 3 (List.length (allAddresses endpoints))) as [Hgt | Hle].
    - do 4 f_equal. lia.
    - now rewrite firstn_all2 by lia. }
  split; [exact Hmain |]. split.
  - intros Hnil. rewrite Hmain, Hnil. reflexivity.
  - intros a b c d e H5. rewrite Hmain, H5. reflexivity.
Qed.

(** ** The handler registry *)

Section GeneratorFacts.

Context {Object : Type}.
Implicit Types (h : HumanReadableGenerator Object) (printFunc : Value Object).

(** Validation accepts exactly the functions of the asked signature. *)
Lemma ValidateRowPrintHandlerFunc_accepts printFunc :
  ValidateRowPrintHandlerFunc printFunc = None <-> hasRowPrintSignature printFunc = true.
Proof.
  destruct printFunc as [ins outs call |]; simpl; [| split; discriminate].
  destruct ins as [| in0 [| in1 ins]];
    destruct outs as [| out0 [| out1 [| out2 outs]]]; simpl;
    try (split; discriminate);
    try (case_if; split; discriminate).
  destruct (String.eqb out0 tableRowSliceType), (String.eqb out1 errorType);
    simpl; split; congruence.
Qed.

(** What validation answers otherwise: one of its three errors, chosen
    by the types alone. *)
Lemma ValidateRowPrintHandlerFunc_rejects printFunc :
  hasRowPrintSignature printFunc = false ->
  exists err,
    ValidateRowPrintHandlerFunc printFunc = Some err /\ isInvalidPrintHandler err = true.
Proof.
  intros Hsig.
  destruct (ValidateRowPrintHandlerFunc printFunc) as [err |] eqn:Hv.
  - exists err. split; [reflexivity |].
    destruct printFunc as [ins outs call |]; simpl in Hv.
    + destruct (negb (Z.of_nat (List.length ins) =? 1)
                || negb (Z.of_nat (List.length outs) =? 2)).
      * now injection Hv as <-.
      * destruct ins as [| in0 [| in1 ins]]; try now injection Hv as <-.
        destruct outs as [| out0 [| out1 [| out2 outs]]]; try now injection Hv as <-.
        destruct (negb (String.eqb out0 tableRowSliceType)
                  || negb (String.eqb out1 errorType)); [| discriminate].
        now injection Hv as <-.
    + now injection Hv as <-.
  - apply ValidateRowPrintHandlerFunc_accepts in Hv. congruence.
Qed.

(** C3: registering a print function that does not take exactly one
    parameter and return exactly a slice of rows and an error fails in
    [TableHandler] itself with an invalid-print-handler error, whatever
    the function would do when called, and leaves the registry as it was;
    a function of three parameters is such a function. *)
Theorem TableHandler_rejects_invalid_signature h columns printFunc :
  hasRowPrintSignature printFunc = false ->
  (exists err,
     reg_err (TableHandler h columns printFunc) = Some err
     /\ isInvalidPrintHandler err = true
     /\ forall ins outs call call',
          printFunc = FuncValue ins outs call ->
          reg_err (TableHandler h columns (FuncValue ins outs call')) = Some err)
  /\ reg_generator (TableHandler h columns printFunc) = h
  /\ forall p1 p2 p3 outs call,
       reg_err (TableHandler h columns (FuncValue [p1; p2; p3] outs call))
       = Some ErrWrongArity
       /\ handlerMap (reg_generator (TableHandler h columns (FuncValue [p1; p2; p3] outs call)))
          = handlerMap h.
Proof.
  intros Hsig.
  destruct (ValidateRowPrintHandlerFunc_rejects printFunc Hsig) as (err & Hv & Herr).
  split; [| split].
  - exists err. split; [unfold TableHandler; now rewrite Hv |].
    split; [exact Herr |].
    intros ins outs call call' ->. unfold TableHandler.
    change (ValidateRowPrintHandlerFunc (FuncValue ins outs call'))
      with (ValidateRowPrintHandlerFunc (FuncValue ins outs call)).
    now rewrite Hv.
  - unfold TableHandler. now rewrite Hv.
  - intros p1 p2 p3 outs call. unfold TableHandler. simpl. split; reflexivity.
Qed.

(** Every entry of a registry was validated when it was added, under the
    type of its parameter. *)
Lemma Registered_entries h :
  Registered h ->
  forall t entry,
    handlerMap h !! t = Some entry ->
    exists call, printFunc entry = FuncValue [t] [tableRowSliceType; errorType] call.
Proof.
  induction 1 as [| h columns printFunc Hreg IH]; intros t entry Hlookup.
  - simpl in Hlookup. now rewrite lookup_empty in Hlookup.
  - unfold TableHandler in Hlookup.
    destruct (ValidateRowPrintHandlerFunc printFunc) as [err |] eqn:Hv;
      [now apply IH |].
    apply ValidateRowPrintHandlerFunc_accepts in Hv.
    destruct printFunc as [ins outs call |]; [| discriminate].
    destruct ins as [| in0 [| in1 ins]]; try discriminate.
    destruct outs as [| out0 [| out1 [| out2 outs]]]; try discriminate.
    simpl in Hv. apply andb_true_iff in Hv as [H0 H1].
    apply String.eqb_eq in H0, H1. subst out0 out1.
    destruct (handlerMap h !! in0) as [old |] eqn:Hold; simpl in Hlookup;
      [now apply IH |].
    destruct (decide (in0 = t)) as [-> | Hne].
    + rewrite lookup_insert_eq in Hlookup. injection Hlookup as <-.
      now exists call.
    + rewrite lookup_insert_ne in Hlookup by exact Hne. now apply IH.
Qed.

Lemma columnStep_fold columns acc :
  fold_left columnStep columns acc = acc ++ defaultColumns columns.
Proof.
  revert acc. induction columns as [| c rest IH]; intros acc; simpl.
  - now rewrite app_nil_r.
  - rewrite IH. unfold columnStep.
    destruct (col_Priority c =? 0); simpl; [| reflexivity].
    now rewrite <- app_assoc.
Qed.

Lemma defaultColumns_priority columns :
  Forall (fun c => col_Priority c = 0) (defaultColumns columns).
Proof.
  apply List.Forall_forall. intros c Hin.
  apply filter_In in Hin as [_ Hp]. now apply Z.eqb_eq.
Qed.

Variable TypeOf : Object -> reflectType.
Variable ListAccessor : Object -> option ListMeta.
Variable CommonAccessor : Object -> option string.

(** C7: for an object whose type has a registered handler, the table of
    [GenerateTable] (returned whenever the handler's function returns no
    error) has exactly the handler's columns of priority 0, in their
    order; no column of another priority is in it. *)
Theorem GenerateTable_emits_priority_zero_columns h (obj : Object) handler :
  Registered h ->
  handlerMap h !! TypeOf obj = Some handler ->
  exists call,
    printFunc handler = FuncValue [TypeOf obj] [tableRowSliceType; errorType] call
    /\ match call obj with
       | (rows, None) =>
           exists table,
             GenerateTable TypeOf ListAccessor CommonAccessor h obj = inl table
             /\ ColumnDefinitions table = defaultColumns (columnDefinitions handler)
             /\ Forall (fun c => col_Priority c = 0) (ColumnDefinitions table)
             /\ Rows table = rows
       | (_, Some err) =>
           GenerateTable TypeOf ListAccessor CommonAccessor h obj = inr err
       end.
Proof.
  intros Hreg Hlookup.
  destruct (Registered_entries h Hreg _ _ Hlookup) as (call & Hcall).
  exists call. split; [exact Hcall |].
  unfold GenerateTable. rewrite Hlookup, Hcall.
  destruct (call obj) as [rows [err |]]; [reflexivity |].
  rewrite columnStep_fold. simpl app.
  destruct (ListAccessor obj) as [m |]; [| destruct (CommonAccessor obj) as [rv |]];
    eexists; (split; [reflexivity |]); simpl;
    (split; [reflexivity |]); (split; [apply defaultColumns_priority | reflexivity]).
Qed.

End GeneratorFacts.

(** ** Pod status *)

Lemma addRestarts_frame v c :
  reason (addRestarts v c) = reason v
  /\ hasRunning (addRestarts v c) = hasRunning v
  /\ initializing (addRestarts v c) = initializing v
  /\ readyContainers (addRestarts v c) = readyContainers v.
Proof.
  unfold addRestarts.
  destruct (Terminated (cs_LastTerminationState c)) as [t |]; simpl; [| auto].
  destruct (Time_Before _ _); simpl; auto.
Qed.

(** One step of the main loop: the reason is replaced when the container
    gives one, and a container still running is recorded. *)
Lemma containerStep_reason v c :
  reason (containerStep v c)
  = match containerReason c with Some r => r | None => reason v end
  /\ hasRunning (containerStep v c) = hasRunning v || stillRunning c.
Proof.
  destruct (addRestarts_frame v c) as (Hr & Hh & _ & _).
  unfold containerStep, containerReason, stillRunning, containerReason.
  destruct (Waiting (cs_State c)) as [w |], (Terminated (cs_State c)) as [t |];
    try destruct (String.eqb (csw_Reason w) ""); simpl;
    try (destruct (String.eqb (cst_Reason t) ""), (cst_Signal t =? 0)); simpl;
    rewrite ?Hr, ?Hh, ?orb_false_r; try (split; reflexivity);
    destruct (cs_Ready c), (Running (cs_State c)); simpl;
    rewrite ?Hr, ?Hh, ?orb_false_r, ?orb_true_r; split; reflexivity.
Qed.

(** The scan from the last status to the first leaves the reason of the
    first status that gives one. *)
Lemma containerScan statuses v :
  let v' := fold_left containerStep (rev statuses) v in
  reason v' = match firstContainerReason statuses with Some r => r | None => reason v end
  /\ hasRunning v' = hasRunning v || existsb stillRunning statuses.
Proof.
  induction statuses as [| c rest IH]; simpl.
  - now rewrite orb_false_r.
  - rewrite fold_left_app. simpl.
    destruct (containerStep_reason (fold_left containerStep (rev rest) v) c) as (Hr & Hh).
    destruct IH as (IHr & IHh). rewrite Hr, Hh, IHr, IHh. split.
    + now destruct (containerReason c).
    + destruct (hasRunning v), (existsb stillRunning rest), (stillRunning c); reflexivity.
Qed.

(** The restart count and the last-restart timestamp after one status:
    the count is added (in 64 bits) and the latest termination is kept. *)
Lemma addRestarts_values v c :
  restarts (addRestarts v c) = int_add (restarts v) (cs_RestartCount c)
  /\ lastRestartDate (addRestarts v c)
     = match Terminated (cs_LastTerminationState c) with
       | Some t => Z.max (lastRestartDate v) (cst_FinishedAt t)
       | None => lastRestartDate v
       end.
Proof.
  unfold addRestarts, Time_Before.
  destruct (Terminated (cs_LastTerminationState c)) as [t |]; simpl; [| auto].
  destruct (Z.ltb_spec (lastRestartDate v) (cst_FinishedAt t)); simpl; split;
    try reflexivity; lia.
Qed.

Lemma containerStep_restarts v c :
  restarts (containerStep v c) = restarts (addRestarts v c)
  /\ lastRestartDate (containerStep v c) = lastRestartDate (addRestarts v c).
Proof.
  unfold containerStep.
  destruct (Waiting (cs_State c)) as [w |], (Terminated (cs_State c)) as [t |];
    repeat case_if; simpl; auto;
    destruct (cs_Ready c), (Running (cs_State c)); simpl; auto.
Qed.

(** The restart count and last-restart timestamp after the scan of the
    main containers. *)
Lemma containerScan_restarts statuses v :
  let v' := fold_left containerStep (rev statuses) v in
  restarts v' = fold_right (fun c n => int_add n (cs_RestartCount c)) (restarts v) statuses
  /\ lastRestartDate v'
     = fold_right
         (fun c d =>
            match Terminated (cs_LastTerminationState c) with
            | Some t => Z.max d (cst_FinishedAt t)
            | None => d
            end)
         (lastRestartDate v) statuses.
Proof.
  induction statuses as [| c rest IH]; simpl; [auto |].
  rewrite fold_left_app. simpl. destruct IH as (IHr & IHd).
  destruct (containerStep_restarts (fold_left containerStep (rev rest) v) c) as (Hr & Hd).
  destruct (addRestarts_values (fold_left containerStep (rev rest) v) c) as (Ar & Ad).
  rewrite Hr, Hd, Ar, Ad, IHr, IHd. auto.
Qed.

(** X22: for a Pod without init container statuses the derived restart
    count is the (64-bit) sum of the restart counts of its main containers and
    the derived last-restart timestamp is the latest recorded termination
    (zero when there is none after the zero instant). *)
Lemma podState_restarts pod :
  InitContainerStatuses (Status pod) = [] ->
  restarts (podState pod)
  = fold_right (fun c n => int_add n (cs_RestartCount c)) 0
      (ContainerStatuses (Status pod))
  /\ lastRestartDate (podState pod)
     = fold_right
         (fun c d =>
            match Terminated (cs_LastTerminationState c) with
            | Some t => Z.max d (cst_FinishedAt t)
            | None => d
            end)
         0 (ContainerStatuses (Status pod)).
Proof.
  intros Hnone. unfold podState, podAfterInit. rewrite Hnone. simpl initLoop.
  unfold mainPhaseRuns. simpl initializing. simpl negb. simpl orb.
  set (v0 := mkPodVars 0 0 0 0 0 (initialReason pod) false false).
  assert (Hmain : restarts (mainPhase pod v0)
                  = fold_right (fun c n => int_add n (cs_RestartCount c)) 0
                      (ContainerStatuses (Status pod))
                  /\ lastRestartDate (mainPhase pod v0)
                     = fold_right
                         (fun c d =>
                            match Terminated (cs_LastTerminationState c) with
                            | Some t => Z.max d (cst_FinishedAt t)
                            | None => d
                            end)
                         0 (ContainerStatuses (Status pod))).
  { unfold mainPhase.
    set (v1 := set_hasRunning _ false).
    destruct (containerScan_restarts (ContainerStatuses (Status pod)) v1) as (Hr & Hd).
    cbv zeta in Hr, Hd.
    repeat case_if; simpl; rewrite ?Hr, ?Hd; auto. }
  unfold deletionOverrides. repeat case_if; simpl; exact Hmain.
Qed.

(** The restarts cell laid out from the variables of [printPod]. *)
Lemma printPod_row HumanDuration now pod :
  exists row,
    printPod HumanDuration now pod = ([row], None)
    /\ nth_error (Cells row) 2 = Some (CellString (reason (podState pod)))
    /\ nth_error (Cells row) 3
       = Some (CellString
                 (if negb (restarts (podState pod) =? 0)
                     && negb (Time_IsZero (lastRestartDate (podState pod)))
                  then Itoa (restarts (podState pod)) +:+ " ("
                       +:+ translateTimestampSince HumanDuration now
                             (lastRestartDate (podState pod))
                       +:+ " ago)"
                  else Itoa (restarts (podState pod)))).
Proof.
  unfold printPod. eexists. split; [reflexivity |]. split; reflexivity.
Qed.

Lemma deletionOverrides_none pod v :
  deletionOverrideApplies pod = false -> deletionOverrides pod v = v.
Proof.
  unfold deletionOverrideApplies, deletionOverrides. intros H.
  destruct (negb (TimePtr_IsZero (pod_DeletionTimestamp pod))); simpl in *; [| reflexivity].
  apply orb_false_iff in H as [-> H2]. now rewrite H2.
Qed.

Lemma stillRunning_readyAndOnlyRunning c : stillRunning c = readyAndOnlyRunning c.
Proof.
  unfold stillRunning, readyAndOnlyRunning, containerReason.
  destruct (cs_Ready c), (Running (cs_State c)), (Terminated (cs_State c)),
    (Waiting (cs_State c)) as [w |];
    try reflexivity; destruct (String.eqb (csw_Reason w) ""); reflexivity.
Qed.

Lemma existsb_stillRunning statuses :
  existsb stillRunning statuses = existsb readyAndOnlyRunning statuses.
Proof.
  induction statuses as [| c rest IH]; cbn [existsb]; [reflexivity |].
  now rewrite IH, stillRunning_readyAndOnlyRunning.
Qed.

(** The main phase of a Pod whose scan ends on "Completed": the reason
    is replaced exactly when a container counts as still running. *)
Lemma mainPhase_completed pod v :
  match firstContainerReason (ContainerStatuses (Status pod)) with
  | Some r => r
  | None => reason v
  end = "Completed" ->
  reason (mainPhase pod v)
  = if existsb readyAndOnlyRunning (ContainerStatuses (Status pod))
    then if hasPodReadyCondition (Conditions (Status pod)) then "Running" else "NotReady"
    else "Completed".
Proof.
  intros Hreason. unfold mainPhase.
  set (v0 := set_hasRunning _ false).
  destruct (containerScan (ContainerStatuses (Status pod)) v0) as (Hr & Hh).
  cbv zeta in Hr, Hh.
  change (reason v0) with (reason v) in Hr.
  change (hasRunning v0) with false in Hh. cbn [orb] in Hh.
  rewrite Hreason in Hr.
  rewrite existsb_stillRunning in Hh.
  rewrite Hr, Hh. cbn [String.eqb Ascii.eqb Bool.eqb andb].
  destruct (existsb readyAndOnlyRunning (ContainerStatuses (Status pod)));
    [| exact Hr].
  now destruct (hasPodReadyCondition (Conditions (Status pod))).
Qed.

(** C1 (as amended): a Pod with phase Succeeded whose main containers
    are scanned, whose scan ends on the reason "Completed", that has no
    Ready condition that is true, and that is not deleted with the
    status reason of a lost node, has the reason "NotReady" when one of
    its container statuses is ready, has a Running state, has no
    Terminated state and is not waiting with a reason, and keeps the
    reason "Completed" when none is. *)
Theorem printPod_completed_still_running_not_ready HumanDuration now (pod : Pod) :
  Phase (Status pod) = PodSucceeded ->
  mainPhaseRuns pod (podAfterInit pod) = true ->
  scannedReason pod = "Completed" ->
  hasPodReadyCondition (Conditions (Status pod)) = false ->
  negb (TimePtr_IsZero (pod_DeletionTimestamp pod))
  && String.eqb (Reason (Status pod)) NodeUnreachablePodReason = false ->
  exists row,
    printPod HumanDuration now pod = ([row], None)
    /\ nth_error (Cells row) 2
       = Some (CellString
                 (if existsb readyAndOnlyRunning (ContainerStatuses (Status pod))
                  then "NotReady"
                  else "Completed")).
Proof.
  intros Hphase Hruns Hscan Hready Hdel.
  destruct (printPod_row HumanDuration now pod) as (row & Hrow & Hreason & _).
  exists row. split; [exact Hrow |].
  rewrite Hreason. do 2 f_equal.
  unfold podState. rewrite Hruns.
  rewrite deletionOverrides_none.
  - rewrite (mainPhase_completed pod _ Hscan). now rewrite Hready.
  - unfold deletionOverrideApplies. rewrite Hphase.
    change (IsPodPhaseTerminal PodSucceeded) with true. simpl negb.
    now rewrite orb_false_r.
Qed.

(** The init loop on a sole status that terminated with a failure and is
    not stepped over as a started sidecar. *)
Lemma initLoop_sole_failure initContainers nInit st t v :
  Terminated (cs_State st) = Some t ->
  cst_ExitCode t <> 0 ->
  IsRestartableInitContainer (initContainers !! cs_Name st)
  && match cs_Started st with Some b => b | None => false end = false ->
  let v' := initLoop initContainers nInit [st] 0 v in
  initializing v' = true
  /\ reason v'
     = if Z.of_nat (String.length (cst_Reason t)) =? 0 then
         if negb (cst_Signal t =? 0)
         then "Init:Signal:" +:+ Itoa (cst_Signal t)
         else "Init:ExitCode:" +:+ Itoa (cst_ExitCode t)
       else "Init:" +:+ cst_Reason t.
Proof.
  intros Ht Hcode Hsidecar. simpl. rewrite Ht, Hsidecar.
  destruct (Z.eqb_spec (cst_ExitCode t) 0) as [H0 | _]; [contradiction |].
  split; reflexivity.
Qed.

(** C2 (as amended): a Pod whose sole init container status terminated
    with exit code 2, signal 0 and no reason, and is not a restartable
    init container that has started, whose Initialized condition is not
    true and whose reason is not replaced by a deletion override, has the
    reason "Init:ExitCode:2"; the main containers are not scanned, and
    the row is the same whatever their statuses are. *)
Theorem printPod_init_exit_code_short_circuits HumanDuration now (pod : Pod) st t :
  InitContainerStatuses (Status pod) = [st] ->
  Terminated (cs_State st) = Some t ->
  cst_ExitCode t = 2 -> cst_Signal t = 0 -> cst_Reason t = "" ->
  startedSidecar pod st = false ->
  isPodInitializedConditionTrue (Status pod) = false ->
  deletionOverrideApplies pod = false ->
  (exists row,
     printPod HumanDuration now pod = ([row], None)
     /\ nth_error (Cells row) 2 = Some (CellString "Init:ExitCode:2"))
  /\ mainPhaseRuns pod (podAfterInit pod) = false
  /\ forall statuses,
       printPod HumanDuration now (with_ContainerStatuses pod statuses)
       = printPod HumanDuration now pod.
Proof.
  intros Hsole Ht Hcode Hsignal Hreason Hsidecar Hinit Hdel.
  assert (Hafter : initializing (podAfterInit pod) = true
                   /\ reason (podAfterInit pod) = "Init:ExitCode:2").
  { unfold podAfterInit. rewrite Hsole.
    destruct (initLoop_sole_failure (fst (initContainersOf pod))
                (Z.of_nat (List.length (InitContainers (Spec pod)))) st t
                (mkPodVars 0 0 0 0 0 (initialReason pod) false false) Ht)
      as (Hi & Hr).
    - rewrite Hcode. discriminate.
    - exact Hsidecar.
    - split; [exact Hi |]. rewrite Hr, Hreason, Hsignal, Hcode. reflexivity. }
  destruct Hafter as (Hi & Hr).
  assert (Hruns : mainPhaseRuns pod (podAfterInit pod) = false).
  { unfold mainPhaseRuns. now rewrite Hi, Hinit. }
  assert (Hstate : podState pod = podAfterInit pod).
  { unfold podState. rewrite Hruns. now apply deletionOverrides_none. }
  split; [| split].
  - destruct (printPod_row HumanDuration now pod) as (row & Hrow & Hcell & _).
    exists row. split; [exact Hrow |]. now rewrite Hcell, Hstate, Hr.
  - exact Hruns.
  - intros statuses.
    assert (Hstate' : podState (with_ContainerStatuses pod statuses) = podState pod).
    { unfold podState.
      change (podAfterInit (with_ContainerStatuses pod statuses)) with (podAfterInit pod).
      change (mainPhaseRuns (with_ContainerStatuses pod statuses) (podAfterInit pod))
        with (mainPhaseRuns pod (podAfterInit pod)).
      rewrite Hruns. reflexivity. }
    unfold printPod. rewrite Hstate'. reflexivity.
Qed.

(** C4 (as amended): the Restarts cell of [printPod] is
    "<n> (<duration> ago)" when the restart count is not zero and the
    last-restart timestamp is known (not zero); it is the plain restart
    count when the count is zero or the timestamp is unknown. *)
Theorem printPod_restarts_cell HumanDuration now (pod : Pod) :
  exists row,
    printPod HumanDuration now pod = ([row], None)
    /\ (restarts (podState pod) <> 0 /\ lastRestartDate (podState pod) <> 0 ->
        nth_error (Cells row) 3
        = Some (CellString
                  (Itoa (restarts (podState pod)) +:+ " ("
                   +:+ HumanDuration (Time_Sub now (lastRestartDate (podState pod)))
                   +:+ " ago)")))
    /\ (restarts (podState pod) = 0 \/ lastRestartDate (podState pod) = 0 ->
        nth_error (Cells row) 3 = Some (CellString (Itoa (restarts (podState pod))))).
Proof.
  destruct (printPod_row HumanDuration now pod) as (row & Hrow & _ & Hcell).
  exists row. split; [exact Hrow |].
  rewrite Hcell. unfold translateTimestampSince, Time_IsZero. split.
  - intros [Hn Hd].
    destruct (Z.eqb_spec (restarts (podState pod)) 0) as [H0 | _]; [contradiction |].
    destruct (Z.eqb_spec (lastRestartDate (podState pod)) 0) as [H0 | _]; [contradiction |].
    reflexivity.
  - intros [Hn | Hd].
    + rewrite Hn. reflexivity.
    + rewrite Hd. simpl. now rewrite andb_false_r.
Qed.

(** ** FlowSchema listing order *)

(** *** The byte-wise order of strings *)

Lemma string_compare_refl s : String.compare s s = Eq.
Proof.
  pose proof (String.compare_antisym s s) as H.
  destruct (String.compare s s); simpl in H; congruence.
Qed.

Lemma string_ltb_irrefl s : String.ltb s s = false.
Proof. unfold String.ltb. now rewrite string_compare_refl. Qed.

Lemma string_ltb_lt a b :
  String.ltb a b = true <-> OrderedTypeEx.String_as_OT.lt a b.
Proof.
  rewrite <- OrderedTypeEx.String_as_OT.cmp_lt.
  unfold String.ltb, OrderedTypeEx.String_as_OT.cmp.
  destruct (String.compare a b); split; congruence.
Qed.

Lemma string_ltb_trans a b c :
  String.ltb a b = true -> String.ltb b c = true -> String.ltb a c = true.
Proof.
  rewrite !string_ltb_lt. apply OrderedTypeEx.String_as_OT.lt_trans.
Qed.

Lemma string_trichotomy a b :
  String.ltb a b = true \/ a = b \/ String.ltb b a = true.
Proof.
  unfold String.ltb. rewrite (String.compare_antisym a b).
  destruct (String.compare b a) eqn:E; simpl; auto.
  right. left. symmetry. now apply String.compare_eq_iff.
Qed.

Lemma string_ltb_asym a b : String.ltb a b = true -> String.ltb b a = false.
Proof.
  intros Hab. destruct (String.ltb b a) eqn:Hba; [| reflexivity].
  pose proof (string_ltb_trans _ _ _ Hab Hba) as H.
  now rewrite string_ltb_irrefl in H.
Qed.

Lemma string_not_ltb_leb a b : String.ltb b a = false -> String.leb a b = true.
Proof.
  unfold String.ltb, String.leb. rewrite (String.compare_antisym a b).
  destruct (String.compare b a); simpl; congruence.
Qed.

Lemma string_ltb_negtrans a b c :
  String.ltb a b = false -> String.ltb b c = false -> String.ltb a c = false.
Proof.
  intros Hab Hbc. destruct (String.ltb a c) eqn:Hac; [| reflexivity].
  destruct (string_trichotomy a b) as [H | [-> | H]]; [congruence | congruence |].
  pose proof (string_ltb_trans _ _ _ H Hac). congruence.
Qed.

(** *** [Less] on FlowSchemas *)

Lemma FlowSchemaSequence_Less_cases x y :
  FlowSchemaSequence_Less x y = true <->
  fs_MatchingPrecedence x < fs_MatchingPrecedence y
  \/ (fs_MatchingPrecedence x = fs_MatchingPrecedence y
      /\ String.ltb (fs_Name x) (fs_Name y) = true).
Proof.
  unfold FlowSchemaSequence_Less.
  destruct (Z.eqb_spec (fs_MatchingPrecedence x) (fs_MatchingPrecedence y)) as [He | Hne];
    simpl.
  - split; [intros H; right; auto | intros [H | [_ H]]; [lia | exact H]].
  - rewrite Z.ltb_lt. split; [auto | intros [H | [H _]]; [exact H | contradiction]].
Qed.

Lemma FlowSchemaSequence_Less_false x y :
  FlowSchemaSequence_Less x y = false <->
  fs_MatchingPrecedence y < fs_MatchingPrecedence x
  \/ (fs_MatchingPrecedence x = fs_MatchingPrecedence y
      /\ String.ltb (fs_Name x) (fs_Name y) = false).
Proof.
  unfold FlowSchemaSequence_Less.
  destruct (Z.eqb_spec (fs_MatchingPrecedence x) (fs_MatchingPrecedence y)) as [He | Hne];
    simpl.
  - split; [intros H; right; auto | intros [H | [_ H]]; [lia | exact H]].
  - rewrite Z.ltb_ge. split; [intros H; left; lia | intros [H | [H _]]; [lia | contradiction]].
Qed.

Lemma FlowSchemaSequence_Less_ordering : StrictWeakOrdering FlowSchemaSequence_Less.
Proof.
  split.
  - intros x. apply FlowSchemaSequence_Less_false. right.
    split; [reflexivity | apply string_ltb_irrefl].
  - intros x y z Hxy Hyz.
    apply FlowSchemaSequence_Less_cases in Hxy, Hyz.
    apply FlowSchemaSequence_Less_cases.
    destruct Hxy as [Hxy | [Exy Nxy]], Hyz as [Hyz | [Eyz Nyz]];
      try (left; lia).
    right. split; [lia | eapply string_ltb_trans; eassumption].
  - intros x y z Hxy Hyz.
    apply FlowSchemaSequence_Less_false in Hxy, Hyz.
    apply FlowSchemaSequence_Less_false.
    destruct Hxy as [Hxy | [Exy Nxy]], Hyz as [Hyz | [Eyz Nyz]];
      try (left; lia).
    right. split; [lia | eapply string_ltb_negtrans; eassumption].
Qed.

(** In a slice that is ascending for [Less], every schema stands before
    those of higher precedence and, at equal precedence, of later name. *)
Lemma Ascending_flowSchemaLe l :
  Ascending FlowSchemaSequence_Less l -> StronglySorted flowSchemaLe l.
Proof.
  unfold Ascending. induction 1 as [| x l Hsorted IH Hall]; constructor.
  - exact IH.
  - eapply List.Forall_impl; [| exact Hall]. intros y Hyx. simpl in Hyx.
    apply FlowSchemaSequence_Less_false in Hyx.
    destruct Hyx as [Hlt | [Heq Hname]].
    + left. exact Hlt.
    + right. split; [now symmetry | now apply string_not_ltb_leb].
Qed.

(** *** The insertion sort satisfies the contract of [sort.Sort] *)

Section InsertionSort.

Context {A : Type} (less : A -> A -> bool).

Lemma insertLeftward_perm x sortedRev :
  Permutation (x :: sortedRev) (insertLeftward less x sortedRev).
Proof.
  induction sortedRev as [| y rest IH]; simpl.
  - apply Permutation_refl.
  - destruct (less x y).
    + eapply perm_trans; [apply perm_swap |]. now apply perm_skip.
    + apply Permutation_refl.
Qed.

Lemma insertionSort_fold_perm data sortedRev :
  Permutation (rev data ++ sortedRev)
    (fold_left (fun acc x => insertLeftward less x acc) data sortedRev).
Proof.
  revert sortedRev. induction data as [| x rest IH]; intros sortedRev; simpl.
  - apply Permutation_refl.
  - eapply perm_trans; [| apply IH].
    rewrite <- app_assoc. simpl. apply Permutation_app_head, insertLeftward_perm.
Qed.

Lemma insertionSort_permutation data : Permutation data (insertionSort A less data).
Proof.
  unfold insertionSort.
  eapply perm_trans; [apply Permutation_rev |].
  eapply perm_trans; [| apply Permutation_rev].
  pose proof (insertionSort_fold_perm data []) as H.
  now rewrite app_nil_r in H.
Qed.

Hypothesis ordering : StrictWeakOrdering less.

Lemma less_asymmetric x y : less x y = true -> less y x = false.
Proof.
  intros Hxy. destruct (less y x) eqn:Hyx; [| reflexivity].
  pose proof (swo_transitive less ordering _ _ _ Hxy Hyx) as H.
  now rewrite (swo_irreflexive less ordering) in H.
Qed.

Lemma insertLeftward_sorted x sortedRev :
  DescendingRev less sortedRev -> DescendingRev less (insertLeftward less x sortedRev).
Proof.
  unfold DescendingRev. induction 1 as [| y rest Hsorted IH Hall]; simpl.
  - constructor; constructor.
  - destruct (less x y) eqn:Hxy.
    + constructor; [exact IH |].
      apply List.Forall_forall. intros z Hz.
      apply (Permutation_in _ (Permutation_sym (insertLeftward_perm x rest))) in Hz.
      destruct Hz as [<- | Hz].
      * now apply less_asymmetric.
      * rewrite List.Forall_forall in Hall. now apply Hall.
    + constructor; [now constructor |].
      constructor; [exact Hxy |].
      eapply List.Forall_impl; [| exact Hall]. intros z Hyz. simpl in Hyz.
      exact (swo_negatively_transitive less ordering _ _ _ Hxy Hyz).
Qed.

Lemma insertionSort_fold_sorted data sortedRev :
  DescendingRev less sortedRev ->
  DescendingRev less (fold_left (fun acc x => insertLeftward less x acc) data sortedRev).
Proof.
  revert sortedRev. induction data as [| x rest IH]; intros sortedRev H; simpl.
  - exact H.
  - apply IH, insertLeftward_sorted, H.
Qed.

Lemma StronglySorted_snoc (R : A -> A -> Prop) l x :
  StronglySorted R l -> Forall (fun y => R y x) l -> StronglySorted R (l ++ [x]).
Proof.
  induction 1 as [| y l Hsorted IH Hall]; intros Hx; simpl.
  - constructor; constructor.
  - inversion Hx as [| ? ? Hyx Hlx]; subst.
    constructor; [now apply IH |].
    apply Forall_app. split; [exact Hall |]. now constructor.
Qed.

Lemma DescendingRev_rev l : DescendingRev less l -> Ascending less (rev l).
Proof.
  unfold DescendingRev, Ascending. induction 1 as [| x l Hsorted IH Hall]; simpl.
  - constructor.
  - apply StronglySorted_snoc; [exact IH |].
    apply List.Forall_forall. intros y Hy. rewrite List.Forall_forall in Hall.
    apply Hall. now apply in_rev.
Qed.

Lemma insertionSort_ascending data : Ascending less (insertionSort A less data).
Proof.
  unfold insertionSort. apply DescendingRev_rev, insertionSort_fold_sorted. constructor.
Qed.

End InsertionSort.

(** *** The rows of a FlowSchema list *)

(** A list printer whose item printer never fails appends the rows of
    the items in their order. *)
Lemma printItems_rows {A : Type} (print : A -> list TableRow * option Error) items rows :
  (forall item, snd (print item) = None) ->
  printItems print items rows
  = (rows ++ concat (List.map (fun item => fst (print item)) items), None).
Proof.
  intros Hok. revert rows. induction items as [| item rest IH]; intros rows; simpl.
  - now rewrite app_nil_r.
  - specialize (Hok item) as Hitem. destruct (print item) as [r [err |]]; simpl in *.
    + discriminate.
    + now rewrite IH, app_assoc.
Qed.

Section FlowSchemaFacts.

Variable HumanDuration : Z -> string.
Variable now : Time.
Variable sort_Sort : forall A : Type, (A -> A -> bool) -> list A -> list A.

(** The contract of [sort.Sort]: it permutes the slice, and leaves it in
    ascending order as determined by a [Less] that is a strict weak
    ordering. It is not asked to be stable. *)
Hypothesis sort_Sort_permutation :
  forall (A : Type) (less : A -> A -> bool) (data : list A),
    Permutation data (sort_Sort A less data).
Hypothesis sort_Sort_ascending :
  forall (A : Type) (less : A -> A -> bool) (data : list A),
    StrictWeakOrdering less -> Ascending less (sort_Sort A less data).

(** C9: the rows of [printFlowSchemaList] are the rows of the schemas
    sorted by ascending matching precedence, ties broken by ascending
    name; the list is sorted before any schema is printed, so the rows
    are those of the sorted schemas in their order; of two schemas the
    one of lower precedence is printed first, whatever the names. *)
Theorem printFlowSchemaList_sorted (items : list FlowSchema) :
  exists sorted,
    Permutation items sorted
    /\ StronglySorted flowSchemaLe sorted
    /\ printFlowSchemaList HumanDuration now sort_Sort items
       = (concat (List.map (fun fs => fst (printFlowSchema HumanDuration now fs)) sorted),
          None)
    /\ forall x y,
         items = [x; y] ->
         fs_MatchingPrecedence y < fs_MatchingPrecedence x ->
         printFlowSchemaList HumanDuration now sort_Sort items
         = (fst (printFlowSchema HumanDuration now y)
            ++ fst (printFlowSchema HumanDuration now x), None).
Proof.
  exists (sort_Sort FlowSchema FlowSchemaSequence_Less items).
  pose proof (sort_Sort_permutation FlowSchema FlowSchemaSequence_Less items) as Hperm.
  pose proof (Ascending_flowSchemaLe _
                (sort_Sort_ascending FlowSchema FlowSchemaSequence_Less items
                   FlowSchemaSequence_Less_ordering)) as Hsorted.
  assert (Hrows : printFlowSchemaList HumanDuration now sort_Sort items
                  = (concat
                       (List.map (fun fs => fst (printFlowSchema HumanDuration now fs))
                          (sort_Sort FlowSchema FlowSchemaSequence_Less items)),
                     None)).
  { unfold printFlowSchemaList. now rewrite printItems_rows. }
  split; [exact Hperm |]. split; [exact Hsorted |]. split; [exact Hrows |].
  intros x y Hitems Hlt. subst items. rewrite Hrows.
  apply Permutation_length_2_inv in Hperm as [Hsame | Hswap].
  - rewrite Hsame in Hsorted.
    inversion Hsorted as [| ? ? _ Hall]; subst.
    inversion Hall as [| ? ? Hxy _]; subst.
    destruct Hxy as [H | [H _]]; lia.
  - rewrite Hswap. reflexivity.
Qed.

End FlowSchemaFacts.

(** * The properties at concrete inputs *)

Example Itoa_examples : (Itoa 0, Itoa 12, Itoa (-5)) = ("0", "12", "-5").
Proof. reflexivity. Qed.

Example Join_example : Join ["a"; "b"; "c"] "," = "a,b,c".
Proof. reflexivity. Qed.

Example formatDiscoveryEndpoints_five_addresses :
  formatDiscoveryEndpoints exampleEndpoints = "10.0.0.1,10.0.0.2,10.0.0.3 + 2 more...".
Proof. reflexivity. Qed.

Example formatDiscoveryEndpoints_no_address : formatDiscoveryEndpoints [] = "<unset>".
Proof. reflexivity. Qed.

Example extractCSRStatus_denied_false : extractCSRStatus csrDeniedFalse = "Denied".
Proof. reflexivity. Qed.

Example jobStatus_complete_suspended : jobStatus jobCompleteSuspended = "Complete".
Proof. reflexivity. Qed.

Example printFlowSchemaList_lower_precedence_first :
  printFlowSchemaList secondsDuration exampleNow insertionSort
    [flowSchemaB100; flowSchemaA50]
  = ([mkTableRow
        [CellString "a"; CellString "workload-high"; CellInt 50; CellString "ByUser";
         CellString "900s"; CellString "?"] [];
      mkTableRow
        [CellString "b"; CellString "workload-low"; CellInt 100; CellString "<none>";
         CellString "900s"; CellString "?"] []],
     None).
Proof. vm_compute. reflexivity. Qed.

Example printPod_completed_still_running :
  printPod secondsDuration exampleNow podCompletedStillRunning
  = ([mkTableRow
        [CellString "batch"; CellString "1/2"; CellString "NotReady"; CellString "0";
         CellString "900s"; CellString "<none>"; CellString "<none>";
         CellString "<none>"; CellString "<none>"]
        podSuccessConditions],
     None).
Proof. vm_compute. reflexivity. Qed.

Example printPod_init_failed :
  printPod secondsDuration exampleNow podInitFailed
  = ([mkTableRow
        [CellString "web"; CellString "0/1"; CellString "Init:ExitCode:2"; CellString "0";
         CellString "900s"; CellString "<none>"; CellString "<none>";
         CellString "<none>"; CellString "<none>"]
        []],
     None).
Proof. vm_compute. reflexivity. Qed.

(** C1, as stated, fails: a Pod with phase Succeeded, a ready container
    reporting Running and a Ready condition that is false keeps the
    reason "Succeeded". *)
Lemma printPod_succeeded_still_running_counterexample :
  Phase (Status podSucceededStillRunning) = PodSucceeded
  /\ existsb readyAndOnlyRunning (ContainerStatuses (Status podSucceededStillRunning))
     = true
  /\ hasPodReadyCondition (Conditions (Status podSucceededStillRunning)) = false
  /\ printPod secondsDuration exampleNow podSucceededStillRunning
     = ([mkTableRow
           [CellString "batch"; CellString "1/1"; CellString "Succeeded"; CellString "0";
            CellString "900s"; CellString "<none>"; CellString "<none>";
            CellString "<none>"; CellString "<none>"]
           podSuccessConditions],
        None).
Proof. repeat split; vm_compute; reflexivity. Qed.

Lemma printPod_completed_still_running_witness :
  exists row,
    printPod secondsDuration exampleNow podCompletedStillRunning = ([row], None)
    /\ nth_error (Cells row) 2 = Some (CellString "NotReady").
Proof.
  apply (printPod_completed_still_running_not_ready
           secondsDuration exampleNow podCompletedStillRunning);
    vm_compute; reflexivity.
Defined.

(** A ready status with both a Running and a Terminated state does not
    count as still running: the reason stays "Completed". *)
Example printPod_completed_running_and_terminated :
  existsb readyAndOnlyRunning (ContainerStatuses (Status podCompletedRunningAndTerminated))
  = false
  /\ printPod secondsDuration exampleNow podCompletedRunningAndTerminated
     = ([mkTableRow
           [CellString "batch"; CellString "0/1"; CellString "Completed"; CellString "0";
            CellString "900s"; CellString "<none>"; CellString "<none>";
            CellString "<none>"; CellString "<none>"]
           podSuccessConditions],
        None).
Proof. split; vm_compute; reflexivity. Qed.

(** C5, as stated, fails: this Job has a condition of type Complete and
    one of type Suspended with the status True, and its status is
    "Suspended", because its first condition of type Complete has the
    status False. *)
Lemma printJob_status_precedence_counterexample :
  hasTrueJobCondition (job_Conditions jobCompleteShadowed) JobComplete = true
  /\ hasTrueJobCondition (job_Conditions jobCompleteShadowed) JobSuspended = true
  /\ printJob secondsDuration noSelector exampleNow jobCompleteShadowed
     = ([mkTableRow
           [CellString "backup"; CellString "Suspended"; CellString "1/1";
            CellString "800s"; CellString "900s"; CellString "dump";
            CellString "postgres"; CellString "<none>"]
           []],
        None).
Proof. repeat split; vm_compute; reflexivity. Qed.

(** C2, as stated, fails: when the Initialized condition is true the main
    containers are scanned although the sole init container terminated
    with exit code 2, and the reason is that of the main container. *)
Lemma printPod_init_exit_code_counterexample :
  InitContainerStatuses (Status podInitFailedInitialized)
  = [mkContainerStatus "setup" exitCode2State noState false 0 None]
  /\ mainPhaseRuns podInitFailedInitialized (podAfterInit podInitFailedInitialized) = true
  /\ printPod secondsDuration exampleNow podInitFailedInitialized
     = ([mkTableRow
           [CellString "web"; CellString "0/1"; CellString "CrashLoopBackOff";
            CellString "0"; CellString "900s"; CellString "<none>"; CellString "<none>";
            CellString "<none>"; CellString "<none>"]
           []],
        None).
Proof. repeat split; vm_compute; reflexivity. Qed.

Lemma printPod_init_exit_code_witness :
  (exists row,
     printPod secondsDuration exampleNow podInitFailed = ([row], None)
     /\ nth_error (Cells row) 2 = Some (CellString "Init:ExitCode:2"))
  /\ mainPhaseRuns podInitFailed (podAfterInit podInitFailed) = false
  /\ forall statuses,
       printPod secondsDuration exampleNow (with_ContainerStatuses podInitFailed statuses)
       = printPod secondsDuration exampleNow podInitFailed.
Proof.
  apply (printPod_init_exit_code_short_circuits secondsDuration exampleNow podInitFailed
           (mkContainerStatus "setup" exitCode2State noState false 0 None)
           (mkContainerStateTerminated 2 0 "" 600000000000));
    vm_compute; reflexivity.
Defined.

(** C4, as stated, fails: the last-restart timestamp of this Pod is known
    and its Restarts cell is the plain count, because the count is 0. *)
Lemma printPod_restarts_counterexample :
  lastRestartDate (podState podZeroRestarts) = 600000000000
  /\ printPod secondsDuration exampleNow podZeroRestarts
     = ([mkTableRow
           [CellString "web"; CellString "1/1"; CellString "Running"; CellString "0";
            CellString "900s"; CellString "<none>"; CellString "<none>";
            CellString "<none>"; CellString "<none>"]
           []],
        None).
Proof. split; vm_compute; reflexivity. Qed.

Lemma TableHandler_rejects_three_parameters_witness :
  (exists err,
     reg_err (TableHandler podGenerator podColumnDefinitions threeParameterValue) = Some err
     /\ isInvalidPrintHandler err = true
     /\ forall ins outs call call',
          threeParameterValue = FuncValue ins outs call ->
          reg_err (TableHandler podGenerator podColumnDefinitions (FuncValue ins outs call'))
          = Some err)
  /\ reg_generator (TableHandler podGenerator podColumnDefinitions threeParameterValue)
     = podGenerator
  /\ forall p1 p2 p3 outs call,
       reg_err (TableHandler podGenerator podColumnDefinitions
                  (FuncValue [p1; p2; p3] outs call))
       = Some ErrWrongArity
       /\ handlerMap (reg_generator (TableHandler podGenerator podColumnDefinitions
                                       (FuncValue [p1; p2; p3] outs call)))
          = handlerMap podGenerator.
Proof.
  apply (TableHandler_rejects_invalid_signature
           podGenerator podColumnDefinitions threeParameterValue).
  reflexivity.
Defined.

Lemma podGenerator_registered : Registered podGenerator.
Proof. unfold podGenerator. apply Registered_handler, Registered_new. Qed.

Lemma podGenerator_lookup :
  handlerMap podGenerator !! Resource_TypeOf examplePodList
  = Some (mkHandlerEntry podColumnDefinitions printPodListValue).
Proof.
  change (Resource_TypeOf examplePodList) with podListType.
  unfold podGenerator, TableHandler.
  change (ValidateRowPrintHandlerFunc printPodListValue) with (@None Error).
  unfold printPodListValue at 1.
  change (handlerMap (@NewTableGenerator Resource) !! podListType)
    with ((∅ : gmap reflectType (handlerEntry Resource)) !! podListType).
  rewrite lookup_empty. simpl reg_generator. simpl handlerMap.
  apply lookup_insert_eq.
Qed.

Lemma GenerateTable_pod_list_witness :
  exists call,
    printFunc (mkHandlerEntry podColumnDefinitions printPodListValue)
    = FuncValue [Resource_TypeOf examplePodList] [tableRowSliceType; errorType] call
    /\ match call examplePodList with
       | (rows, None) =>
           exists table,
             GenerateTable Resource_TypeOf Resource_ListAccessor Resource_CommonAccessor
               podGenerator examplePodList = inl table
             /\ ColumnDefinitions table
                = defaultColumns
                    (columnDefinitions (mkHandlerEntry podColumnDefinitions printPodListValue))
             /\ Forall (fun c => col_Priority c = 0) (ColumnDefinitions table)
             /\ Rows table = rows
       | (_, Some err) =>
           GenerateTable Resource_TypeOf Resource_ListAccessor Resource_CommonAccessor
             podGenerator examplePodList = inr err
       end.
Proof.
  apply (GenerateTable_emits_priority_zero_columns
           Resource_TypeOf Resource_ListAccessor Resource_CommonAccessor
           podGenerator examplePodList
           (mkHandlerEntry podColumnDefinitions printPodListValue)).
  - exact podGenerator_registered.
  - exact podGenerator_lookup.
Defined.

Lemma extractCSRStatus_denied_false_witness :
  extractCSRStatus csrDeniedFalse = extractCSRStatus csrDeniedTrue
  /\ forall name status reason,
       extractCSRStatus (mkCSR name [mkCSRCondition CertificateDenied status reason] [])
       = "Denied".
Proof.
  apply (extractCSRStatus_ignores_condition_status csrDeniedFalse csrDeniedTrue).
  split; [reflexivity | split; reflexivity].
Defined.

Lemma printFlowSchemaList_two_schemas_witness :
  exists sorted,
    Permutation [flowSchemaB100; flowSchemaA50] sorted
    /\ StronglySorted flowSchemaLe sorted
    /\ printFlowSchemaList secondsDuration exampleNow insertionSort
         [flowSchemaB100; flowSchemaA50]
       = (concat
            (List.map (fun fs => fst (printFlowSchema secondsDuration exampleNow fs)) sorted),
          None)
    /\ forall x y,
         [flowSchemaB100; flowSchemaA50] = [x; y] ->
         fs_MatchingPrecedence y < fs_MatchingPrecedence x ->
         printFlowSchemaList secondsDuration exampleNow insertionSort
           [flowSchemaB100; flowSchemaA50]
         = (fst (printFlowSchema secondsDuration exampleNow y)
            ++ fst (printFlowSchema secondsDuration exampleNow x), None).
Proof.
  apply (printFlowSchemaList_sorted secondsDuration exampleNow insertionSort).
  - intros A less data. apply insertionSort_permutation.
  - intros A less data Hordering. now apply insertionSort_ascending.
Defined.

Example GenerateTable_pod_list_columns :
  match
    GenerateTable Resource_TypeOf Resource_ListAccessor Resource_CommonAccessor
      podGenerator examplePodList
  with
  | inl table =>
      (List.map col_Name (ColumnDefinitions table), ResourceVersion table,
       List.length (Rows table))
  | inr _ => ([], "", 0%nat)
  end
  = (["Name"; "Ready"; "Status"; "Restarts"; "Age"], "4711", 2%nat).
Proof. vm_compute. reflexivity. Qed.

(** * More properties of the package *)

(** ** Registering handlers *)

Section RegistryFacts.

Context {Object : Type}.
Implicit Types (h : HumanReadableGenerator Object).

Lemma TableHandler_fresh h columns t call :
  handlerMap h !! t = None ->
  TableHandler h columns (FuncValue [t] [tableRowSliceType; errorType] call)
  = mkRegistration
      (mkHumanReadableGenerator
         (<[t := mkHandlerEntry columns
                   (FuncValue [t] [tableRowSliceType; errorType] call)]> (handlerMap h)))
      [] None.
Proof. intros Hfresh. unfold TableHandler. simpl. now rewrite Hfresh. Qed.

Lemma TableHandler_taken h columns t call old :
  handlerMap h !! t = Some old ->
  TableHandler h columns (FuncValue [t] [tableRowSliceType; errorType] call)
  = mkRegistration h [ErrDuplicatePrinter t] (Some (ErrDuplicatePrinter t)).
Proof. intros Htaken. unfold TableHandler. simpl. now rewrite Htaken. Qed.

(** X1: the first registration for a type wins. After a print function
    is registered for a type that had no handler, registering another
    one for the same type returns the duplicate-printer error (also
    passed to the error handler) and leaves the generator as the first
    registration made it. *)
Theorem TableHandler_first_registration_wins h columns1 call1 columns2 call2 t :
  handlerMap h !! t = None ->
  let f1 := FuncValue [t] [tableRowSliceType; errorType] call1 in
  let f2 := FuncValue [t] [tableRowSliceType; errorType] call2 in
  let r1 := TableHandler h columns1 f1 in
  let r2 := TableHandler (reg_generator r1) columns2 f2 in
  reg_err r1 = None
  /\ reg_err r2 = Some (ErrDuplicatePrinter t)
  /\ reg_handled r2 = [ErrDuplicatePrinter t]
  /\ reg_generator r2 = reg_generator r1
  /\ handlerMap (reg_generator r2) !! t = Some (mkHandlerEntry columns1 f1).
Proof.
  intros Hfresh f1 f2 r1 r2. subst r2 r1 f1 f2.
  rewrite (TableHandler_fresh h columns1 t call1 Hfresh). simpl reg_generator.
  erewrite TableHandler_taken; [| simpl; apply lookup_insert_eq].
  simpl. repeat split; try reflexivity. apply lookup_insert_eq.
Qed.

Variable TypeOf : Object -> reflectType.
Variable ListAccessor : Object -> option ListMeta.
Variable CommonAccessor : Object -> option string.

(** X2: a registration is what [GenerateTable] then uses for objects of
    the registered type, and it changes nothing for objects of any other
    type: for the former the table has the rows the registered function
    returns (or its error is returned), for the latter the result is the
    one of the generator before the registration. *)
Theorem TableHandler_registration_is_used h columns call t :
  handlerMap h !! t = None ->
  let h' :=
    reg_generator
      (TableHandler h columns (FuncValue [t] [tableRowSliceType; errorType] call)) in
  (forall obj,
     TypeOf obj = t ->
     match call obj, GenerateTable TypeOf ListAccessor CommonAccessor h' obj with
     | (rows, None), inl table =>
         Rows table = rows /\ ColumnDefinitions table = defaultColumns columns
     | (_, Some err), inr err' => err' = err
     | _, _ => False
     end)
  /\ forall obj,
       TypeOf obj <> t ->
       GenerateTable TypeOf ListAccessor CommonAccessor h' obj
       = GenerateTable TypeOf ListAccessor CommonAccessor h obj.
Proof.
  intros Hfresh h'. subst h'. rewrite (TableHandler_fresh h columns t call Hfresh).
  simpl reg_generator. split.
  - intros obj Ht. unfold GenerateTable. simpl handlerMap.
    rewrite Ht, lookup_insert_eq. cbn [printFunc columnDefinitions].
    rewrite columnStep_fold.
    destruct (call obj) as [rows [err |]]; [reflexivity |].
    destruct (ListAccessor obj); [| destruct (CommonAccessor obj)]; simpl; auto.
  - intros obj Hne. unfold GenerateTable. simpl handlerMap.
    rewrite lookup_insert_ne by congruence. reflexivity.
Qed.

Lemma GenerateTable_no_handler h (obj : Object) :
  handlerMap h !! TypeOf obj = None ->
  GenerateTable TypeOf ListAccessor CommonAccessor h obj
  = inr (ErrNoTableHandler (TypeOf obj)).
Proof. intros Hnone. unfold GenerateTable. cbv zeta. now rewrite Hnone. Qed.

(** X3: the pagination metadata of a generated table. When the object
    has list accessors the resource version, the continue token and the
    remaining item count are copied from them; when it only has object
    metadata the resource version alone is copied; otherwise all three
    are empty. *)
Theorem GenerateTable_pagination_metadata h (obj : Object) :
  match GenerateTable TypeOf ListAccessor CommonAccessor h obj with
  | inr _ => True
  | inl table =>
      match ListAccessor obj, CommonAccessor obj with
      | Some m, _ =>
          ResourceVersion table = lm_ResourceVersion m
          /\ Continue table = lm_Continue m
          /\ RemainingItemCount table = lm_RemainingItemCount m
      | None, Some resourceVersion =>
          ResourceVersion table = resourceVersion
          /\ Continue table = "" /\ RemainingItemCount table = None
      | None, None =>
          ResourceVersion table = "" /\ Continue table = ""
          /\ RemainingItemCount table = None
      end
  end.
Proof.
  unfold GenerateTable.
  destruct (handlerMap h !! TypeOf obj) as [handler |]; [| exact I].
  destruct (printFunc handler) as [ins outs call |]; [| exact I].
  destruct (call obj) as [rows [err |]]; [exact I |].
  destruct (ListAccessor obj) as [m |]; [| destruct (CommonAccessor obj) as [rv |]];
    simpl; auto.
Qed.

End RegistryFacts.

(** ** The handlers of [AddHandlers] and the supported kinds *)

Section AddHandlersFacts.

Context {Object : Type}.
Variable columnsFor : reflectType -> list TableColumnDefinition.
Variable printerFor : reflectType -> Object -> list TableRow * option Error.

(** Registering print functions for distinct types that have no handler
    yet: every call succeeds, each type gets its entry, and no other
    type is touched. *)
Lemma registerAll_lookup (types : list reflectType) (h : HumanReadableGenerator Object) :
  NoDup types ->
  (forall t, In t types -> handlerMap h !! t = None) ->
  let h' :=
    fold_left
      (fun h t => reg_generator (TableHandler h (columnsFor t) (printerValue printerFor t)))
      types h in
  registrationErrors columnsFor printerFor types h = List.map (fun _ => None) types
  /\ (forall t, In t types ->
        handlerMap h' !! t
        = Some (mkHandlerEntry (columnsFor t) (printerValue printerFor t)))
  /\ (forall t, ~ In t types -> handlerMap h' !! t = handlerMap h !! t).
Proof.
  revert h. induction types as [| t rest IH]; intros h Hnodup Hfresh; simpl.
  - split; [reflexivity |]. split; [intros t [] | reflexivity].
  - apply NoDup_cons in Hnodup as [Hnotin Hrest].
    rewrite list_elem_of_In in Hnotin.
    assert (Hstep : TableHandler h (columnsFor t) (printerValue printerFor t)
                    = mkRegistration
                        (mkHumanReadableGenerator
                           (<[t := mkHandlerEntry (columnsFor t)
                                     (printerValue printerFor t)]> (handlerMap h)))
                        [] None)
      by (apply TableHandler_fresh, Hfresh; now left).
    rewrite Hstep. simpl reg_generator. simpl reg_err.
    set (h1 := @mkHumanReadableGenerator Object _).
    destruct (IH h1 Hrest) as (Herrs & Hin & Hout).
    { intros t' Ht'. subst h1. simpl.
      rewrite lookup_insert_ne by (intros ->; contradiction).
      apply Hfresh. now right. }
    split; [now rewrite Herrs |]. split.
    + intros t' [<- | Ht']; [| now apply Hin].
      rewrite (Hout t Hnotin). subst h1. simpl. apply lookup_insert_eq.
    + intros t' Hnot. rewrite Hout by tauto. subst h1. simpl.
      apply lookup_insert_ne. intros ->. apply Hnot. now left.
Qed.

Lemma handlerTypes_NoDup : NoDup handlerTypes.
Proof. apply (bool_decide_unpack _). vm_compute. reflexivity. Qed.

(** The handlers of a new generator after [AddHandlers]. *)
Lemma AddHandlers_lookup (t : reflectType) :
  handlerMap (AddHandlers columnsFor printerFor NewTableGenerator) !! t
  = if existsb (String.eqb t) handlerTypes
    then Some (mkHandlerEntry (columnsFor t) (printerValue printerFor t))
    else None.
Proof.
  destruct (registerAll_lookup handlerTypes NewTableGenerator handlerTypes_NoDup)
    as (_ & Hin & Hout).
  { intros t' _. simpl. apply lookup_empty. }
  unfold AddHandlers.
  destruct (existsb (String.eqb t) handlerTypes) eqn:Hmem.
  - apply Hin. apply existsb_exists in Hmem as (t' & Ht' & Heq).
    apply String.eqb_eq in Heq. now subst.
  - rewrite Hout; [simpl; apply lookup_empty |].
    intros Ht. assert (existsb (String.eqb t) handlerTypes = true); [| congruence].
    apply existsb_exists. exists t. split; [exact Ht | apply String.eqb_refl].
Qed.

(** X4: every call of [TableHandler] in [AddHandlers] on a new generator
    succeeds (the 42 print functions have 42 different parameter types,
    so none is a duplicate), and afterwards the generator has a handler
    exactly for these types. *)
Theorem AddHandlers_registers_every_print_function :
  let h := AddHandlers columnsFor printerFor NewTableGenerator in
  registrationErrors columnsFor printerFor handlerTypes NewTableGenerator
  = repeat None 42
  /\ forall t,
       handlerMap h !! t
       = if existsb (String.eqb t) handlerTypes
         then Some (mkHandlerEntry (columnsFor t) (printerValue printerFor t))
         else None.
Proof.
  destruct (registerAll_lookup handlerTypes NewTableGenerator handlerTypes_NoDup)
    as (Herrs & _ & _).
  { intros t _. simpl. apply lookup_empty. }
  split; [exact Herrs | exact AddHandlers_lookup].
Qed.

(** Whether the list type of each supported kind has a print function
    in [AddHandlers], checked entry by entry. *)
Lemma mappingEntries_handlers :
  forallb
    (fun entry =>
       Bool.eqb (existsb (String.eqb (snd entry)) handlerTypes)
         (negb (existsb (String.eqb (fst entry)) kindsWithoutHandler)))
    mappingEntries
  = true.
Proof. vm_compute. reflexivity. Qed.

Variable TypeOf : Object -> reflectType.
Variable ListAccessor : Object -> option ListMeta.
Variable CommonAccessor : Object -> option string.

(** X5: a supported kind is not always a kind with a handler. For the
    kinds CronJob, Role, ClusterRole and LimitRange the list object that
    [IsSupportedKind] returns has a type for which [AddHandlers]
    registers no print function (for CronJob the v1beta1 list, while the
    print function takes the v1 list), so [GenerateTable] returns the
    no-handler error for it; for every other supported kind the handler
    is there. *)
Theorem supported_kinds_without_handler (kind : string) (t : reflectType) :
  IsSupportedKind kind = Some t ->
  let h := AddHandlers columnsFor printerFor NewTableGenerator in
  (In kind kindsWithoutHandler ->
   handlerMap h !! t = None
   /\ forall obj,
        TypeOf obj = t ->
        GenerateTable TypeOf ListAccessor CommonAccessor h obj
        = inr (ErrNoTableHandler t))
  /\ (~ In kind kindsWithoutHandler ->
      handlerMap h !! t
      = Some (mkHandlerEntry (columnsFor t) (printerValue printerFor t))).
Proof.
  intros Hkind h.
  assert (Hentry : In (kind, t) mappingEntries).
  { unfold IsSupportedKind in Hkind.
    destruct (mapping !! kind) eqn:Hm; [| discriminate].
    injection Hkind as ->.
    apply list_elem_of_In. now apply elem_of_list_to_map_2. }
  pose proof mappingEntries_handlers as Hall.
  rewrite forallb_forall in Hall. specialize (Hall _ Hentry). cbn [fst snd] in Hall.
  apply Bool.eqb_prop in Hall.
  pose proof (AddHandlers_lookup t) as Hlookup. fold h in Hlookup. clearbody h.
  rewrite Hall in Hlookup. clear Hall.
  split.
  - intros Hin.
    assert (Hmem : existsb (String.eqb kind) kindsWithoutHandler = true).
    { apply existsb_exists. exists kind. split; [exact Hin | apply String.eqb_refl]. }
    rewrite Hmem in Hlookup. cbn [negb] in Hlookup. split; [exact Hlookup |].
    intros obj Ht. subst t. now apply GenerateTable_no_handler.
  - intros Hnot.
    destruct (existsb (String.eqb kind) kindsWithoutHandler) eqn:Hmem;
      [| exact Hlookup].
    exfalso. apply Hnot. apply existsb_exists in Hmem as (k & Hk & Heq).
    apply String.eqb_eq in Heq. now subst.
Qed.

End AddHandlersFacts.

(** ** Pods *)

Lemma initContainerStep_total containers acc :
  snd (fold_left initContainerStep containers acc)
  = snd acc + Z.of_nat (List.length (List.filter isRestartable containers)).
Proof.
  revert acc. induction containers as [| c rest IH]; intros [m n];
    cbn [fold_left List.filter List.length snd].
  - lia.
  - rewrite IH.
    assert (Hstep : snd (initContainerStep (m, n) c)
                    = n + (if isRestartable c then 1 else 0)).
    { unfold initContainerStep, isRestartable.
      destruct (IsRestartableInitContainer (Some c)); simpl; lia. }
    rewrite Hstep. cbn [List.filter snd].
    destruct (isRestartable c); cbn [List.length]; lia.
Qed.

Lemma addRestartableInitContainerRestarts_ready v c :
  readyContainers (addRestartableInitContainerRestarts v c) = readyContainers v.
Proof.
  unfold addRestartableInitContainerRestarts.
  destruct (Terminated (cs_LastTerminationState c)); simpl; [| reflexivity].
  now destruct (Time_Before _ _).
Qed.

(** The init loop counts at most one ready container per status. *)
Lemma initLoop_ready initContainers nInit statuses i v :
  readyContainers v
  <= readyContainers (initLoop initContainers nInit statuses i v)
  <= readyContainers v + Z.of_nat (List.length statuses).
Proof.
  revert i v. induction statuses as [| c rest IH]; intros i v.
  - simpl. lia.
  - cbn [initLoop List.length].
    set (v1 := if IsRestartableInitContainer (initContainers !! cs_Name c)
               then addRestartableInitContainerRestarts (addRestarts v c) c
               else addRestarts v c).
    assert (Hv1 : readyContainers v1 = readyContainers v).
    { subst v1. destruct (addRestarts_frame v c) as (_ & _ & _ & Hr).
      destruct (IsRestartableInitContainer _);
        now rewrite ?addRestartableInitContainerRestarts_ready, Hr. }
    repeat case_if.
    + specialize (IH (i + 1) v1). lia.
    + specialize (IH (i + 1) (set_readyContainers v1 (readyContainers v1 + 1))).
      simpl in IH. lia.
    + specialize (IH (i + 1) v1). lia.
    + destruct (Terminated (cs_State c)), (Waiting (cs_State c));
        repeat case_if; simpl; lia.
Qed.

Lemma containerStep_ready v c :
  readyContainers (containerStep v c)
  = readyContainers v + (if stillRunning c then 1 else 0).
Proof.
  destruct (addRestarts_frame v c) as (_ & _ & _ & Hr).
  unfold containerStep, stillRunning, containerReason.
  destruct (Waiting (cs_State c)) as [w |], (Terminated (cs_State c)) as [t |];
    try destruct (String.eqb (csw_Reason w) ""); simpl;
    try (destruct (String.eqb (cst_Reason t) ""), (cst_Signal t =? 0)); simpl;
    rewrite ?Hr; try lia;
    destruct (cs_Ready c), (Running (cs_State c)); simpl; rewrite ?Hr; lia.
Qed.

Lemma containerScan_ready statuses v :
  readyContainers (fold_left containerStep (rev statuses) v)
  = readyContainers v + Z.of_nat (List.length (List.filter stillRunning statuses)).
Proof.
  induction statuses as [| c rest IH]; simpl.
  - lia.
  - rewrite fold_left_app. simpl. rewrite containerStep_ready, IH.
    destruct (stillRunning c); simpl List.length; lia.
Qed.

Lemma mainPhase_ready pod v :
  readyContainers (mainPhase pod v)
  = readyContainers v
    + Z.of_nat (List.length (List.filter stillRunning (ContainerStatuses (Status pod)))).
Proof.
  unfold mainPhase. set (v0 := set_hasRunning _ false).
  pose proof (containerScan_ready (ContainerStatuses (Status pod)) v0) as H.
  change (readyContainers v0) with (readyContainers v) in H.
  repeat case_if; simpl; exact H.
Qed.

Lemma deletionOverrides_ready pod v :
  readyContainers (deletionOverrides pod v) = readyContainers v.
Proof. unfold deletionOverrides. repeat case_if; reflexivity. Qed.

Lemma filter_length_le {A : Type} (f : A -> bool) (l : list A) :
  (List.length (List.filter f l) <= List.length l)%nat.
Proof.
  induction l as [| x l IH]; simpl; [lia |]. destruct (f x); simpl; lia.
Qed.

Lemma printPod_ready_row HumanDuration now pod :
  exists row,
    printPod HumanDuration now pod = ([row], None)
    /\ nth_error (Cells row) 1
       = Some (CellString
                 (Itoa (readyContainers (podState pod)) +:+ "/"
                  +:+ Itoa (snd (initContainersOf pod)))).
Proof. unfold printPod. eexists. split; reflexivity. Qed.

(** X6: the Ready cell of a Pod is "<ready>/<total>", where <total> is
    the number of containers of the spec plus the number of its init
    containers with restart policy Always, and <ready> is at least 0 and
    at most the number of init container and container statuses. *)
Theorem printPod_ready_cell HumanDuration now (pod : Pod) :
  exists row ready,
    printPod HumanDuration now pod = ([row], None)
    /\ nth_error (Cells row) 1
       = Some (CellString
                 (Itoa ready +:+ "/"
                  +:+ Itoa (Z.of_nat (List.length (Containers (Spec pod)))
                            + Z.of_nat (List.length
                                          (List.filter isRestartable
                                             (InitContainers (Spec pod)))))))
    /\ 0 <= ready
       <= Z.of_nat (List.length (InitContainerStatuses (Status pod)))
          + Z.of_nat (List.length (ContainerStatuses (Status pod))).
Proof.
  destruct (printPod_ready_row HumanDuration now pod) as (row & Hrow & Hcell).
  exists row, (readyContainers (podState pod)).
  split; [exact Hrow |]. split.
  - rewrite Hcell. unfold initContainersOf. rewrite initContainerStep_total.
    reflexivity.
  - unfold podState. rewrite deletionOverrides_ready.
    pose proof (initLoop_ready (fst (initContainersOf pod))
                  (Z.of_nat (List.length (InitContainers (Spec pod))))
                  (InitContainerStatuses (Status pod)) 0
                  (mkPodVars 0 0 0 0 0 (initialReason pod) false false)) as Hinit.
    fold (podAfterInit pod) in Hinit. simpl readyContainers in Hinit.
    pose proof (filter_length_le stillRunning (ContainerStatuses (Status pod))) as Hle.
    destruct (mainPhaseRuns pod (podAfterInit pod)).
    + rewrite mainPhase_ready. lia.
    + lia.
Qed.

(** X7: a Pod that carries a deletion timestamp. When its status reason
    is "NodeLost" the Status cell is "Unknown"; otherwise, when its
    phase is neither Succeeded nor Failed, the cell is "Terminating";
    both hold whatever the containers report. *)
Theorem printPod_deleted HumanDuration now (pod : Pod) :
  TimePtr_IsZero (pod_DeletionTimestamp pod) = false ->
  exists row,
    printPod HumanDuration now pod = ([row], None)
    /\ (Reason (Status pod) = NodeUnreachablePodReason ->
        nth_error (Cells row) 2 = Some (CellString "Unknown"))
    /\ (Reason (Status pod) <> NodeUnreachablePodReason ->
        IsPodPhaseTerminal (Phase (Status pod)) = false ->
        nth_error (Cells row) 2 = Some (CellString "Terminating")).
Proof.
  intros Hdeleted.
  destruct (printPod_row HumanDuration now pod) as (row & Hrow & Hcell & _).
  exists row. split; [exact Hrow |].
  rewrite Hcell. unfold podState, deletionOverrides. rewrite Hdeleted.
  cbn [negb andb]. split.
  - intros ->. now rewrite String.eqb_refl.
  - intros Hreason Hphase. apply String.eqb_neq in Hreason.
    now rewrite Hreason, Hphase.
Qed.

(** The scheduling gate: the reason is forced when a condition gates
    the scheduling, and is left alone otherwise. *)
Lemma schedulingGated_fold conditions r :
  fold_left schedulingGatedStep conditions r
  = if existsb isSchedulingGated conditions then PodReasonSchedulingGated else r.
Proof.
  revert r. induction conditions as [| c rest IH]; intros r; simpl; [reflexivity |].
  rewrite IH. unfold schedulingGatedStep, isSchedulingGated.
  destruct (String.eqb (pc_Type c) PodScheduled && _); simpl; [| reflexivity].
  now destruct (existsb _ rest).
Qed.

Lemma firstContainerReason_healthy statuses :
  forallb healthy statuses = true ->
  firstContainerReason statuses = None
  /\ List.filter stillRunning statuses = statuses.
Proof.
  induction statuses as [| c rest IH]; cbn [forallb firstContainerReason List.filter];
    [auto |].
  intros H. apply andb_true_iff in H as [Hc Hrest].
  destruct (IH Hrest) as (IHr & IHf).
  assert (Hc' : containerReason c = None /\ stillRunning c = true).
  { unfold healthy in Hc. unfold stillRunning, containerReason.
    destruct (cs_Ready c); [| discriminate].
    destruct (Waiting (cs_State c)), (Running (cs_State c)), (Terminated (cs_State c));
      try discriminate.
    split; reflexivity. }
  destruct Hc' as (Hreason & Hrunning).
  now rewrite Hreason, Hrunning, IHr, IHf.
Qed.

(** When no main container gives a reason and the reason is not
    "Completed", the scan of the main containers keeps it. *)
Lemma mainPhase_no_reason pod v :
  firstContainerReason (ContainerStatuses (Status pod)) = None ->
  String.eqb (reason v) "Completed" = false ->
  reason (mainPhase pod v) = reason v.
Proof.
  intros Hfirst Hne. unfold mainPhase. set (v0 := set_hasRunning _ false).
  destruct (containerScan (ContainerStatuses (Status pod)) v0) as (Hr & _).
  cbv zeta in Hr. rewrite Hfirst in Hr. change (reason v0) with (reason v) in Hr.
  rewrite Hr, Hne. cbn [andb]. exact Hr.
Qed.

(** X8: a healthy Pod. With phase Running, no status reason, no
    scheduling gate, no deletion timestamp, no init containers, and one
    ready status reporting Running (neither waiting nor terminated) for
    each of its n containers, the Ready cell is "n/n" and the Status cell
    is "Running". *)
Theorem printPod_healthy HumanDuration now (pod : Pod) :
  Phase (Status pod) = "Running" ->
  Reason (Status pod) = "" ->
  existsb isSchedulingGated (Conditions (Status pod)) = false ->
  pod_DeletionTimestamp pod = None ->
  InitContainers (Spec pod) = [] ->
  InitContainerStatuses (Status pod) = [] ->
  forallb healthy (ContainerStatuses (Status pod)) = true ->
  List.length (ContainerStatuses (Status pod)) = List.length (Containers (Spec pod)) ->
  exists row,
    printPod HumanDuration now pod = ([row], None)
    /\ nth_error (Cells row) 1
       = Some (CellString
                 (Itoa (Z.of_nat (List.length (Containers (Spec pod)))) +:+ "/"
                  +:+ Itoa (Z.of_nat (List.length (Containers (Spec pod))))))
    /\ nth_error (Cells row) 2 = Some (CellString "Running").
Proof.
  intros Hphase Hreason Hgate Hdel Hspec Hinit Hhealthy Hlen.
  destruct (firstContainerReason_healthy _ Hhealthy) as (Hfirst & Hfilter).
  assert (Hafter : podAfterInit pod = mkPodVars 0 0 0 0 0 "Running" false false).
  { unfold podAfterInit, initialReason. rewrite Hinit, Hreason, Hphase.
    cbn [initLoop]. now rewrite schedulingGated_fold, Hgate. }
  assert (Hstate : readyContainers (podState pod)
                   = Z.of_nat (List.length (Containers (Spec pod)))
                   /\ reason (podState pod) = "Running").
  { unfold podState. rewrite Hafter. unfold mainPhaseRuns. cbn [initializing negb orb].
    unfold deletionOverrides. rewrite Hdel. cbn [TimePtr_IsZero negb andb].
    split.
    - rewrite mainPhase_ready, Hfilter, Hlen. simpl. lia.
    - now rewrite mainPhase_no_reason. }
  destruct Hstate as (Hready & Hstatus).
  destruct (printPod_ready_row HumanDuration now pod) as (row & Hrow & Hcell1).
  destruct (printPod_row HumanDuration now pod) as (row' & Hrow' & Hcell2 & _).
  assert (row' = row) by congruence. subst row'.
  exists row. split; [exact Hrow |]. split.
  - rewrite Hcell1, Hready. unfold initContainersOf. rewrite initContainerStep_total.
    rewrite Hspec. simpl. now rewrite Z.add_0_r.
  - now rewrite Hcell2, Hstatus.
Qed.

(** X9: a Pod whose scheduling is gated. When a PodScheduled condition
    has the reason "SchedulingGated", there are no init container
    statuses, no main container gives a reason, and no deletion override
    applies, the Status cell is "SchedulingGated" whatever the phase and
    the status reason are. *)
Theorem printPod_scheduling_gated HumanDuration now (pod : Pod) :
  existsb isSchedulingGated (Conditions (Status pod)) = true ->
  InitContainerStatuses (Status pod) = [] ->
  firstContainerReason (ContainerStatuses (Status pod)) = None ->
  deletionOverrideApplies pod = false ->
  exists row,
    printPod HumanDuration now pod = ([row], None)
    /\ nth_error (Cells row) 2 = Some (CellString "SchedulingGated").
Proof.
  intros Hgate Hinit Hfirst Hdel.
  destruct (printPod_row HumanDuration now pod) as (row & Hrow & Hcell & _).
  exists row. split; [exact Hrow |]. rewrite Hcell. do 2 f_equal.
  unfold podState. rewrite (deletionOverrides_none _ _ Hdel).
  assert (Hafter : podAfterInit pod
                   = mkPodVars 0 0 0 0 0 PodReasonSchedulingGated false false).
  { unfold podAfterInit, initialReason. rewrite Hinit. cbn [initLoop].
    now rewrite schedulingGated_fold, Hgate. }
  rewrite Hafter. unfold mainPhaseRuns. cbn [initializing negb orb].
  now rewrite mainPhase_no_reason.
Qed.

(** The init loop steps over the init containers that exited with code
    0 and stops on a pending one with its index. *)
Lemma initLoop_pending initContainers nInit done blocker rest i v :
  forallb exitedZero done = true ->
  pendingInit blocker = true ->
  IsRestartableInitContainer (initContainers !! cs_Name blocker)
  && match cs_Started blocker with Some b => b | None => false end = false ->
  let v' := initLoop initContainers nInit (done ++ blocker :: rest) i v in
  initializing v' = true
  /\ reason v'
     = "Init:" +:+ Itoa (i + Z.of_nat (List.length done)) +:+ "/" +:+ Itoa nInit.
Proof.
  intros Hdone Hpending Hsidecar.
  revert i v. induction done as [| c done IH]; intros i v.
  - cbn [app initLoop List.length]. rewrite Hsidecar.
    unfold pendingInit in Hpending.
    destruct (Terminated (cs_State blocker)); [discriminate |].
    cbn [Z.of_nat]. rewrite Z.add_0_r.
    destruct (Waiting (cs_State blocker)) as [w |]; [| split; reflexivity].
    apply orb_true_iff in Hpending as [He | Hp].
    + apply String.eqb_eq in He. rewrite He. split; reflexivity.
    + rewrite Hp. cbn [negb]. rewrite andb_false_r. split; reflexivity.
  - cbn [forallb] in Hdone. apply andb_true_iff in Hdone as [Hc Hrest].
    cbn [app initLoop List.length]. unfold exitedZero in Hc.
    destruct (Terminated (cs_State c)) as [t |]; [| discriminate].
    rewrite Hc. specialize (IH Hrest (i + 1)).
    replace (i + Z.of_nat (S (List.length done)))
      with (i + 1 + Z.of_nat (List.length done)) by lia.
    apply IH.
Qed.

(** X10: the progress of initialization. When the first init container
    statuses all exited with code 0 and the next one is pending (not
    terminated, waiting at most with the reason "PodInitializing", and
    not a started restartable init container), the Initialized condition
    is not true and no deletion override applies, the Status cell is
    "Init:<i>/<n>", with <i> the number of init containers that exited
    and <n> the number of init containers of the spec. *)
Theorem printPod_init_progress HumanDuration now (pod : Pod) done blocker rest :
  InitContainerStatuses (Status pod) = done ++ blocker :: rest ->
  forallb exitedZero done = true ->
  pendingInit blocker = true ->
  startedSidecar pod blocker = false ->
  isPodInitializedConditionTrue (Status pod) = false ->
  deletionOverrideApplies pod = false ->
  exists row,
    printPod HumanDuration now pod = ([row], None)
    /\ nth_error (Cells row) 2
       = Some (CellString
                 ("Init:" +:+ Itoa (Z.of_nat (List.length done)) +:+ "/"
                  +:+ Itoa (Z.of_nat (List.length (InitContainers (Spec pod)))))).
Proof.
  intros Hstatuses Hdone Hpending Hsidecar Hinit Hdel.
  destruct (printPod_row HumanDuration now pod) as (row & Hrow & Hcell & _).
  exists row. split; [exact Hrow |]. rewrite Hcell. do 2 f_equal.
  unfold podState. rewrite (deletionOverrides_none _ _ Hdel).
  destruct (initLoop_pending (fst (initContainersOf pod))
              (Z.of_nat (List.length (InitContainers (Spec pod))))
              done blocker rest 0
              (mkPodVars 0 0 0 0 0 (initialReason pod) false false)
              Hdone Hpending Hsidecar) as (Hi & Hr).
  rewrite <- Hstatuses in Hi, Hr. fold (podAfterInit pod) in Hi, Hr.
  unfold mainPhaseRuns. rewrite Hi, Hinit. cbn [negb orb].
  rewrite Hr. reflexivity.
Qed.

(** ** Access modes *)

Lemma ContainsAccessMode_In modes mode :
  ContainsAccessMode modes mode = true <-> In mode modes.
Proof.
  unfold ContainsAccessMode. rewrite existsb_exists. split.
  - intros (m & Hin & Heq). apply String.eqb_eq in Heq. now subst.
  - intros Hin. exists mode. split; [exact Hin | apply String.eqb_refl].
Qed.

Lemma ContainsAccessMode_same a b mode :
  (forall m, In m a <-> In m b) ->
  ContainsAccessMode a mode = ContainsAccessMode b mode.
Proof.
  intros Hsame.
  destruct (ContainsAccessMode a mode) eqn:Ha, (ContainsAccessMode b mode) eqn:Hb;
    try reflexivity.
  - apply ContainsAccessMode_In, Hsame, ContainsAccessMode_In in Ha. congruence.
  - apply ContainsAccessMode_In, Hsame, ContainsAccessMode_In in Hb. congruence.
Qed.

(** The loop of [removeDuplicateAccessModes], from any list without
    duplicates. *)
Lemma removeDuplicates_fold modes accessModes :
  NoDup accessModes ->
  let result :=
    fold_left
      (fun acc m => if negb (ContainsAccessMode acc m) then acc ++ [m] else acc)
      modes accessModes in
  NoDup result
  /\ (forall m, In m result <-> In m accessModes \/ In m modes)
  /\ (NoDup (accessModes ++ modes) -> result = accessModes ++ modes).
Proof.
  revert accessModes. induction modes as [| x rest IH]; intros acc Hacc; simpl.
  - split; [exact Hacc |]. split; [intros m; tauto | now rewrite app_nil_r].
  - destruct (ContainsAccessMode acc x) eqn:Hx; simpl.
    + apply ContainsAccessMode_In in Hx.
      destruct (IH acc Hacc) as (Hnodup & Hmem & _).
      split; [exact Hnodup |]. split.
      * intros m. rewrite Hmem. split; [tauto |].
        intros [H | [<- | H]]; auto.
      * intros Hbad. exfalso. apply NoDup_app in Hbad as (_ & Hdisj & _).
        apply (Hdisj x); [now apply list_elem_of_In | left].
    + assert (Hnot : ~ In x acc).
      { intros Hin. apply ContainsAccessMode_In in Hin. congruence. }
      assert (Hacc' : NoDup (acc ++ [x])).
      { apply NoDup_app. split; [exact Hacc |]. split; [| apply NoDup_singleton].
        intros y Hy Hyx. apply list_elem_of_singleton in Hyx. subst y.
        apply Hnot. now apply list_elem_of_In. }
      destruct (IH (acc ++ [x]) Hacc') as (Hnodup & Hmem & Hsame).
      split; [exact Hnodup |]. split.
      * intros m. rewrite Hmem, in_app_iff. simpl. tauto.
      * intros Hall. rewrite <- app_assoc in Hsame. simpl in Hsame.
        now apply Hsame.
Qed.

(** X11: [removeDuplicateAccessModes] returns a list without duplicates
    that has exactly the modes of its argument, and returns the argument
    itself when it has no duplicates. *)
Theorem removeDuplicateAccessModes_spec (modes : list string) :
  NoDup (removeDuplicateAccessModes modes)
  /\ (forall m, In m (removeDuplicateAccessModes modes) <-> In m modes)
  /\ (NoDup modes -> removeDuplicateAccessModes modes = modes).
Proof.
  destruct (removeDuplicates_fold modes [] (@NoDup_nil_2 string)) as (Hnodup & Hmem & Hsame).
  split; [exact Hnodup |]. split.
  - intros m. rewrite (Hmem m). simpl. tauto.
  - exact Hsame.
Qed.

Lemma GetAccessModesAsString_abbreviations modes :
  GetAccessModesAsString modes
  = Join (List.map snd
            (List.filter (fun p => ContainsAccessMode modes (fst p))
               accessModeAbbreviations))
      ",".
Proof.
  unfold GetAccessModesAsString, accessModeAbbreviations.
  destruct (removeDuplicates_fold modes [] (@NoDup_nil_2 string)) as (_ & Hmem & _).
  fold (removeDuplicateAccessModes modes) in Hmem.
  assert (Hsame : forall mode,
            ContainsAccessMode (removeDuplicateAccessModes modes) mode
            = ContainsAccessMode modes mode).
  { intros mode. apply ContainsAccessMode_same. intros m. rewrite (Hmem m).
    simpl. tauto. }
  rewrite !Hsame. cbn [List.filter List.map fst snd].
  destruct (ContainsAccessMode modes ReadWriteOnce),
           (ContainsAccessMode modes ReadOnlyMany),
           (ContainsAccessMode modes ReadWriteMany),
           (ContainsAccessMode modes ReadWriteOncePod); reflexivity.
Qed.

(** X12: [GetAccessModesAsString] depends only on which modes occur:
    two lists with the same modes, in any order and with any repetitions,
    give the same string, which lists the abbreviations of the modes that
    occur in the fixed order RWO, ROX, RWX, RWOP (a mode without an
    abbreviation is left out). *)
Theorem GetAccessModesAsString_canonical (a b : list string) :
  (forall m, In m a <-> In m b) ->
  GetAccessModesAsString a = GetAccessModesAsString b
  /\ GetAccessModesAsString a
     = Join (List.map snd
               (List.filter (fun p => existsb (String.eqb (fst p)) a)
                  accessModeAbbreviations))
         ",".
Proof.
  intros Hsame. rewrite !GetAccessModesAsString_abbreviations. split.
  - do 2 f_equal. apply filter_ext. intros p. now apply ContainsAccessMode_same.
  - do 2 f_equal. apply filter_ext. intros p. unfold ContainsAccessMode.
    induction a as [| x a IH]; simpl; [reflexivity |].
    rewrite String.eqb_sym. f_equal.
    destruct (existsb (fun m => String.eqb m (fst p)) a) eqn:E1,
             (existsb (String.eqb (fst p)) a) eqn:E2; try reflexivity.
    + apply existsb_exists in E1 as (m & Hm & Heq).
      assert (existsb (String.eqb (fst p)) a = true); [| congruence].
      apply existsb_exists. exists m. split; [exact Hm | now rewrite String.eqb_sym].
    + apply existsb_exists in E2 as (m & Hm & Heq).
      assert (existsb (fun m => String.eqb m (fst p)) a = true); [| congruence].
      apply existsb_exists. exists m. split; [exact Hm | now rewrite String.eqb_sym].
Qed.

(** ** Subjects *)

Lemma SubjectsStrings_fold subjects users groups sas others :
  fold_left subjectStep subjects (users, groups, sas, others)
  = (users
     ++ List.map subj_Name
          (List.filter (fun s => String.eqb (subj_Kind s) UserKind) subjects),
     groups
     ++ List.map subj_Name
          (List.filter (fun s => String.eqb (subj_Kind s) GroupKind) subjects),
     sas
     ++ List.map (fun s => subj_Namespace s +:+ "/" +:+ subj_Name s)
          (List.filter (fun s => String.eqb (subj_Kind s) ServiceAccountKind) subjects),
     others
     ++ List.map
          (fun s => subj_Kind s +:+ "/" +:+ subj_Namespace s +:+ "/" +:+ subj_Name s)
          (List.filter isOtherSubject subjects)).
Proof.
  revert users groups sas others.
  induction subjects as [| s rest IH]; intros users groups sas others.
  - simpl. now rewrite !app_nil_r.
  - cbn [fold_left List.filter]. unfold subjectStep at 2, isOtherSubject at 1.
    destruct (String.eqb (subj_Kind s) ServiceAccountKind) eqn:Esa.
    { apply String.eqb_eq in Esa. rewrite Esa. simpl. rewrite IH.
      now rewrite <- app_assoc. }
    destruct (String.eqb (subj_Kind s) UserKind) eqn:Eu.
    { apply String.eqb_eq in Eu. rewrite Eu. simpl. rewrite IH.
      now rewrite <- app_assoc. }
    destruct (String.eqb (subj_Kind s) GroupKind) eqn:Eg; simpl; rewrite IH;
      now rewrite <- app_assoc.
Qed.

Lemma subject_kinds_partition subjects :
  (List.length (List.filter (fun s => String.eqb (subj_Kind s) UserKind) subjects)
   + List.length (List.filter (fun s => String.eqb (subj_Kind s) GroupKind) subjects)
   + List.length
       (List.filter (fun s => String.eqb (subj_Kind s) ServiceAccountKind) subjects)
   + List.length (List.filter isOtherSubject subjects)
   = List.length subjects)%nat.
Proof.
  induction subjects as [| s rest IH]; [reflexivity |].
  cbn [List.filter]. unfold isOtherSubject at 1.
  destruct (String.eqb (subj_Kind s) ServiceAccountKind) eqn:Esa.
  { apply String.eqb_eq in Esa. rewrite Esa. simpl. lia. }
  destruct (String.eqb (subj_Kind s) UserKind) eqn:Eu.
  { apply String.eqb_eq in Eu. rewrite Eu. simpl. lia. }
  destruct (String.eqb (subj_Kind s) GroupKind) eqn:Eg; simpl; lia.
Qed.

(** X13: [SubjectsStrings] sorts every subject into exactly one of its
    four results and keeps the order: the users and the groups are the
    names of the subjects of kind User and Group, the service accounts
    are "<namespace>/<name>" of those of kind ServiceAccount, and every
    subject of another kind is "<kind>/<namespace>/<name>" among the
    others; the four lengths add up to the number of subjects. *)
Theorem SubjectsStrings_partition (subjects : list Subject) :
  let '(users, groups, sas, others) := SubjectsStrings subjects in
  users
  = List.map subj_Name
      (List.filter (fun s => String.eqb (subj_Kind s) UserKind) subjects)
  /\ groups
     = List.map subj_Name
         (List.filter (fun s => String.eqb (subj_Kind s) GroupKind) subjects)
  /\ sas
     = List.map (fun s => subj_Namespace s +:+ "/" +:+ subj_Name s)
         (List.filter (fun s => String.eqb (subj_Kind s) ServiceAccountKind) subjects)
  /\ others
     = List.map
         (fun s => subj_Kind s +:+ "/" +:+ subj_Namespace s +:+ "/" +:+ subj_Name s)
         (List.filter isOtherSubject subjects)
  /\ (List.length users + List.length groups + List.length sas + List.length others
      = List.length subjects)%nat.
Proof.
  unfold SubjectsStrings. rewrite SubjectsStrings_fold. simpl app.
  repeat split. rewrite !length_map. apply subject_kinds_partition.
Qed.

(** ** Hosts of an Ingress *)

Lemma string_length_zero s : (Z.of_nat (String.length s) =? 0) = String.eqb s "".
Proof. now destruct s. Qed.

Lemma hostsOf_snoc rules r :
  hostsOf (rules ++ [r])
  = hostsOf rules ++ (if String.eqb (ir_Host r) "" then [] else [ir_Host r]).
Proof.
  unfold hostsOf. rewrite List.map_app, List.filter_app. simpl.
  now destruct (String.eqb (ir_Host r) "").
Qed.

Lemma hostsOf_removelast rules :
  (List.length (hostsOf (removelast rules)) <= List.length (hostsOf rules)
   <= S (List.length (hostsOf (removelast rules))))%nat.
Proof.
  destruct rules as [| r rules] using rev_ind; [simpl; lia |].
  rewrite removelast_last, hostsOf_snoc, length_app.
  destruct (String.eqb (ir_Host r) ""); simpl; lia.
Qed.

Lemma hostStep_inv seen st rule :
  hostInv seen st -> hostInv (seen ++ [rule]) (hostStep 3 st rule).
Proof.
  destruct st as [shown more]. unfold hostInv. cbn [fst snd]. intros (Hl & Hm).
  rewrite removelast_last, hostsOf_snoc. unfold hostStep.
  pose proof (hostsOf_removelast seen) as Hle.
  rewrite string_length_zero, Hl, Hm, length_firstn. cbn [fst snd].
  destruct (Nat.leb_spec 3 (List.length (hostsOf seen))) as [Hge | Hlt].
  - rewrite Nat.min_l by lia. change (Z.of_nat 3 =? 3) with true. cbn [negb andb].
    split; [| reflexivity].
    rewrite firstn_app. replace (3 - List.length (hostsOf seen))%nat with 0%nat by lia.
    now rewrite firstn_O, app_nil_r.
  - rewrite Nat.min_r by lia.
    destruct (Z.eqb_spec (Z.of_nat (List.length (hostsOf seen))) 3) as [Hbad | _];
      [lia |].
    destruct (Nat.leb_spec 3 (List.length (hostsOf (removelast seen)))) as [Hbad | _];
      [lia |].
    cbn [negb andb]. split; [| reflexivity].
    rewrite (firstn_all2 (hostsOf seen)) by lia.
    destruct (String.eqb (ir_Host rule) ""); cbn [negb].
    + now rewrite app_nil_r, firstn_all2 by lia.
    + symmetry. apply firstn_all2. rewrite length_app. simpl. lia.
Qed.

Lemma hostLoop_inv rules seen st :
  hostInv seen st -> hostInv (seen ++ rules) (fold_left (hostStep 3) rules st).
Proof.
  revert seen st. induction rules as [| r rest IH]; intros seen st H; simpl.
  - now rewrite app_nil_r.
  - replace (seen ++ r :: rest) with ((seen ++ [r]) ++ rest) by now rewrite <- app_assoc.
    apply IH, hostStep_inv, H.
Qed.

Lemma formatHosts_eq rules : formatHosts rules = formatHosts_spec rules.
Proof.
  unfold formatHosts, formatHosts_spec.
  pose proof (hostLoop_inv rules [] ([], false)) as Hinv.
  destruct (fold_left (hostStep 3) rules ([], false)) as [shown more].
  destruct Hinv as (Hl & Hm); [split; reflexivity |].
  cbn [app fst snd] in Hl, Hm. subst shown more.
  pose proof (hostsOf_removelast rules) as Hle.
  destruct (hostsOf rules) as [| h hosts] eqn:Hhosts; [reflexivity |].
  cbn [firstn List.length]. change (Z.of_nat (S _) =? 0) with false at 1.
  cbv iota.
  destruct (Nat.leb_spec 3 (List.length (hostsOf (removelast rules)))) as [Hge | Hlt];
    [reflexivity |].
  f_equal. change (h :: firstn 2 hosts) with (firstn 3 (h :: hosts)).
  apply firstn_all2. simpl in *. lia.
Qed.

(** X14: [formatHosts] shows the first three hosts of the rules that
    have one, and "*" when no rule has a host. It declares an overflow
    as soon as any rule follows the third host, and the number it gives
    is the number of rules minus three, whether or not those rules have
    a host: when every rule has a host this is the number of hosts left
    out, but three hosts followed by a rule without host give
    "+ 1 more...". *)
Theorem formatHosts_counts_rules (rules : list IngressRule) :
  formatHosts rules = formatHosts_spec rules
  /\ (Forall (fun r => ir_Host r <> "") rules ->
      formatHosts rules
      = match rules with
        | [] => "*"
        | _ :: _ =>
            if (3 <? List.length rules)%nat
            then Join (firstn 3 (List.map ir_Host rules)) ","
                 +:+ " + " +:+ Itoa (Z.of_nat (List.length rules) - 3) +:+ " more..."
            else Join (List.map ir_Host rules) ","
        end)
  /\ forall h1 h2 h3,
       h1 <> "" -> h2 <> "" -> h3 <> "" ->
       formatHosts
         [mkIngressRule h1; mkIngressRule h2; mkIngressRule h3; mkIngressRule ""]
       = Join [h1; h2; h3] "," +:+ " + 1 more...".
Proof.
  split; [apply formatHosts_eq |]. split.
  - intros Hall. rewrite formatHosts_eq. unfold formatHosts_spec.
    assert (Hhosts : forall l, Forall (fun r => ir_Host r <> "") l ->
                               hostsOf l = List.map ir_Host l).
    { intros l Hl. unfold hostsOf. induction Hl as [| r l Hr Hl IH]; [reflexivity |].
      simpl. apply String.eqb_neq in Hr. rewrite Hr. simpl. now f_equal. }
    rewrite (Hhosts rules Hall).
    destruct rules as [| r rules]; [reflexivity |].
    cbn [List.map].
    assert (Hlast : Forall (fun r => ir_Host r <> "") (removelast (r :: rules))).
    { apply List.Forall_forall. intros x Hx. rewrite List.Forall_forall in Hall.
      apply Hall. destruct (exists_last (l := r :: rules)) as (l' & a & Heq);
        [discriminate |].
      rewrite Heq in *. rewrite removelast_last in Hx. apply in_or_app. now left. }
    rewrite (Hhosts _ Hlast), length_map.
    assert (Hlen : List.length (removelast (r :: rules)) = List.length rules).
    { destruct (exists_last (l := r :: rules)) as (l' & a & Heq); [discriminate |].
      rewrite Heq, removelast_last.
      apply (f_equal (@List.length _)) in Heq. rewrite length_app in Heq.
      simpl in Heq. lia. }
    rewrite Hlen. cbn [List.length].
    destruct (Nat.leb_spec 3 (List.length rules)), (Nat.ltb_spec 3 (S (List.length rules)));
      try lia; reflexivity.
  - intros h1 h2 h3 H1 H2 H3. rewrite formatHosts_eq.
    destruct h1 as [| a1 h1]; [contradiction |].
    destruct h2 as [| a2 h2]; [contradiction |].
    destruct h3 as [| a3 h3]; [contradiction |].
    reflexivity.
Qed.

(** ** Ports of an EndpointSlice *)

Lemma portLoop_addresses ports st :
  fold_left (portStep 3) ports st
  = fold_left (addressStep 3) (List.map discoveryPortString ports) st.
Proof.
  revert st. induction ports as [| p rest IH]; intros st; simpl; [reflexivity |].
  now rewrite IH.
Qed.

(** X15: [formatDiscoveryPorts] shows each port by its number, else by
    its name, else as "*"; it keeps the first three in their order and,
    when there are more, appends " + <n> more..." with <n> the number of
    ports beyond the three; without any port it returns "<unset>". *)
Theorem formatDiscoveryPorts_truncates (ports : list DiscoveryEndpointPort) :
  formatDiscoveryPorts ports
  = truncatedList_spec 3 (List.map discoveryPortString ports)
  /\ formatDiscoveryPorts [] = "<unset>".
Proof.
  split; [| reflexivity].
  unfold formatDiscoveryPorts, truncatedList_spec, listWithMoreString.
  rewrite portLoop_addresses.
  destruct (addresses_inv (List.map discoveryPortString ports) []
              (mkListState [] false 0)) as (Hl & Hm & Hc).
  { repeat split. }
  simpl app in Hl, Hm, Hc. rewrite Hl, Hm, Hc.
  destruct (Nat.ltb_spec 3 (List.length (List.map discoveryPortString ports)))
    as [Hgt | Hle].
  - do 4 f_equal. lia.
  - now rewrite firstn_all2 by lia.
Qed.

(** ** Endpoints *)

(** Appending the addresses of one group of entries keeps the state of
    [formatEndpoints] in step with the entries seen. *)
Lemma appendAddresses_inv show addresses seen shown more :
  shown = firstn 3 seen ->
  more = (3 <? List.length seen)%nat ->
  let '(shown', more') := appendAddresses 3 show addresses shown more in
  shown' = firstn 3 (seen ++ List.map show addresses)
  /\ more' = (3 <? List.length (seen ++ List.map show addresses))%nat.
Proof.
  revert seen shown more.
  induction addresses as [| a rest IH]; intros seen shown more Hl Hm.
  - simpl. now rewrite app_nil_r.
  - cbn [appendAddresses List.map].
    assert (Hlen : List.length shown = Nat.min 3 (List.length seen))
      by (now rewrite Hl, length_firstn).
    destruct (Z.eqb_spec (Z.of_nat (List.length shown)) 3) as [Hfull | Hroom].
    + assert (3 <= List.length seen)%nat by lia.
      rewrite firstn_app, length_app.
      replace (3 - List.length seen)%nat with 0%nat by lia.
      rewrite firstn_O, app_nil_r. split; [exact Hl |].
      symmetry. apply Nat.ltb_lt. simpl. lia.
    + assert (Hlt : (List.length seen < 3)%nat) by lia.
      replace (seen ++ show a :: List.map show rest)
        with ((seen ++ [show a]) ++ List.map show rest) by now rewrite <- app_assoc.
      apply IH.
      * rewrite Hl, (firstn_all2 seen) by lia.
        symmetry. apply firstn_all2. rewrite length_app. simpl. lia.
      * rewrite Hm, length_app. simpl.
        destruct (Nat.ltb_spec 3 (List.length seen)),
                 (Nat.ltb_spec 3 (List.length seen + 1)); try lia; reflexivity.
Qed.

Section FormatEndpointsFacts.

Variable JoinHostPort : string -> string -> string.

Lemma appendAddresses_entries show addresses seen st :
  entriesInv seen st ->
  entriesInv (seen ++ List.map show addresses)
    (let '(shown, more, count) := st in
     let count := count + Z.of_nat (List.length addresses) in
     let '(shown, more) := appendAddresses 3 show addresses shown more in
     (shown, more, count)).
Proof.
  destruct st as [[shown more] count]. unfold entriesInv. cbn [fst snd].
  intros (Hl & Hm & Hc).
  pose proof (appendAddresses_inv show addresses seen shown more Hl Hm) as H.
  destruct (appendAddresses 3 show addresses shown more) as [shown' more'].
  destruct H as (Hl' & Hm'). cbn [fst snd].
  split; [exact Hl' |]. split; [exact Hm' |].
  rewrite Hc, length_app, length_map. lia.
Qed.

Lemma portsOfSubset_inv ports addresses subsetPorts seen st :
  entriesInv seen st ->
  entriesInv
    (seen
     ++ flat_map
          (fun port =>
             if match ports with
                | None => true
                | Some selected => bool_decide (ept_Name port ∈ selected)
                end
             then List.map
                    (fun addr => JoinHostPort (ea_IP addr) (Itoa (ept_Port port)))
                    addresses
             else [])
          subsetPorts)
    (fold_left (portOfSubsetStep JoinHostPort ports 3 addresses) subsetPorts st).
Proof.
  revert seen st. induction subsetPorts as [| port rest IH]; intros seen st Hinv.
  - simpl. now rewrite app_nil_r.
  - cbn [fold_left flat_map]. rewrite app_assoc. apply IH.
    unfold portOfSubsetStep. destruct st as [[shown more] count].
    destruct (match ports with
              | None => true
              | Some selected => bool_decide (ept_Name port ∈ selected)
              end).
    + apply (appendAddresses_entries
               (fun addr => JoinHostPort (ea_IP addr) (Itoa (ept_Port port)))
               addresses seen (shown, more, count) Hinv).
    + now rewrite app_nil_r.
Qed.

Lemma subsetStep_inv ports seen st ss :
  entriesInv seen st ->
  entriesInv (seen ++ subsetEntries JoinHostPort ports ss)
    (subsetStep JoinHostPort ports 3 st ss).
Proof.
  intros Hinv. unfold subsetStep, subsetEntries.
  destruct st as [[shown more] count].
  destruct (es_Ports ss) as [| port subsetPorts] eqn:Hports.
  - cbn [List.length Z.of_nat Z.eqb].
    apply (appendAddresses_entries ea_IP (es_Addresses ss) seen (shown, more, count) Hinv).
  - change (Z.of_nat (List.length (port :: subsetPorts)) =? 0) with false. cbv iota.
    now apply portsOfSubset_inv.
Qed.

Lemma subsets_inv ports subsets seen st :
  entriesInv seen st ->
  entriesInv (seen ++ flat_map (subsetEntries JoinHostPort ports) subsets)
    (fold_left (subsetStep JoinHostPort ports 3) subsets st).
Proof.
  revert seen st. induction subsets as [| ss rest IH]; intros seen st Hinv.
  - simpl. now rewrite app_nil_r.
  - cbn [fold_left flat_map]. rewrite app_assoc. now apply IH, subsetStep_inv.
Qed.

(** X16: [formatEndpoints] returns "<none>" for an object without
    subsets. Otherwise its entries are, subset by subset, the addresses
    alone when the subset has no port, else for each selected port (all
    ports when [ports] is nil) the addresses joined with the port; it
    shows the first three entries and, when there are more, appends
    " + <n> more..." with <n> the number of entries beyond the three. An
    object with subsets but no entry gives the empty string, not
    "<none>". *)
Theorem formatEndpoints_truncates (endpoints : Endpoints) (ports : option (gset string)) :
  let entries := endpointEntries JoinHostPort endpoints ports in
  formatEndpoints JoinHostPort endpoints ports
  = match Subsets endpoints with
    | [] => "<none>"
    | _ :: _ =>
        if (3 <? List.length entries)%nat
        then Join (firstn 3 entries) ","
             +:+ " + " +:+ Itoa (Z.of_nat (List.length entries - 3)) +:+ " more..."
        else Join entries ","
    end
  /\ (Subsets endpoints <> [] -> entries = [] ->
      formatEndpoints JoinHostPort endpoints ports = "").
Proof.
  intros entries.
  assert (Hmain : formatEndpoints JoinHostPort endpoints ports
                  = match Subsets endpoints with
                    | [] => "<none>"
                    | _ :: _ =>
                        if (3 <? List.length entries)%nat
                        then Join (firstn 3 entries) ","
                             +:+ " + "
                             +:+ Itoa (Z.of_nat (List.length entries - 3))
                             +:+ " more..."
                        else Join entries ","
                    end).
  { subst entries. unfold formatEndpoints, endpointEntries.
    destruct (Subsets endpoints) as [| ss subsets] eqn:Hsubsets; [reflexivity |].
    change (Z.of_nat (List.length (ss :: subsets)) =? 0) with false. cbv iota zeta.
    pose proof (subsets_inv ports (ss :: subsets) [] ([], false, 0)) as Hinv.
    destruct (fold_left (subsetStep JoinHostPort ports 3) (ss :: subsets) ([], false, 0))
      as [[shown more] count].
    destruct Hinv as (Hl & Hm & Hc); [repeat split |].
    cbn [app fst snd] in Hl, Hm, Hc. subst shown more count.
    destruct (Nat.ltb_spec 3
                (List.length (flat_map (subsetEntries JoinHostPort ports) (ss :: subsets))))
      as [Hgt | Hle].
    - do 4 f_equal. lia.
    - now rewrite firstn_all2 by lia. }
  split; [exact Hmain |].
  intros Hsubsets Hnone. rewrite Hmain, Hnone.
  destruct (Subsets endpoints); [contradiction | reflexivity].
Qed.

End FormatEndpointsFacts.

(** ** Nodes *)

Lemma conditionMap_lookup conditions (m : gmap string NodeCondition) found t :
  m !! t = found ->
  fold_left (fun m cond => <[nc_Type cond := cond]> m) conditions m !! t
  = fold_left
      (fun found cond => if String.eqb (nc_Type cond) t then Some cond else found)
      conditions found.
Proof.
  revert m found. induction conditions as [| c rest IH]; intros m found Hm; simpl.
  - exact Hm.
  - apply IH. destruct (String.eqb_spec (nc_Type c) t) as [-> | Hne].
    + apply lookup_insert_eq.
    + now rewrite lookup_insert_ne.
Qed.

Lemma lastNodeCondition_type conditions t c :
  lastNodeCondition conditions t = Some c -> nc_Type c = t.
Proof.
  unfold lastNodeCondition.
  assert (H : forall found,
            (forall c', found = Some c' -> nc_Type c' = t) ->
            fold_left
              (fun found cond =>
                 if String.eqb (nc_Type cond) t then Some cond else found)
              conditions found = Some c ->
            nc_Type c = t).
  { induction conditions as [| x rest IH]; intros found Hfound; simpl.
    - intros Heq. now apply Hfound.
    - apply IH. intros c' Hc'.
      destruct (String.eqb_spec (nc_Type x) t) as [Heq | _].
      + injection Hc' as <-. exact Heq.
      + now apply Hfound. }
  apply H. discriminate.
Qed.

(** X17: the Status cell of a Node is decided by the last condition of
    type Ready in its list of conditions: "Ready" when its status is
    True, "NotReady" otherwise, and "Unknown" when there is no such
    condition; ",SchedulingDisabled" follows when the node is
    unschedulable. *)
Theorem printNode_status UnsortedList HumanDuration now (obj : Node) :
  exists row,
    printNode UnsortedList HumanDuration now obj = ([row], None)
    /\ nth_error (Cells row) 1
       = Some (CellString
                 (let status :=
                    match lastNodeCondition (node_Conditions obj) NodeReady with
                    | Some condition =>
                        if String.eqb (nc_Status condition) ConditionTrue then "Ready"
                        else "NotReady"
                    | None => "Unknown"
                    end in
                  if node_Unschedulable obj then status +:+ ",SchedulingDisabled"
                  else status)).
Proof.
  unfold printNode. eexists. split; [reflexivity |].
  cbn [Cells app nth_error fold_left]. do 2 f_equal.
  unfold nodeStatusStep, conditionMapOf.
  rewrite (conditionMap_lookup (node_Conditions obj) ∅ None NodeReady (lookup_empty _)).
  fold (lastNodeCondition (node_Conditions obj) NodeReady).
  destruct (lastNodeCondition (node_Conditions obj) NodeReady) as [c |] eqn:Hlast.
  - apply lastNodeCondition_type in Hlast. rewrite Hlast.
    destruct (String.eqb (nc_Status c) ConditionTrue), (node_Unschedulable obj);
      reflexivity.
  - destruct (node_Unschedulable obj); reflexivity.
Qed.

(** ** Container cells *)

Lemma string_app_assoc (a b c : string) : (a +:+ b) +:+ c = a +:+ (b +:+ c).
Proof.
  induction a as [| x a IH]; [reflexivity |].
  change (String x ((a +:+ b) +:+ c) = String x (a +:+ (b +:+ c))).
  now rewrite IH.
Qed.

Lemma string_app_nil_r (a : string) : a +:+ "" = a.
Proof.
  induction a as [| x a IH]; [reflexivity |].
  change (String x (a +:+ "") = String x a). now rewrite IH.
Qed.

Lemma layoutContainerCells_from_join containers i n names images :
  i + Z.of_nat (List.length containers) = n ->
  layoutContainerCells_from containers i n names images
  = (names +:+ Join (List.map ctr_Name containers) ",",
     images +:+ Join (List.map ctr_Image containers) ",").
Proof.
  revert i names images.
  induction containers as [| c rest IH]; intros i names images Hlen.
  - cbn [layoutContainerCells_from List.map Join].
    now rewrite !string_app_nil_r.
  - cbn [layoutContainerCells_from]. cbn [List.length] in Hlen.
    destruct rest as [| c' rest'].
    + destruct (Z.eqb_spec i (n - 1)) as [_ | Hbad];
        [| cbn [List.length] in Hlen; lia].
      cbn [negb layoutContainerCells_from List.map Join]. reflexivity.
    + destruct (Z.eqb_spec i (n - 1)) as [Hbad | _];
        [cbn [List.length] in Hlen; lia |].
      cbn [negb]. rewrite IH by (cbn [List.length] in *; lia).
      set (tl := c' :: rest'). cbn [List.map Join]. subst tl.
      cbn [List.map]. now rewrite !string_app_assoc.
Qed.

(** X18: [layoutContainerCells] returns the names and the images of the
    containers joined by commas, as [strings.Join] does: a comma between
    two containers and none after the last. *)
Theorem layoutContainerCells_join (containers : list Container) :
  layoutContainerCells containers
  = (Join (List.map ctr_Name containers) ",", Join (List.map ctr_Image containers) ",").
Proof.
  unfold layoutContainerCells.
  rewrite layoutContainerCells_from_join by lia. reflexivity.
Qed.

(** ** The order of FlowSchemas *)

(** X19: [FlowSchemaSequence.Less] is a strict total order on the pairs
    of matching precedence and name: of two schemas either one is less
    than the other and not conversely, or neither is, and then they have
    the same matching precedence and the same name. *)
Theorem FlowSchemaSequence_Less_total (x y : FlowSchema) :
  (FlowSchemaSequence_Less x y = true /\ FlowSchemaSequence_Less y x = false)
  \/ (FlowSchemaSequence_Less x y = false /\ FlowSchemaSequence_Less y x = true)
  \/ (FlowSchemaSequence_Less x y = false /\ FlowSchemaSequence_Less y x = false
      /\ fs_MatchingPrecedence x = fs_MatchingPrecedence y /\ fs_Name x = fs_Name y).
Proof.
  unfold FlowSchemaSequence_Less.
  destruct (Z.lt_trichotomy (fs_MatchingPrecedence x) (fs_MatchingPrecedence y))
    as [Hlt | [Heq | Hgt]].
  - left. destruct (Z.eqb_spec (fs_MatchingPrecedence x) (fs_MatchingPrecedence y)); [lia |].
    destruct (Z.eqb_spec (fs_MatchingPrecedence y) (fs_MatchingPrecedence x)); [lia |].
    simpl. split; [now apply Z.ltb_lt | apply Z.ltb_ge; lia].
  - rewrite Heq, !Z.eqb_refl. simpl.
    destruct (string_trichotomy (fs_Name x) (fs_Name y)) as [H | [H | H]].
    + left. split; [exact H | now apply string_ltb_asym].
    + right. right. rewrite H, string_ltb_irrefl. auto.
    + right. left. split; [now apply string_ltb_asym | exact H].
  - right. left.
    destruct (Z.eqb_spec (fs_MatchingPrecedence x) (fs_MatchingPrecedence y)); [lia |].
    destruct (Z.eqb_spec (fs_MatchingPrecedence y) (fs_MatchingPrecedence x)); [lia |].
    simpl. split; [apply Z.ltb_ge; lia | now apply Z.ltb_lt].
Qed.

(** ** Tables of Pods *)

Lemma printPod_shape HumanDuration now pod :
  exists row,
    printPod HumanDuration now pod = ([row], None)
    /\ List.length (Cells row) = 9%nat.
Proof. unfold printPod. eexists. split; reflexivity. Qed.

Lemma printPod_rows HumanDuration now items :
  let rows := concat (List.map (fun pod => fst (printPod HumanDuration now pod)) items) in
  List.length rows = List.length items
  /\ Forall (fun row => List.length (Cells row) = 9%nat) rows.
Proof.
  induction items as [| pod rest IH]; cbn [List.map concat]; [split; constructor |].
  destruct IH as (IHlen & IHall).
  destruct (printPod_shape HumanDuration now pod) as (row & Hrow & Hcells).
  rewrite Hrow. cbn [fst app List.length]. split; [now rewrite IHlen |].
  now constructor.
Qed.

(** X20: the table of a list of Pods. With the handler that
    [AddHandlers] registers for Pods (nine columns, the last four of
    priority 1), [GenerateTable] returns a table with the five columns of
    priority 0 and one row per Pod, and every row still has its nine
    cells: the cells of the columns left out are not removed. *)
Theorem GenerateTable_pod_rows_keep_all_cells (meta : ListMeta) (items : list Pod) :
  exists table,
    GenerateTable Resource_TypeOf Resource_ListAccessor Resource_CommonAccessor
      podGenerator (PodListResource meta items) = inl table
    /\ List.length podColumnDefinitions = 9%nat
    /\ List.length (ColumnDefinitions table) = 5%nat
    /\ List.length (Rows table) = List.length items
    /\ Forall (fun row => List.length (Cells row) = 9%nat) (Rows table).
Proof.
  pose proof podGenerator_lookup as Hlookup.
  change (Resource_TypeOf examplePodList) with podListType in Hlookup.
  unfold GenerateTable. cbv zeta.
  change (Resource_TypeOf (PodListResource meta items)) with podListType.
  rewrite Hlookup. cbn [printFunc printPodListValue columnDefinitions].
  unfold printPodList.
  rewrite printItems_rows by reflexivity. cbn [app Resource_ListAccessor].
  eexists. split; [reflexivity |]. cbn [ColumnDefinitions Rows].
  split; [reflexivity |]. split; [reflexivity |].
  apply printPod_rows.
Qed.

(** * Instances *)

Lemma TableHandler_first_registration_wins_witness :
  reg_err (TableHandler NewTableGenerator podColumnDefinitions printPodListValue) = None
  /\ reg_err (TableHandler podGenerator [] printPodListValue)
     = Some (ErrDuplicatePrinter podListType)
  /\ reg_handled (TableHandler podGenerator [] printPodListValue)
     = [ErrDuplicatePrinter podListType]
  /\ reg_generator (TableHandler podGenerator [] printPodListValue) = podGenerator
  /\ handlerMap (reg_generator (TableHandler podGenerator [] printPodListValue))
     !! podListType
     = Some (mkHandlerEntry podColumnDefinitions printPodListValue).
Proof.
  apply (TableHandler_first_registration_wins
           NewTableGenerator podColumnDefinitions printPodListCall
           [] printPodListCall podListType).
  reflexivity.
Defined.

Lemma TableHandler_registration_is_used_witness :
  (forall obj,
     Resource_TypeOf obj = podListType ->
     match
       printPodListCall obj,
       GenerateTable Resource_TypeOf Resource_ListAccessor Resource_CommonAccessor
         podGenerator obj
     with
     | (rows, None), inl table =>
         Rows table = rows /\ ColumnDefinitions table = defaultColumns podColumnDefinitions
     | (_, Some err), inr err' => err' = err
     | _, _ => False
     end)
  /\ forall obj,
       Resource_TypeOf obj <> podListType ->
       GenerateTable Resource_TypeOf Resource_ListAccessor Resource_CommonAccessor
         podGenerator obj
       = GenerateTable Resource_TypeOf Resource_ListAccessor Resource_CommonAccessor
           NewTableGenerator obj.
Proof.
  apply (TableHandler_registration_is_used
           Resource_TypeOf Resource_ListAccessor Resource_CommonAccessor
           NewTableGenerator podColumnDefinitions printPodListCall podListType).
  reflexivity.
Defined.

Lemma supported_kinds_without_handler_witness :
  (In "CronJob" kindsWithoutHandler ->
   handlerMap
     (AddHandlers (fun _ => podColumnDefinitions) (fun _ => printPodListCall)
        NewTableGenerator)
   !! cronJobListType = None
   /\ forall obj,
        Resource_TypeOf obj = cronJobListType ->
        GenerateTable Resource_TypeOf Resource_ListAccessor Resource_CommonAccessor
          (AddHandlers (fun _ => podColumnDefinitions) (fun _ => printPodListCall)
             NewTableGenerator)
          obj
        = inr (ErrNoTableHandler cronJobListType))
  /\ (~ In "CronJob" kindsWithoutHandler ->
      handlerMap
        (AddHandlers (fun _ => podColumnDefinitions) (fun _ => printPodListCall)
           NewTableGenerator)
      !! cronJobListType
      = Some (mkHandlerEntry podColumnDefinitions
                (printerValue (fun _ => printPodListCall) cronJobListType))).
Proof.
  apply (supported_kinds_without_handler
           (fun _ => podColumnDefinitions) (fun _ => printPodListCall)
           Resource_TypeOf Resource_ListAccessor Resource_CommonAccessor
           "CronJob" cronJobListType).
  vm_compute. reflexivity.
Defined.

Lemma printPod_deleted_witness :
  exists row,
    printPod secondsDuration exampleNow podDeleted = ([row], None)
    /\ (Reason (Status podDeleted) = NodeUnreachablePodReason ->
        nth_error (Cells row) 2 = Some (CellString "Unknown"))
    /\ (Reason (Status podDeleted) <> NodeUnreachablePodReason ->
        IsPodPhaseTerminal (Phase (Status podDeleted)) = false ->
        nth_error (Cells row) 2 = Some (CellString "Terminating")).
Proof.
  apply (printPod_deleted secondsDuration exampleNow podDeleted).
  reflexivity.
Defined.

Lemma printPod_healthy_witness :
  exists row,
    printPod secondsDuration exampleNow podZeroRestarts = ([row], None)
    /\ nth_error (Cells row) 1 = Some (CellString "1/1")
    /\ nth_error (Cells row) 2 = Some (CellString "Running").
Proof.
  apply (printPod_healthy secondsDuration exampleNow podZeroRestarts); reflexivity.
Defined.

Lemma printPod_scheduling_gated_witness :
  exists row,
    printPod secondsDuration exampleNow podGated = ([row], None)
    /\ nth_error (Cells row) 2 = Some (CellString "SchedulingGated").
Proof.
  apply (printPod_scheduling_gated secondsDuration exampleNow podGated); reflexivity.
Defined.

Lemma printPod_init_progress_witness :
  exists row,
    printPod secondsDuration exampleNow podInitializing = ([row], None)
    /\ nth_error (Cells row) 2 = Some (CellString "Init:1/2").
Proof.
  apply (printPod_init_progress secondsDuration exampleNow podInitializing
           [initDoneStatus] initPendingStatus []);
    reflexivity.
Defined.

Lemma GetAccessModesAsString_canonical_witness :
  GetAccessModesAsString [ReadWriteMany; ReadWriteOnce; ReadWriteMany]
  = GetAccessModesAsString [ReadWriteOnce; ReadWriteMany]
  /\ GetAccessModesAsString [ReadWriteMany; ReadWriteOnce; ReadWriteMany]
     = Join (List.map snd
               (List.filter
                  (fun p =>
                     existsb (String.eqb (fst p))
                       [ReadWriteMany; ReadWriteOnce; ReadWriteMany])
                  accessModeAbbreviations))
         ",".
Proof.
  apply (GetAccessModesAsString_canonical
           [ReadWriteMany; ReadWriteOnce; ReadWriteMany] [ReadWriteOnce; ReadWriteMany]).
  intros m. simpl. tauto.
Defined.

Lemma podState_restarts_witness :
  restarts (podState podZeroRestarts)
  = fold_right (fun c n => int_add n (cs_RestartCount c)) 0
      (ContainerStatuses (Status podZeroRestarts))
  /\ lastRestartDate (podState podZeroRestarts)
     = fold_right
         (fun c d =>
            match Terminated (cs_LastTerminationState c) with
            | Some t => Z.max d (cst_FinishedAt t)
            | None => d
            end)
         0 (ContainerStatuses (Status podZeroRestarts)).
Proof. apply (podState_restarts podZeroRestarts). reflexivity. Defined.
